(** * Skybox colour analyzer: a shallow embedding of [skybox_analyzer.py]

    The Python module analyses skybox screenshots named [XNN.png]
    (orientation letter, two-digit hour), samples pixel colours, computes a
    brightness summary and assembles a sorted report.  Every function of the
    module is translated below, in source order, keeping its name.

    Conventions of the embedding:
    - Python [int] is [Z]; Python [float] is the kernel's binary64 [float],
      which is bit-for-bit the arithmetic CPython uses;
    - a file name is a [string]: the bytes the operating system holds.  The
      program sees it as a [str], decoded as [os.fsdecode] does (UTF-8 with
      [surrogateescape], which is how [sys.argv] and [glob] deliver names);
      a [str] taken apart character by character is the list of its code
      points, and the Unicode tables are those of Unicode 14.0;
    - a computation that may raise returns [result]; [try ... except Exception]
      is a [match] on it;
    - a [dict] whose order is observable is an association list in insertion
      order;
    - [print] appends a [message] to the console log that is threaded through
      [analyze_image] and the main loop; the console is taken to accept every
      string. *)

From Stdlib Require Import ZArith List String Ascii Bool Lia.
From Stdlib Require Import Floats Uint63 Permutation Sorted OrderedTypeEx.
Import ListNotations.

Local Open Scope Z_scope.
Local Open Scope list_scope.

(* ================================================================= *)
(** ** Exceptions and the error monad *)

(** The exception classes the module can meet.  All of them derive from
    [Exception], so [except Exception] catches every one. *)
Inductive exn : Type :=
| IndexError          (* getpixel outside the image *)
| TypeError           (* len() of an int, format of a tuple, ... *)
| ZeroDivisionError   (* x / 0 *)
| ValueError          (* int(nan) *)
| OverflowError       (* int(inf) *)
| OSError.            (* Image.open on a missing or undecodable file *)

Inductive result (A : Type) : Type :=
| Ok (a : A)
| Raise (e : exn).
Arguments Ok {A} a.
Arguments Raise {A} e.

Definition bind {A B : Type} (m : result A) (k : A -> result B) : result B :=
  match m with
  | Ok a => k a
  | Raise e => Raise e
  end.

Declare Scope py_scope.
Delimit Scope py_scope with py.
Notation "x <- m ;; k" := (bind m (fun x => k))
  (at level 61, m at next level, right associativity) : py_scope.
Notation "' pat <- m ;; k" := (bind m (fun x => match x with pat => k end))
  (at level 61, pat pattern, m at next level, right associativity) : py_scope.
Local Open Scope py_scope.

Definition is_ok {A : Type} (m : result A) : bool :=
  match m with Ok _ => true | Raise _ => false end.

(** [range(n)]: the integers 0, 1, ..., n-1 (empty when [n <= 0]). *)
Definition py_range (n : Z) : list Z :=
  map Z.of_nat (seq 0 (Z.to_nat n)).

(* ================================================================= *)
(** ** Strings: the pieces of [str], [pathlib] and [re] the parser uses *)

Definition ascii_code (c : ascii) : Z := Z.of_N (N_of_ascii c).

Definition newline : ascii := "010"%char.
Definition slash : ascii := "/"%char.
Definition dot : ascii := "."%char.

(** Split a path on [/]: the components, empty ones included. *)
Fixpoint split_slash (cur : string) (s : string) : list string :=
  match s with
  | EmptyString => [cur]
  | String c s' =>
      if Ascii.eqb c slash then cur :: split_slash EmptyString s'
      else split_slash (cur ++ String c EmptyString)%string s'
  end.

(** [PurePath(p).name]: the last component once empty and ["."] components
    are dropped; [""] when none is left. *)
Definition path_name (p : string) : string :=
  let parts :=
    filter (fun c => negb (String.eqb c "" || String.eqb c "."))
           (split_slash EmptyString p) in
  last parts EmptyString.

(** [s.rfind('.')]: index of the last dot, if any. *)
Fixpoint rfind_dot (s : string) (i : Z) (found : option Z) : option Z :=
  match s with
  | EmptyString => found
  | String c s' =>
      rfind_dot s' (i + 1) (if Ascii.eqb c dot then Some i else found)
  end.

Definition str_len (s : string) : Z := Z.of_nat (String.length s).

(** [PurePath(p).stem]: the name without its last suffix.  A dot in first or
    last position starts no suffix. *)
Definition path_stem (p : string) : string :=
  let name := path_name p in
  match rfind_dot name 0 None with
  | Some i =>
      if (0 <? i) && (i <? str_len name - 1)
      then String.substring 0 (Z.to_nat i) name
      else name
  | None => name
  end.

(** [os.path.basename]: what follows the last [/]. *)
Definition basename (p : string) : string :=
  last (split_slash EmptyString p) EmptyString.

(* ----------------------------------------------------------------- *)
(** *** Code points: decoding, [str.upper] and decimal digits *)

(** The bytes of a file name, as integers. *)
Definition bytes_of (s : string) : list Z :=
  map ascii_code (list_ascii_of_string s).

Definition is_continuation (b : Z) : bool := (128 <=? b) && (b <=? 191).

(** The second byte a lead byte accepts: no overlong form, no surrogate,
    nothing above U+10FFFF. *)
Definition second_byte_ok (b0 b1 : Z) : bool :=
  if b0 =? 224 then (160 <=? b1) && (b1 <=? 191)
  else if b0 =? 237 then (128 <=? b1) && (b1 <=? 159)
  else if b0 =? 240 then (144 <=? b1) && (b1 <=? 191)
  else if b0 =? 244 then (128 <=? b1) && (b1 <=? 143)
  else is_continuation b1.

(** [os.fsdecode] on bytes: UTF-8 with the [surrogateescape] handler.  A
    well-formed sequence of one to four bytes gives its code point; a byte that
    starts none is kept as the lone surrogate U+DC00 + byte. *)
Fixpoint utf8_decode (bs : list Z) : list Z :=
  match bs with
  | [] => []
  | b0 :: r0 =>
      let escape := (56320 + b0) :: utf8_decode r0 in
      if b0 <? 128 then b0 :: utf8_decode r0
      else
        match r0 with
        | b1 :: r1 =>
            if (194 <=? b0) && (b0 <=? 223) then
              if is_continuation b1
              then ((b0 - 192) * 64 + (b1 - 128)) :: utf8_decode r1
              else escape
            else
              match r1 with
              | b2 :: r2 =>
                  if (224 <=? b0) && (b0 <=? 239) then
                    if second_byte_ok b0 b1 && is_continuation b2
                    then ((b0 - 224) * 4096 + (b1 - 128) * 64 + (b2 - 128))
                         :: utf8_decode r2
                    else escape
                  else
                    match r2 with
                    | b3 :: r3 =>
                        if (240 <=? b0) && (b0 <=? 244) && second_byte_ok b0 b1
                           && is_continuation b2 && is_continuation b3
                        then ((b0 - 240) * 262144 + (b1 - 128) * 4096
                              + (b2 - 128) * 64 + (b3 - 128))
                             :: utf8_decode r3
                        else escape
                    | [] => escape
                    end
              | [] => escape
              end
        | [] => escape
        end
  end.

Definition fsdecode (s : string) : list Z := utf8_decode (bytes_of s).

(** The code points [str.upper] changes, each with what it becomes (Unicode
    14.0, the character database of CPython 3.11). *)
Definition upper_table : list (Z * list Z) :=
  [
    (97, [65]); (98, [66]); (99, [67]); (100, [68]); (101, [69]); (102, [70]);
    (103, [71]); (104, [72]); (105, [73]); (106, [74]); (107, [75]);
    (108, [76]); (109, [77]); (110, [78]); (111, [79]); (112, [80]);
    (113, [81]); (114, [82]); (115, [83]); (116, [84]); (117, [85]);
    (118, [86]); (119, [87]); (120, [88]); (121, [89]); (122, [90]);
    (181, [924]); (223, [83; 83]); (224, [192]); (225, [193]); (226, [194]);
    (227, [195]); (228, [196]); (229, [197]); (230, [198]); (231, [199]);
    (232, [200]); (233, [201]); (234, [202]); (235, [203]); (236, [204]);
    (237, [205]); (238, [206]); (239, [207]); (240, [208]); (241, [209]);
    (242, [210]); (243, [211]); (244, [212]); (245, [213]); (246, [214]);
    (248, [216]); (249, [217]); (250, [218]); (251, [219]); (252, [220]);
    (253, [221]); (254, [222]); (255, [376]); (257, [256]); (259, [258]);
    (261, [260]); (263, [262]); (265, [264]); (267, [266]); (269, [268]);
    (271, [270]); (273, [272]); (275, [274]); (277, [276]); (279, [278]);
    (281, [280]); (283, [282]); (285, [284]); (287, [286]); (289, [288]);
    (291, [290]); (293, [292]); (295, [294]); (297, [296]); (299, [298]);
    (301, [300]); (303, [302]); (305, [73]); (307, [306]); (309, [308]);
    (311, [310]); (314, [313]); (316, [315]); (318, [317]); (320, [319]);
    (322, [321]); (324, [323]); (326, [325]); (328, [327]); (329, [700; 78]);
    (331, [330]); (333, [332]); (335, [334]); (337, [336]); (339, [338]);
    (341, [340]); (343, [342]); (345, [344]); (347, [346]); (349, [348]);
    (351, [350]); (353, [352]); (355, [354]); (357, [356]); (359, [358]);
    (361, [360]); (363, [362]); (365, [364]); (367, [366]); (369, [368]);
    (371, [370]); (373, [372]); (375, [374]); (378, [377]); (380, [379]);
    (382, [381]); (383, [83]); (384, [579]); (387, [386]); (389, [388]);
    (392, [391]); (396, [395]); (402, [401]); (405, [502]); (409, [408]);
    (410, [573]); (414, [544]); (417, [416]); (419, [418]); (421, [420]);
    (424, [423]); (429, [428]); (432, [431]); (436, [435]); (438, [437]);
    (441, [440]); (445, [444]); (447, [503]); (453, [452]); (454, [452]);
    (456, [455]); (457, [455]); (459, [458]); (460, [458]); (462, [461]);
    (464, [463]); (466, [465]); (468, [467]); (470, [469]); (472, [471]);
    (474, [473]); (476, [475]); (477, [398]); (479, [478]); (481, [480]);
    (483, [482]); (485, [484]); (487, [486]); (489, [488]); (491, [490]);
    (493, [492]); (495, [494]); (496, [74; 780]); (498, [497]); (499, [497]);
    (501, [500]); (505, [504]); (507, [506]); (509, [508]); (511, [510]);
    (513, [512]); (515, [514]); (517, [516]); (519, [518]); (521, [520]);
    (523, [522]); (525, [524]); (527, [526]); (529, [528]); (531, [530]);
    (533, [532]); (535, [534]); (537, [536]); (539, [538]); (541, [540]);
    (543, [542]); (547, [546]); (549, [548]); (551, [550]); (553, [552]);
    (555, [554]); (557, [556]); (559, [558]); (561, [560]); (563, [562]);
    (572, [571]); (575, [11390]); (576, [11391]); (578, [577]); (583, [582]);
    (585, [584]); (587, [586]); (589, [588]); (591, [590]); (592, [11375]);
    (593, [11373]); (594, [11376]); (595, [385]); (596, [390]); (598, [393]);
    (599, [394]); (601, [399]); (603, [400]); (604, [42923]); (608, [403]);
    (609, [42924]); (611, [404]); (613, [42893]); (614, [42922]);
    (616, [407]); (617, [406]); (618, [42926]); (619, [11362]);
    (620, [42925]); (623, [412]); (625, [11374]); (626, [413]); (629, [415]);
    (637, [11364]); (640, [422]); (642, [42949]); (643, [425]);
    (647, [42929]); (648, [430]); (649, [580]); (650, [433]); (651, [434]);
    (652, [581]); (658, [439]); (669, [42930]); (670, [42928]); (837, [921]);
    (881, [880]); (883, [882]); (887, [886]); (891, [1021]); (892, [1022]);
    (893, [1023]); (912, [921; 776; 769]); (940, [902]); (941, [904]);
    (942, [905]); (943, [906]); (944, [933; 776; 769]); (945, [913]);
    (946, [914]); (947, [915]); (948, [916]); (949, [917]); (950, [918]);
    (951, [919]); (952, [920]); (953, [921]); (954, [922]); (955, [923]);
    (956, [924]); (957, [925]); (958, [926]); (959, [927]); (960, [928]);
    (961, [929]); (962, [931]); (963, [931]); (964, [932]); (965, [933]);
    (966, [934]); (967, [935]); (968, [936]); (969, [937]); (970, [938]);
    (971, [939]); (972, [908]); (973, [910]); (974, [911]); (976, [914]);
    (977, [920]); (981, [934]); (982, [928]); (983, [975]); (985, [984]);
    (987, [986]); (989, [988]); (991, [990]); (993, [992]); (995, [994]);
    (997, [996]); (999, [998]); (1001, [1000]); (1003, [1002]);
    (1005, [1004]); (1007, [1006]); (1008, [922]); (1009, [929]);
    (1010, [1017]); (1011, [895]); (1013, [917]); (1016, [1015]);
    (1019, [1018]); (1072, [1040]); (1073, [1041]); (1074, [1042]);
    (1075, [1043]); (1076, [1044]); (1077, [1045]); (1078, [1046]);
    (1079, [1047]); (1080, [1048]); (1081, [1049]); (1082, [1050]);
    (1083, [1051]); (1084, [1052]); (1085, [1053]); (1086, [1054]);
    (1087, [1055]); (1088, [1056]); (1089, [1057]); (1090, [1058]);
    (1091, [1059]); (1092, [1060]); (1093, [1061]); (1094, [1062]);
    (1095, [1063]); (1096, [1064]); (1097, [1065]); (1098, [1066]);
    (1099, [1067]); (1100, [1068]); (1101, [1069]); (1102, [1070]);
    (1103, [1071]); (1104, [1024]); (1105, [1025]); (1106, [1026]);
    (1107, [1027]); (1108, [1028]); (1109, [1029]); (1110, [1030]);
    (1111, [1031]); (1112, [1032]); (1113, [1033]); (1114, [1034]);
    (1115, [1035]); (1116, [1036]); (1117, [1037]); (1118, [1038]);
    (1119, [1039]); (1121, [1120]); (1123, [1122]); (1125, [1124]);
    (1127, [1126]); (1129, [1128]); (1131, [1130]); (1133, [1132]);
    (1135, [1134]); (1137, [1136]); (1139, [1138]); (1141, [1140]);
    (1143, [1142]); (1145, [1144]); (1147, [1146]); (1149, [1148]);
    (1151, [1150]); (1153, [1152]); (1163, [1162]); (1165, [1164]);
    (1167, [1166]); (1169, [1168]); (1171, [1170]); (1173, [1172]);
    (1175, [1174]); (1177, [1176]); (1179, [1178]); (1181, [1180]);
    (1183, [1182]); (1185, [1184]); (1187, [1186]); (1189, [1188]);
    (1191, [1190]); (1193, [1192]); (1195, [1194]); (1197, [1196]);
    (1199, [1198]); (1201, [1200]); (1203, [1202]); (1205, [1204]);
    (1207, [1206]); (1209, [1208]); (1211, [1210]); (1213, [1212]);
    (1215, [1214]); (1218, [1217]); (1220, [1219]); (1222, [1221]);
    (1224, [1223]); (1226, [1225]); (1228, [1227]); (1230, [1229]);
    (1231, [1216]); (1233, [1232]); (1235, [1234]); (1237, [1236]);
    (1239, [1238]); (1241, [1240]); (1243, [1242]); (1245, [1244]);
    (1247, [1246]); (1249, [1248]); (1251, [1250]); (1253, [1252]);
    (1255, [1254]); (1257, [1256]); (1259, [1258]); (1261, [1260]);
    (1263, [1262]); (1265, [1264]); (1267, [1266]); (1269, [1268]);
    (1271, [1270]); (1273, [1272]); (1275, [1274]); (1277, [1276]);
    (1279, [1278]); (1281, [1280]); (1283, [1282]); (1285, [1284]);
    (1287, [1286]); (1289, [1288]); (1291, [1290]); (1293, [1292]);
    (1295, [1294]); (1297, [1296]); (1299, [1298]); (1301, [1300]);
    (1303, [1302]); (1305, [1304]); (1307, [1306]); (1309, [1308]);
    (1311, [1310]); (1313, [1312]); (1315, [1314]); (1317, [1316]);
    (1319, [1318]); (1321, [1320]); (1323, [1322]); (1325, [1324]);
    (1327, [1326]); (1377, [1329]); (1378, [1330]); (1379, [1331]);
    (1380, [1332]); (1381, [1333]); (1382, [1334]); (1383, [1335]);
    (1384, [1336]); (1385, [1337]); (1386, [1338]); (1387, [1339]);
    (1388, [1340]); (1389, [1341]); (1390, [1342]); (1391, [1343]);
    (1392, [1344]); (1393, [1345]); (1394, [1346]); (1395, [1347]);
    (1396, [1348]); (1397, [1349]); (1398, [1350]); (1399, [1351]);
    (1400, [1352]); (1401, [1353]); (1402, [1354]); (1403, [1355]);
    (1404, [1356]); (1405, [1357]); (1406, [1358]); (1407, [1359]);
    (1408, [1360]); (1409, [1361]); (1410, [1362]); (1411, [1363]);
    (1412, [1364]); (1413, [1365]); (1414, [1366]); (1415, [1333; 1362]);
    (4304, [7312]); (4305, [7313]); (4306, [7314]); (4307, [7315]);
    (4308, [7316]); (4309, [7317]); (4310, [7318]); (4311, [7319]);
    (4312, [7320]); (4313, [7321]); (4314, [7322]); (4315, [7323]);
    (4316, [7324]); (4317, [7325]); (4318, [7326]); (4319, [7327]);
    (4320, [7328]); (4321, [7329]); (4322, [7330]); (4323, [7331]);
    (4324, [7332]); (4325, [7333]); (4326, [7334]); (4327, [7335]);
    (4328, [7336]); (4329, [7337]); (4330, [7338]); (4331, [7339]);
    (4332, [7340]); (4333, [7341]); (4334, [7342]); (4335, [7343]);
    (4336, [7344]); (4337, [7345]); (4338, [7346]); (4339, [7347]);
    (4340, [7348]); (4341, [7349]); (4342, [7350]); (4343, [7351]);
    (4344, [7352]); (4345, [7353]); (4346, [7354]); (4349, [7357]);
    (4350, [7358]); (4351, [7359]); (5112, [5104]); (5113, [5105]);
    (5114, [5106]); (5115, [5107]); (5116, [5108]); (5117, [5109]);
    (7296, [1042]); (7297, [1044]); (7298, [1054]); (7299, [1057]);
    (7300, [1058]); (7301, [1058]); (7302, [1066]); (7303, [1122]);
    (7304, [42570]); (7545, [42877]); (7549, [11363]); (7566, [42950]);
    (7681, [7680]); (7683, [7682]); (7685, [7684]); (7687, [7686]);
    (7689, [7688]); (7691, [7690]); (7693, [7692]); (7695, [7694]);
    (7697, [7696]); (7699, [7698]); (7701, [7700]); (7703, [7702]);
    (7705, [7704]); (7707, [7706]); (7709, [7708]); (7711, [7710]);
    (7713, [7712]); (7715, [7714]); (7717, [7716]); (7719, [7718]);
    (7721, [7720]); (7723, [7722]); (7725, [7724]); (7727, [7726]);
    (7729, [7728]); (7731, [7730]); (7733, [7732]); (7735, [7734]);
    (7737, [7736]); (7739, [7738]); (7741, [7740]); (7743, [7742]);
    (7745, [7744]); (7747, [7746]); (7749, [7748]); (7751, [7750]);
    (7753, [7752]); (7755, [7754]); (7757, [7756]); (7759, [7758]);
    (7761, [7760]); (7763, [7762]); (7765, [7764]); (7767, [7766]);
    (7769, [7768]); (7771, [7770]); (7773, [7772]); (7775, [7774]);
    (7777, [7776]); (7779, [7778]); (7781, [7780]); (7783, [7782]);
    (7785, [7784]); (7787, [7786]); (7789, [7788]); (7791, [7790]);
    (7793, [7792]); (7795, [7794]); (7797, [7796]); (7799, [7798]);
    (7801, [7800]); (7803, [7802]); (7805, [7804]); (7807, [7806]);
    (7809, [7808]); (7811, [7810]); (7813, [7812]); (7815, [7814]);
    (7817, [7816]); (7819, [7818]); (7821, [7820]); (7823, [7822]);
    (7825, [7824]); (7827, [7826]); (7829, [7828]); (7830, [72; 817]);
    (7831, [84; 776]); (7832, [87; 778]); (7833, [89; 778]);
    (7834, [65; 702]); (7835, [7776]); (7841, [7840]); (7843, [7842]);
    (7845, [7844]); (7847, [7846]); (7849, [7848]); (7851, [7850]);
    (7853, [7852]); (7855, [7854]); (7857, [7856]); (7859, [7858]);
    (7861, [7860]); (7863, [7862]); (7865, [7864]); (7867, [7866]);
    (7869, [7868]); (7871, [7870]); (7873, [7872]); (7875, [7874]);
    (7877, [7876]); (7879, [7878]); (7881, [7880]); (7883, [7882]);
    (7885, [7884]); (7887, [7886]); (7889, [7888]); (7891, [7890]);
    (7893, [7892]); (7895, [7894]); (7897, [7896]); (7899, [7898]);
    (7901, [7900]); (7903, [7902]); (7905, [7904]); (7907, [7906]);
    (7909, [7908]); (7911, [7910]); (7913, [7912]); (7915, [7914]);
    (7917, [7916]); (7919, [7918]); (7921, [7920]); (7923, [7922]);
    (7925, [7924]); (7927, [7926]); (7929, [7928]); (7931, [7930]);
    (7933, [7932]); (7935, [7934]); (7936, [7944]); (7937, [7945]);
    (7938, [7946]); (7939, [7947]); (7940, [7948]); (7941, [7949]);
    (7942, [7950]); (7943, [7951]); (7952, [7960]); (7953, [7961]);
    (7954, [7962]); (7955, [7963]); (7956, [7964]); (7957, [7965]);
    (7968, [7976]); (7969, [7977]); (7970, [7978]); (7971, [7979]);
    (7972, [7980]); (7973, [7981]); (7974, [7982]); (7975, [7983]);
    (7984, [7992]); (7985, [7993]); (7986, [7994]); (7987, [7995]);
    (7988, [7996]); (7989, [7997]); (7990, [7998]); (7991, [7999]);
    (8000, [8008]); (8001, [8009]); (8002, [8010]); (8003, [8011]);
    (8004, [8012]); (8005, [8013]); (8016, [933; 787]); (8017, [8025]);
    (8018, [933; 787; 768]); (8019, [8027]); (8020, [933; 787; 769]);
    (8021, [8029]); (8022, [933; 787; 834]); (8023, [8031]); (8032, [8040]);
    (8033, [8041]); (8034, [8042]); (8035, [8043]); (8036, [8044]);
    (8037, [8045]); (8038, [8046]); (8039, [8047]); (8048, [8122]);
    (8049, [8123]); (8050, [8136]); (8051, [8137]); (8052, [8138]);
    (8053, [8139]); (8054, [8154]); (8055, [8155]); (8056, [8184]);
    (8057, [8185]); (8058, [8170]); (8059, [8171]); (8060, [8186]);
    (8061, [8187]); (8064, [7944; 921]); (8065, [7945; 921]);
    (8066, [7946; 921]); (8067, [7947; 921]); (8068, [7948; 921]);
    (8069, [7949; 921]); (8070, [7950; 921]); (8071, [7951; 921]);
    (8072, [7944; 921]); (8073, [7945; 921]); (8074, [7946; 921]);
    (8075, [7947; 921]); (8076, [7948; 921]); (8077, [7949; 921]);
    (8078, [7950; 921]); (8079, [7951; 921]); (8080, [7976; 921]);
    (8081, [7977; 921]); (8082, [7978; 921]); (8083, [7979; 921]);
    (8084, [7980; 921]); (8085, [7981; 921]); (8086, [7982; 921]);
    (8087, [7983; 921]); (8088, [7976; 921]); (8089, [7977; 921]);
    (8090, [7978; 921]); (8091, [7979; 921]); (8092, [7980; 921]);
    (8093, [7981; 921]); (8094, [7982; 921]); (8095, [7983; 921]);
    (8096, [8040; 921]); (8097, [8041; 921]); (8098, [8042; 921]);
    (8099, [8043; 921]); (8100, [8044; 921]); (8101, [8045; 921]);
    (8102, [8046; 921]); (8103, [8047; 921]); (8104, [8040; 921]);
    (8105, [8041; 921]); (8106, [8042; 921]); (8107, [8043; 921]);
    (8108, [8044; 921]); (8109, [8045; 921]); (8110, [8046; 921]);
    (8111, [8047; 921]); (8112, [8120]); (8113, [8121]); (8114, [8122; 921]);
    (8115, [913; 921]); (8116, [902; 921]); (8118, [913; 834]);
    (8119, [913; 834; 921]); (8124, [913; 921]); (8126, [921]);
    (8130, [8138; 921]); (8131, [919; 921]); (8132, [905; 921]);
    (8134, [919; 834]); (8135, [919; 834; 921]); (8140, [919; 921]);
    (8144, [8152]); (8145, [8153]); (8146, [921; 776; 768]);
    (8147, [921; 776; 769]); (8150, [921; 834]); (8151, [921; 776; 834]);
    (8160, [8168]); (8161, [8169]); (8162, [933; 776; 768]);
    (8163, [933; 776; 769]); (8164, [929; 787]); (8165, [8172]);
    (8166, [933; 834]); (8167, [933; 776; 834]); (8178, [8186; 921]);
    (8179, [937; 921]); (8180, [911; 921]); (8182, [937; 834]);
    (8183, [937; 834; 921]); (8188, [937; 921]); (8526, [8498]);
    (8560, [8544]); (8561, [8545]); (8562, [8546]); (8563, [8547]);
    (8564, [8548]); (8565, [8549]); (8566, [8550]); (8567, [8551]);
    (8568, [8552]); (8569, [8553]); (8570, [8554]); (8571, [8555]);
    (8572, [8556]); (8573, [8557]); (8574, [8558]); (8575, [8559]);
    (8580, [8579]); (9424, [9398]); (9425, [9399]); (9426, [9400]);
    (9427, [9401]); (9428, [9402]); (9429, [9403]); (9430, [9404]);
    (9431, [9405]); (9432, [9406]); (9433, [9407]); (9434, [9408]);
    (9435, [9409]); (9436, [9410]); (9437, [9411]); (9438, [9412]);
    (9439, [9413]); (9440, [9414]); (9441, [9415]); (9442, [9416]);
    (9443, [9417]); (9444, [9418]); (9445, [9419]); (9446, [9420]);
    (9447, [9421]); (9448, [9422]); (9449, [9423]); (11312, [11264]);
    (11313, [11265]); (11314, [11266]); (11315, [11267]); (11316, [11268]);
    (11317, [11269]); (11318, [11270]); (11319, [11271]); (11320, [11272]);
    (11321, [11273]); (11322, [11274]); (11323, [11275]); (11324, [11276]);
    (11325, [11277]); (11326, [11278]); (11327, [11279]); (11328, [11280]);
    (11329, [11281]); (11330, [11282]); (11331, [11283]); (11332, [11284]);
    (11333, [11285]); (11334, [11286]); (11335, [11287]); (11336, [11288]);
    (11337, [11289]); (11338, [11290]); (11339, [11291]); (11340, [11292]);
    (11341, [11293]); (11342, [11294]); (11343, [11295]); (11344, [11296]);
    (11345, [11297]); (11346, [11298]); (11347, [11299]); (11348, [11300]);
    (11349, [11301]); (11350, [11302]); (11351, [11303]); (11352, [11304]);
    (11353, [11305]); (11354, [11306]); (11355, [11307]); (11356, [11308]);
    (11357, [11309]); (11358, [11310]); (11359, [11311]); (11361, [11360]);
    (11365, [570]); (11366, [574]); (11368, [11367]); (11370, [11369]);
    (11372, [11371]); (11379, [11378]); (11382, [11381]); (11393, [11392]);
    (11395, [11394]); (11397, [11396]); (11399, [11398]); (11401, [11400]);
    (11403, [11402]); (11405, [11404]); (11407, [11406]); (11409, [11408]);
    (11411, [11410]); (11413, [11412]); (11415, [11414]); (11417, [11416]);
    (11419, [11418]); (11421, [11420]); (11423, [11422]); (11425, [11424]);
    (11427, [11426]); (11429, [11428]); (11431, [11430]); (11433, [11432]);
    (11435, [11434]); (11437, [11436]); (11439, [11438]); (11441, [11440]);
    (11443, [11442]); (11445, [11444]); (11447, [11446]); (11449, [11448]);
    (11451, [11450]); (11453, [11452]); (11455, [11454]); (11457, [11456]);
    (11459, [11458]); (11461, [11460]); (11463, [11462]); (11465, [11464]);
    (11467, [11466]); (11469, [11468]); (11471, [11470]); (11473, [11472]);
    (11475, [11474]); (11477, [11476]); (11479, [11478]); (11481, [11480]);
    (11483, [11482]); (11485, [11484]); (11487, [11486]); (11489, [11488]);
    (11491, [11490]); (11500, [11499]); (11502, [11501]); (11507, [11506]);
    (11520, [4256]); (11521, [4257]); (11522, [4258]); (11523, [4259]);
    (11524, [4260]); (11525, [4261]); (11526, [4262]); (11527, [4263]);
    (11528, [4264]); (11529, [4265]); (11530, [4266]); (11531, [4267]);
    (11532, [4268]); (11533, [4269]); (11534, [4270]); (11535, [4271]);
    (11536, [4272]); (11537, [4273]); (11538, [4274]); (11539, [4275]);
    (11540, [4276]); (11541, [4277]); (11542, [4278]); (11543, [4279]);
    (11544, [4280]); (11545, [4281]); (11546, [4282]); (11547, [4283]);
    (11548, [4284]); (11549, [4285]); (11550, [4286]); (11551, [4287]);
    (11552, [4288]); (11553, [4289]); (11554, [4290]); (11555, [4291]);
    (11556, [4292]); (11557, [4293]); (11559, [4295]); (11565, [4301]);
    (42561, [42560]); (42563, [42562]); (42565, [42564]); (42567, [42566]);
    (42569, [42568]); (42571, [42570]); (42573, [42572]); (42575, [42574]);
    (42577, [42576]); (42579, [42578]); (42581, [42580]); (42583, [42582]);
    (42585, [42584]); (42587, [42586]); (42589, [42588]); (42591, [42590]);
    (42593, [42592]); (42595, [42594]); (42597, [42596]); (42599, [42598]);
    (42601, [42600]); (42603, [42602]); (42605, [42604]); (42625, [42624]);
    (42627, [42626]); (42629, [42628]); (42631, [42630]); (42633, [42632]);
    (42635, [42634]); (42637, [42636]); (42639, [42638]); (42641, [42640]);
    (42643, [42642]); (42645, [42644]); (42647, [42646]); (42649, [42648]);
    (42651, [42650]); (42787, [42786]); (42789, [42788]); (42791, [42790]);
    (42793, [42792]); (42795, [42794]); (42797, [42796]); (42799, [42798]);
    (42803, [42802]); (42805, [42804]); (42807, [42806]); (42809, [42808]);
    (42811, [42810]); (42813, [42812]); (42815, [42814]); (42817, [42816]);
    (42819, [42818]); (42821, [42820]); (42823, [42822]); (42825, [42824]);
    (42827, [42826]); (42829, [42828]); (42831, [42830]); (42833, [42832]);
    (42835, [42834]); (42837, [42836]); (42839, [42838]); (42841, [42840]);
    (42843, [42842]); (42845, [42844]); (42847, [42846]); (42849, [42848]);
    (42851, [42850]); (42853, [42852]); (42855, [42854]); (42857, [42856]);
    (42859, [42858]); (42861, [42860]); (42863, [42862]); (42874, [42873]);
    (42876, [42875]); (42879, [42878]); (42881, [42880]); (42883, [42882]);
    (42885, [42884]); (42887, [42886]); (42892, [42891]); (42897, [42896]);
    (42899, [42898]); (42900, [42948]); (42903, [42902]); (42905, [42904]);
    (42907, [42906]); (42909, [42908]); (42911, [42910]); (42913, [42912]);
    (42915, [42914]); (42917, [42916]); (42919, [42918]); (42921, [42920]);
    (42933, [42932]); (42935, [42934]); (42937, [42936]); (42939, [42938]);
    (42941, [42940]); (42943, [42942]); (42945, [42944]); (42947, [42946]);
    (42952, [42951]); (42954, [42953]); (42961, [42960]); (42967, [42966]);
    (42969, [42968]); (42998, [42997]); (43859, [42931]); (43888, [5024]);
    (43889, [5025]); (43890, [5026]); (43891, [5027]); (43892, [5028]);
    (43893, [5029]); (43894, [5030]); (43895, [5031]); (43896, [5032]);
    (43897, [5033]); (43898, [5034]); (43899, [5035]); (43900, [5036]);
    (43901, [5037]); (43902, [5038]); (43903, [5039]); (43904, [5040]);
    (43905, [5041]); (43906, [5042]); (43907, [5043]); (43908, [5044]);
    (43909, [5045]); (43910, [5046]); (43911, [5047]); (43912, [5048]);
    (43913, [5049]); (43914, [5050]); (43915, [5051]); (43916, [5052]);
    (43917, [5053]); (43918, [5054]); (43919, [5055]); (43920, [5056]);
    (43921, [5057]); (43922, [5058]); (43923, [5059]); (43924, [5060]);
    (43925, [5061]); (43926, [5062]); (43927, [5063]); (43928, [5064]);
    (43929, [5065]); (43930, [5066]); (43931, [5067]); (43932, [5068]);
    (43933, [5069]); (43934, [5070]); (43935, [5071]); (43936, [5072]);
    (43937, [5073]); (43938, [5074]); (43939, [5075]); (43940, [5076]);
    (43941, [5077]); (43942, [5078]); (43943, [5079]); (43944, [5080]);
    (43945, [5081]); (43946, [5082]); (43947, [5083]); (43948, [5084]);
    (43949, [5085]); (43950, [5086]); (43951, [5087]); (43952, [5088]);
    (43953, [5089]); (43954, [5090]); (43955, [5091]); (43956, [5092]);
    (43957, [5093]); (43958, [5094]); (43959, [5095]); (43960, [5096]);
    (43961, [5097]); (43962, [5098]); (43963, [5099]); (43964, [5100]);
    (43965, [5101]); (43966, [5102]); (43967, [5103]); (64256, [70; 70]);
    (64257, [70; 73]); (64258, [70; 76]); (64259, [70; 70; 73]);
    (64260, [70; 70; 76]); (64261, [83; 84]); (64262, [83; 84]);
    (64275, [1348; 1350]); (64276, [1348; 1333]); (64277, [1348; 1339]);
    (64278, [1358; 1350]); (64279, [1348; 1341]); (65345, [65313]);
    (65346, [65314]); (65347, [65315]); (65348, [65316]); (65349, [65317]);
    (65350, [65318]); (65351, [65319]); (65352, [65320]); (65353, [65321]);
    (65354, [65322]); (65355, [65323]); (65356, [65324]); (65357, [65325]);
    (65358, [65326]); (65359, [65327]); (65360, [65328]); (65361, [65329]);
    (65362, [65330]); (65363, [65331]); (65364, [65332]); (65365, [65333]);
    (65366, [65334]); (65367, [65335]); (65368, [65336]); (65369, [65337]);
    (65370, [65338]); (66600, [66560]); (66601, [66561]); (66602, [66562]);
    (66603, [66563]); (66604, [66564]); (66605, [66565]); (66606, [66566]);
    (66607, [66567]); (66608, [66568]); (66609, [66569]); (66610, [66570]);
    (66611, [66571]); (66612, [66572]); (66613, [66573]); (66614, [66574]);
    (66615, [66575]); (66616, [66576]); (66617, [66577]); (66618, [66578]);
    (66619, [66579]); (66620, [66580]); (66621, [66581]); (66622, [66582]);
    (66623, [66583]); (66624, [66584]); (66625, [66585]); (66626, [66586]);
    (66627, [66587]); (66628, [66588]); (66629, [66589]); (66630, [66590]);
    (66631, [66591]); (66632, [66592]); (66633, [66593]); (66634, [66594]);
    (66635, [66595]); (66636, [66596]); (66637, [66597]); (66638, [66598]);
    (66639, [66599]); (66776, [66736]); (66777, [66737]); (66778, [66738]);
    (66779, [66739]); (66780, [66740]); (66781, [66741]); (66782, [66742]);
    (66783, [66743]); (66784, [66744]); (66785, [66745]); (66786, [66746]);
    (66787, [66747]); (66788, [66748]); (66789, [66749]); (66790, [66750]);
    (66791, [66751]); (66792, [66752]); (66793, [66753]); (66794, [66754]);
    (66795, [66755]); (66796, [66756]); (66797, [66757]); (66798, [66758]);
    (66799, [66759]); (66800, [66760]); (66801, [66761]); (66802, [66762]);
    (66803, [66763]); (66804, [66764]); (66805, [66765]); (66806, [66766]);
    (66807, [66767]); (66808, [66768]); (66809, [66769]); (66810, [66770]);
    (66811, [66771]); (66967, [66928]); (66968, [66929]); (66969, [66930]);
    (66970, [66931]); (66971, [66932]); (66972, [66933]); (66973, [66934]);
    (66974, [66935]); (66975, [66936]); (66976, [66937]); (66977, [66938]);
    (66979, [66940]); (66980, [66941]); (66981, [66942]); (66982, [66943]);
    (66983, [66944]); (66984, [66945]); (66985, [66946]); (66986, [66947]);
    (66987, [66948]); (66988, [66949]); (66989, [66950]); (66990, [66951]);
    (66991, [66952]); (66992, [66953]); (66993, [66954]); (66995, [66956]);
    (66996, [66957]); (66997, [66958]); (66998, [66959]); (66999, [66960]);
    (67000, [66961]); (67001, [66962]); (67003, [66964]); (67004, [66965]);
    (68800, [68736]); (68801, [68737]); (68802, [68738]); (68803, [68739]);
    (68804, [68740]); (68805, [68741]); (68806, [68742]); (68807, [68743]);
    (68808, [68744]); (68809, [68745]); (68810, [68746]); (68811, [68747]);
    (68812, [68748]); (68813, [68749]); (68814, [68750]); (68815, [68751]);
    (68816, [68752]); (68817, [68753]); (68818, [68754]); (68819, [68755]);
    (68820, [68756]); (68821, [68757]); (68822, [68758]); (68823, [68759]);
    (68824, [68760]); (68825, [68761]); (68826, [68762]); (68827, [68763]);
    (68828, [68764]); (68829, [68765]); (68830, [68766]); (68831, [68767]);
    (68832, [68768]); (68833, [68769]); (68834, [68770]); (68835, [68771]);
    (68836, [68772]); (68837, [68773]); (68838, [68774]); (68839, [68775]);
    (68840, [68776]); (68841, [68777]); (68842, [68778]); (68843, [68779]);
    (68844, [68780]); (68845, [68781]); (68846, [68782]); (68847, [68783]);
    (68848, [68784]); (68849, [68785]); (68850, [68786]); (71872, [71840]);
    (71873, [71841]); (71874, [71842]); (71875, [71843]); (71876, [71844]);
    (71877, [71845]); (71878, [71846]); (71879, [71847]); (71880, [71848]);
    (71881, [71849]); (71882, [71850]); (71883, [71851]); (71884, [71852]);
    (71885, [71853]); (71886, [71854]); (71887, [71855]); (71888, [71856]);
    (71889, [71857]); (71890, [71858]); (71891, [71859]); (71892, [71860]);
    (71893, [71861]); (71894, [71862]); (71895, [71863]); (71896, [71864]);
    (71897, [71865]); (71898, [71866]); (71899, [71867]); (71900, [71868]);
    (71901, [71869]); (71902, [71870]); (71903, [71871]); (93792, [93760]);
    (93793, [93761]); (93794, [93762]); (93795, [93763]); (93796, [93764]);
    (93797, [93765]); (93798, [93766]); (93799, [93767]); (93800, [93768]);
    (93801, [93769]); (93802, [93770]); (93803, [93771]); (93804, [93772]);
    (93805, [93773]); (93806, [93774]); (93807, [93775]); (93808, [93776]);
    (93809, [93777]); (93810, [93778]); (93811, [93779]); (93812, [93780]);
    (93813, [93781]); (93814, [93782]); (93815, [93783]); (93816, [93784]);
    (93817, [93785]); (93818, [93786]); (93819, [93787]); (93820, [93788]);
    (93821, [93789]); (93822, [93790]); (93823, [93791]); (125218, [125184]);
    (125219, [125185]); (125220, [125186]); (125221, [125187]);
    (125222, [125188]); (125223, [125189]); (125224, [125190]);
    (125225, [125191]); (125226, [125192]); (125227, [125193]);
    (125228, [125194]); (125229, [125195]); (125230, [125196]);
    (125231, [125197]); (125232, [125198]); (125233, [125199]);
    (125234, [125200]); (125235, [125201]); (125236, [125202]);
    (125237, [125203]); (125238, [125204]); (125239, [125205]);
    (125240, [125206]); (125241, [125207]); (125242, [125208]);
    (125243, [125209]); (125244, [125210]); (125245, [125211]);
    (125246, [125212]); (125247, [125213]); (125248, [125214]);
    (125249, [125215]); (125250, [125216]); (125251, [125217])
  ].


(** [str.upper]: every code point is replaced by its upper-case form, which
    may be several code points long. *)
Fixpoint upper_lookup (t : list (Z * list Z)) (c : Z) : list Z :=
  match t with
  | [] => [c]
  | (k, u) :: t' => if c =? k then u else upper_lookup t' c
  end.

Definition to_upper (c : Z) : list Z := upper_lookup upper_table c.

Definition str_upper (s : list Z) : list Z := flat_map to_upper s.

(** The code points of the digit zero in every script with decimal digits
    (general category Nd); the nine other digits of the script follow it. *)
Definition decimal_zeros : list Z :=
  [
    48; 1632; 1776; 1984; 2406; 2534; 2662; 2790; 2918; 3046; 3174; 3302;
    3430; 3558; 3664; 3792; 3872; 4160; 4240; 6112; 6160; 6470; 6608; 6784;
    6800; 6992; 7088; 7232; 7248; 42528; 43216; 43264; 43472; 43504; 43600;
    44016; 65296; 66720; 68912; 69734; 69872; 69942; 70096; 70384; 70736;
    70864; 71248; 71360; 71472; 71904; 72016; 72784; 73040; 73120; 92768;
    92864; 93008; 120782; 120792; 120802; 120812; 120822; 123200; 123632;
    125264; 130032
  ].

(** The value of a decimal digit of any script. *)
Fixpoint decimal_lookup (zs : list Z) (c : Z) : option Z :=
  match zs with
  | [] => None
  | z :: zs' =>
      if (z <=? c) && (c <? z + 10) then Some (c - z) else decimal_lookup zs' c
  end.

Definition decimal_value (c : Z) : option Z := decimal_lookup decimal_zeros c.

(** The character class [[WENSU]]. *)
Definition is_orientation_char (c : Z) : bool :=
  existsb (Z.eqb c) [87; 69; 78; 83; 85].

(** The class [\d] on a [str] pattern: the decimal digits of every script. *)
Definition is_digit (c : Z) : bool :=
  match decimal_value c with
  | Some _ => true
  | None => false
  end.

(** [$] without [re.MULTILINE] succeeds at the end of the string and also just
    before a line feed that ends the string. *)
Definition at_dollar (rest : list Z) : bool :=
  match rest with
  | [] => true
  | [c] => c =? 10
  | _ => false
  end.

(** [re.match(r'^([WENSU])(\d{2})$', name)]: the two groups on success. *)
Definition re_match_orient_hour (name : list Z) : option (Z * list Z) :=
  match name with
  | o :: d1 :: d2 :: rest =>
      if is_orientation_char o && is_digit d1 && is_digit d2 && at_dollar rest
      then Some (o, [d1; d2])
      else None
  | _ => None
  end.

(** [int(s)] for a string of decimal digits, of any script, which is what the
    group [(\d{2})] holds. *)
Definition digit_value (c : Z) : Z :=
  match decimal_value c with
  | Some v => v
  | None => 0
  end.

Definition int_of_digits (s : list Z) : Z :=
  fold_left (fun acc c => 10 * acc + digit_value c) s 0.

(** The [str] of one code point below 128, which the first group is. *)
Definition str_of_code (c : Z) : string :=
  String (ascii_of_N (Z.to_N c)) EmptyString.

(** [parse_orientation_hour_from_filename]; [None] stands for the pair
    [(None, None)]. *)
Definition parse_orientation_hour_from_filename (filename : string)
  : option (string * Z) :=
  let name := str_upper (fsdecode (path_stem filename)) in
  match re_match_orient_hour name with
  | Some (orient, hour_str) =>
      let hour := int_of_digits hour_str in
      if (0 <=? hour) && (hour <=? 23) then Some (str_of_code orient, hour)
      else None
  | None => None
  end.


(* ================================================================= *)
(** ** Numbers: the pieces of [int] and [float] arithmetic the module uses *)

Set Warnings "-inexact-float".

(** [float(n)] for an [int] below 2^63 in magnitude (image dimensions, channel
    values and sample indices are far smaller). *)
Definition float_of_Z (z : Z) : float :=
  if z <? 0 then PrimFloat.opp (PrimFloat.of_uint63 (Uint63.of_Z (- z)))
  else PrimFloat.of_uint63 (Uint63.of_Z z).

Definition float_is_zero (x : float) : bool := PrimFloat.eqb x 0%float.

(** [a / b] on floats: division by zero raises. *)
Definition py_truediv (a b : float) : result float :=
  if float_is_zero b then Raise ZeroDivisionError else Ok (PrimFloat.div a b).

(** An [int] that converts to a float exactly: magnitude below 2^53. *)
Definition int_is_small (a : Z) : bool := Z.abs a <? 2 ^ 53.

(** [a / b] on ints (CPython's [long_true_divide]).  Two operands that convert
    exactly are converted and divided as floats.  Otherwise the exact quotient
    of the two integers is rounded once, to the nearest float and ties to
    even: this is the IEEE division of the integers taken as mantissas of
    exponent 0.  A zero dividend gives a signed zero, and a quotient too large
    for a float raises [OverflowError]. *)
Definition py_truediv_int (a b : Z) : result float :=
  if b =? 0 then Raise ZeroDivisionError
  else if int_is_small a && int_is_small b
  then Ok (PrimFloat.div (float_of_Z a) (float_of_Z b))
  else
    match Z.abs a, Z.abs b with
    | Z.pos ma, Z.pos mb =>
        match SFdiv prec emax (S754_finite (a <? 0) ma 0)
                              (S754_finite (b <? 0) mb 0) with
        | S754_infinity _ => Raise OverflowError
        | q => Ok (SF2Prim q)
        end
    | _, _ => Ok (if xorb (a <? 0) (b <? 0) then (-0)%float else 0%float)
    end.

(** [int(x)]: truncation toward zero; infinities and NaN raise. *)
Definition py_int (x : float) : result Z :=
  match Prim2SF x with
  | S754_zero _ => Ok 0
  | S754_finite s m e =>
      let v := if 0 <=? e then Z.shiftl (Z.pos m) e else Z.shiftr (Z.pos m) (- e) in
      Ok (if s then - v else v)
  | S754_infinity _ => Raise OverflowError
  | S754_nan => Raise ValueError
  end.

(** Nearest integer to [num / den], ties to even ([0 <= num], [0 < den]). *)
Definition round_half_even (num den : Z) : Z :=
  let q := num / den in
  let r := num mod den in
  match Z.compare (2 * r) den with
  | Lt => q
  | Gt => q + 1
  | Eq => if Z.even q then q else q + 1
  end.

(** [round(x, ndigits)] on a float: the exact value of [x] is rounded to
    [ndigits] decimals, ties to even, and the decimal result is converted back
    to the nearest float (CPython's correctly rounded [double_round]). *)
Definition py_round (x : float) (ndigits : Z) : float :=
  match Prim2SF x with
  | S754_finite s m e =>
      let p := 10 ^ ndigits in
      let k := if 0 <=? e then Z.shiftl (Z.pos m) e * p
               else round_half_even (Z.pos m * p) (2 ^ (- e)) in
      let r := PrimFloat.div (float_of_Z k) (float_of_Z p) in
      if s then PrimFloat.opp r else r
  | _ => x
  end.

(** Digits of a non-negative integer in a base up to 16, most significant
    first, lower case. *)
Definition digit_char (d : Z) : ascii :=
  if d <? 10 then ascii_of_N (Z.to_N (48 + d)) else ascii_of_N (Z.to_N (87 + d)).

Fixpoint digits_in_base (fuel : nat) (base n : Z) (acc : string) : string :=
  match fuel with
  | O => acc
  | S fuel' =>
      let acc' := String (digit_char (n mod base)) acc in
      if n <? base then acc' else digits_in_base fuel' base (n / base) acc'
  end.

(** The format specs [02x] and [02d]: sign, then the digits padded with zeros
    to a total width of two. *)
Definition format_02 (base n : Z) : string :=
  let a := Z.abs n in
  let ds := digits_in_base (S (Z.to_nat (Z.log2 a))) base a EmptyString in
  if n <? 0 then String "-" ds
  else if str_len ds <? 2 then String "0" ds else ds.

Definition format_02x : Z -> string := format_02 16.
Definition format_02d : Z -> string := format_02 10.

(* ================================================================= *)
(** ** Pixels and images *)

(** What [getpixel] and [getdata] yield: a bare [int] for a single-band image
    (modes L, P, 1, I), a tuple of ints otherwise (LA, RGB, RGBA). *)
Inductive pixel : Type :=
| PInt (v : Z)
| PTuple (cs : list Z).

(** The image library is external; an image is the capability the module
    uses: its size, a pixel read that may raise, and the pixel data of a
    resized copy ([list(img.resize(size).getdata())]). *)
Record Image : Type := {
  size : Z * Z;
  getpixel : Z * Z -> result pixel;
  resize_getdata : Z * Z -> result (list pixel)
}.

Definition width (img : Image) : Z := fst (size img).
Definition height (img : Image) : Z := snd (size img).

(** The library's pixel read on a [w] x [h] grid: negative coordinates count
    from the far edge, and anything still outside raises [IndexError]. *)
Definition pil_getpixel (w h : Z) (px : Z -> Z -> pixel) (xy : Z * Z)
  : result pixel :=
  let (x, y) := xy in
  let x := if x <? 0 then w + x else x in
  let y := if y <? 0 then h + y else y in
  if (0 <=? x) && (x <? w) && (0 <=? y) && (y <? h)
  then Ok (px x y) else Raise IndexError.

(** A [w] x [h] image filled with one pixel value; resampling a constant image
    gives a constant image. *)
Definition solid_image (w h : Z) (c : pixel) : Image := {|
  size := (w, h);
  getpixel := pil_getpixel w h (fun _ _ => c);
  resize_getdata := fun sz => Ok (repeat c (Z.to_nat (fst sz * snd sz)))
|}.

(** [len(pixel)]: an [int] has no length. *)
Definition py_len (p : pixel) : result Z :=
  match p with
  | PInt _ => Raise TypeError
  | PTuple cs => Ok (Z.of_nat (List.length cs))
  end.

(* ================================================================= *)
(** ** Colour conversions *)

(** [f"{v:02x}"]: only an [int] accepts the format. *)
Definition hex_of_channel (v : pixel) : result string :=
  match v with
  | PInt n => Ok (format_02x n)
  | PTuple _ => Raise TypeError
  end.

Definition rgb_to_hex (r g b : pixel) : result string :=
  hr <- hex_of_channel r ;;
  hg <- hex_of_channel g ;;
  hb <- hex_of_channel b ;;
  Ok (String "#" (hr ++ hg ++ hb))%string.

Record godot_color : Type := {
  godot_r : float;
  godot_g : float;
  godot_b : float
}.

(** [round(v / 255.0, 3)]: a tuple cannot be divided. *)
Definition godot_of_channel (v : pixel) : result float :=
  match v with
  | PInt n => Ok (py_round (PrimFloat.div (float_of_Z n) 255%float) 3)
  | PTuple _ => Raise TypeError
  end.

Definition rgb_to_godot (r g b : pixel) : result godot_color :=
  gr <- godot_of_channel r ;;
  gg <- godot_of_channel g ;;
  gb <- godot_of_channel b ;;
  Ok {| godot_r := gr; godot_g := gg; godot_b := gb |}.


(* ================================================================= *)
(** ** Pixel samplers *)

Record color : Type := {
  rgb : pixel * pixel * pixel;
  hex : string;
  godot : godot_color
}.

Record gradient_sample : Type := {
  position : float;
  sample_color : color
}.

(** [r, g, b = pixel[:3] if len(pixel) >= 3 else (pixel, pixel, pixel)] *)
Definition rgb_of_pixel (p : pixel) : result (pixel * pixel * pixel) :=
  n <- py_len p ;;
  if 3 <=? n then
    match p with
    | PTuple (r :: g :: b :: _) => Ok (PInt r, PInt g, PInt b)
    | _ => Raise ValueError
    end
  else Ok (p, p, p).

(** The sample row of the vertical gradient for index [i]; this statement
    stands before the [try]. *)
Definition gradient_y (h num_samples i : Z) : result Z :=
  y <- (if 1 <? num_samples
        then q <- py_truediv_int (h * i) (num_samples - 1) ;; py_int q
        else Ok (h / 2)) ;;
  Ok (Z.min y (h - 1)).

(** The body of the [try] in [analyze_vertical_gradient].  The dict display
    evaluates its values in order: position, rgb, hex, godot. *)
Definition gradient_try (img : Image) (x y i num_samples : Z)
  : result gradient_sample :=
  px <- getpixel img (x, y) ;;
  '(r, g, b) <- rgb_of_pixel px ;;
  q <- py_truediv_int i (num_samples - 1) ;;
  hx <- rgb_to_hex r g b ;;
  gd <- rgb_to_godot r g b ;;
  Ok {| position := py_round q 2;
        sample_color := {| rgb := (r, g, b); hex := hx; godot := gd |} |}.

(** The [for] loop; [colors] is the list built by [append], and
    [except Exception: continue] keeps it unchanged. *)
Fixpoint gradient_loop (img : Image) (x h num_samples : Z) (idx : list Z)
  (colors : list gradient_sample) : result (list gradient_sample) :=
  match idx with
  | [] => Ok colors
  | i :: rest =>
      y <- gradient_y h num_samples i ;;
      match gradient_try img x y i num_samples with
      | Ok c => gradient_loop img x h num_samples rest (colors ++ [c])
      | Raise _ => gradient_loop img x h num_samples rest colors
      end
  end.

Definition analyze_vertical_gradient (img : Image) (num_samples : Z)
  : result (list gradient_sample) :=
  let (w, h) := size img in
  let x := w / 2 in
  gradient_loop img x h num_samples (py_range num_samples) [].

(** A [dict] with string keys, in insertion order. *)
Definition dict (V : Type) : Type := list (string * V).

Fixpoint dict_set {V : Type} (d : dict V) (k : string) (v : V) : dict V :=
  match d with
  | [] => [(k, v)]
  | (k', v') :: d' =>
      if String.eqb k k' then (k, v) :: d' else (k', v') :: dict_set d' k v
  end.

Fixpoint dict_get {V : Type} (d : dict V) (k : string) : option V :=
  match d with
  | [] => None
  | (k', v') :: d' => if String.eqb k k' then Some v' else dict_get d' k
  end.

Definition zones : dict float :=
  [ ("zenith"%string, 0.05%float);
    ("upper_sky"%string, 0.25%float);
    ("mid_sky"%string, 0.50%float);
    ("lower_sky"%string, 0.75%float);
    ("horizon"%string, 0.90%float);
    ("water_line"%string, 0.95%float) ].

(** [y = min(int(height * y_percent), height - 1)], before the [try]. *)
Definition zone_y (h : Z) (y_percent : float) : result Z :=
  v <- py_int (PrimFloat.mul (float_of_Z h) y_percent) ;;
  Ok (Z.min v (h - 1)).

(** The body of the [try] in [analyze_sky_zones]. *)
Definition zone_try (img : Image) (x y : Z) : result color :=
  px <- getpixel img (x, y) ;;
  '(r, g, b) <- rgb_of_pixel px ;;
  hx <- rgb_to_hex r g b ;;
  gd <- rgb_to_godot r g b ;;
  Ok {| rgb := (r, g, b); hex := hx; godot := gd |}.

Fixpoint zone_loop (img : Image) (x h : Z) (zs : dict float)
  (zone_colors : dict color) : result (dict color) :=
  match zs with
  | [] => Ok zone_colors
  | (zone_name, y_percent) :: rest =>
      y <- zone_y h y_percent ;;
      match zone_try img x y with
      | Ok c => zone_loop img x h rest (dict_set zone_colors zone_name c)
      | Raise _ => zone_loop img x h rest zone_colors
      end
  end.

Definition analyze_sky_zones (img : Image) : result (dict color) :=
  let (w, h) := size img in
  let x := w / 2 in
  zone_loop img x h zones [].

(* ================================================================= *)
(** ** Brightness *)

Record brightness_summary : Type := {
  average : float;
  normalized : float;
  is_dark : bool;
  is_bright : bool
}.

(** [0.299 * r + 0.587 * g + 0.114 * b] *)
Definition luma (r g b : Z) : float :=
  (0.299 * float_of_Z r + 0.587 * float_of_Z g + 0.114 * float_of_Z b)%float.

(** One turn of the loop over [pixels]: [len] may raise, and only a pixel with
    three channels or more adds to [total].  ([total] starts as the int 0;
    adding a float to it gives the same float as adding it to 0.0.) *)
Definition brightness_step (total : float) (p : pixel) : result float :=
  n <- py_len p ;;
  if 3 <=? n then
    match p with
    | PTuple (r :: g :: b :: _) => Ok (PrimFloat.add total (luma r g b))
    | _ => Raise ValueError
    end
  else Ok total.

Fixpoint brightness_total (pixels : list pixel) (total : float) : result float :=
  match pixels with
  | [] => Ok total
  | p :: rest =>
      total' <- brightness_step total p ;;
      brightness_total rest total'
  end.

Definition brightness_of_avg (avg : float) : brightness_summary := {|
  average := py_round avg 2;
  normalized := py_round (PrimFloat.div avg 255%float) 3;
  is_dark := PrimFloat.ltb avg 85%float;
  is_bright := PrimFloat.ltb 170%float avg
|}.

Definition analyze_brightness (img : Image) : result brightness_summary :=
  pixels <- resize_getdata img (100, 100) ;;
  total <- brightness_total pixels 0%float ;;
  avg <- py_truediv total (float_of_Z (Z.of_nat (List.length pixels))) ;;
  Ok (brightness_of_avg avg).


(* ================================================================= *)
(** ** Per-image analysis *)

Record analysis : Type := {
  filename : string;
  orientation : string;
  hour : Z;
  time : string;
  dimensions : Z * Z;
  vertical_gradient : list gradient_sample;
  sky_zones : dict color;
  brightness : brightness_summary
}.

(** What the module prints, from the check of the file list in [main] on. *)
Inductive message : Type :=
| NoImagesFound                         (* Error: No images found! *)
| Title                                 (* Skybox Color Analyzer ... *)
| Rule                                  (* "=" * 50 *)
| Found (count : Z)                     (* Found {n} images *)
| Skipping (file : string)
| Analyzing (file orient : string) (hr : Z)
| ErrorAnalyzing (img_path : string) (e : exn)
| NoImagesAnalyzed                      (* Error: No images were ... *)
| Analyzed (count : Z)                  (* Analyzed {n} images *)
| Generating                            (* Generating reports... *)
| SavedJson (path : string)             (* Saved JSON report: {path} *)
| SavedGodot (path : string)            (* Saved Godot color data: {path} *)
| Done.                                 (* Done. Open index.html ... *)

(** [f"{hour:02d}:00"] *)
Definition time_of_hour (hr : Z) : string := (format_02d hr ++ ":00")%string.

(** [analyze_image]: [image_open] stands for [Image.open] on the file system
    at hand.  The result pairs what was printed with the value returned (or
    the exception raised); [None] is the skip signal. *)
Definition analyze_image (image_open : string -> result Image)
  (image_path : string) : list message * result (option analysis) :=
  match image_open image_path with
  | Raise e => ([], Raise e)
  | Ok img =>
      let file := basename image_path in
      match parse_orientation_hour_from_filename file with
      | None => ([Skipping file], Ok None)
      | Some (orient, hr) =>
          ([Analyzing file orient hr],
           vg <- analyze_vertical_gradient img 10 ;;
           sz <- analyze_sky_zones img ;;
           br <- analyze_brightness img ;;
           Ok (Some {| filename := file;
                       orientation := orient;
                       hour := hr;
                       time := time_of_hour hr;
                       dimensions := (width img, height img);
                       vertical_gradient := vg;
                       sky_zones := sz;
                       brightness := br |}))
      end
  end.

(** The loop of [main] over the image files: a returned analysis is appended,
    [None] is passed over, and an exception is printed and passed over. *)
Fixpoint analyze_all (image_open : string -> result Image)
  (image_files : list string) (all_analyses : list analysis)
  (out : list message) : list analysis * list message :=
  match image_files with
  | [] => (all_analyses, out)
  | img_path :: rest =>
      match analyze_image image_open img_path with
      | (printed, Ok (Some a)) =>
          analyze_all image_open rest (all_analyses ++ [a]) (out ++ printed)
      | (printed, Ok None) =>
          analyze_all image_open rest all_analyses (out ++ printed)
      | (printed, Raise e) =>
          analyze_all image_open rest all_analyses
            (out ++ printed ++ [ErrorAnalyzing img_path e])
      end
  end.

(* ================================================================= *)
(** ** Report *)

Record godot_colors : Type := {
  zenith : option godot_color;
  upper : option godot_color;
  middle : option godot_color;
  lower : option godot_color;
  horizon : option godot_color;
  water : option godot_color
}.

Record godot_entry : Type := {
  entry_orientation : string;
  entry_hour : Z;
  entry_time : string;
  colors : godot_colors;
  entry_brightness : float
}.

(** [sky_zones.get(name, {}).get('godot', {})]; [None] is the empty dict. *)
Definition zone_godot (sz : dict color) (name : string) : option godot_color :=
  option_map godot (dict_get sz name).

Definition build_godot_entry (a : analysis) : godot_entry := {|
  entry_orientation := orientation a;
  entry_hour := hour a;
  entry_time := time a;
  colors := {| zenith := zone_godot (sky_zones a) "zenith";
               upper := zone_godot (sky_zones a) "upper_sky";
               middle := zone_godot (sky_zones a) "mid_sky";
               lower := zone_godot (sky_zones a) "lower_sky";
               horizon := zone_godot (sky_zones a) "horizon";
               water := zone_godot (sky_zones a) "water_line" |};
  entry_brightness := normalized (brightness a)
|}.

(** The sort key [(x['orientation'], x['hour'])]: tuples compare
    lexicographically, strings by code points, ints numerically. *)
Definition key_leb (a b : analysis) : bool :=
  match String.compare (orientation a) (orientation b) with
  | Lt => true
  | Gt => false
  | Eq => hour a <=? hour b
  end.

(** [sorted] is stable: an element stays before the later ones of equal key. *)
Fixpoint insert_by_key (a : analysis) (l : list analysis) : list analysis :=
  match l with
  | [] => [a]
  | b :: l' => if key_leb a b then a :: b :: l' else b :: insert_by_key a l'
  end.

Definition sorted_by_key (l : list analysis) : list analysis :=
  fold_right insert_by_key [] l.

(** The interpreter process.  The iteration order of a [set] of strings
    follows their hashes, and CPython keys the string hash with a seed drawn
    at start-up, so the order belongs to the process: [set_iter xs] is
    [list(set(xs))] as this process enumerates it. *)
Record PyProcess : Type := {
  set_iter : list string -> list string
}.

(** What the language guarantees of it: every distinct element, once. *)
Definition set_semantics (p : PyProcess) : Prop :=
  forall xs, Permutation (set_iter p xs) (nodup string_dec xs).

Record summary : Type := {
  total_images : Z;
  orientations : list string;
  purpose : string
}.

Record report : Type := {
  report_summary : summary;
  analyses : list analysis
}.

(** [os.path.join(d, name)] for a relative [name]. *)
Definition path_join (d name : string) : string :=
  match d with
  | EmptyString => name
  | _ =>
      if Ascii.eqb (last (list_ascii_of_string d) slash) slash
      then (d ++ name)%string
      else (d ++ "/" ++ name)%string
  end.

(** The two files [generate_report] writes, each with the value dumped as
    JSON into it. *)
Record written : Type := {
  json_path : string;
  json_report : report;
  godot_path : string;
  godot_data : list godot_entry
}.

Definition generate_report (p : PyProcess) (all_analyses : list analysis)
  (output_dir : string) : written :=
  let sorted_analyses := sorted_by_key all_analyses in
  let rep := {|
    report_summary := {|
      total_images := Z.of_nat (List.length all_analyses);
      orientations := set_iter p (map orientation all_analyses);
      purpose := "Skybox color extraction by orientation and hour" |};
    analyses := sorted_analyses |} in
  {| json_path := path_join output_dir "skybox_analysis_report.json";
     json_report := rep;
     godot_path := path_join output_dir "skybox_colors_godot.json";
     godot_data := map build_godot_entry sorted_analyses |}.

(** [main] from the point where [image_files] is resolved: an empty list
    ends the process at once; otherwise the header is printed, the loop runs,
    and the report is generated unless nothing was analysed.  [None] is
    [sys.exit(1)].  The two lines [generate_report] prints are logged here,
    after the line that announces it. *)
Definition main_batch (p : PyProcess) (image_open : string -> result Image)
  (image_files : list string) (output_dir : string)
  : list message * option written :=
  match image_files with
  | [] => ([NoImagesFound], None)
  | _ :: _ =>
      let (all_analyses, out) :=
        analyze_all image_open image_files []
          [Title; Rule; Found (Z.of_nat (List.length image_files))] in
      match all_analyses with
      | [] => (out ++ [NoImagesAnalyzed], None)
      | _ :: _ =>
          let w := generate_report p all_analyses output_dir in
          (out ++ [Analyzed (Z.of_nat (List.length all_analyses)); Generating;
                   SavedJson (json_path w); SavedGodot (godot_path w); Done],
           Some w)
      end
  end.

(** Two processes that enumerate a set in opposite orders. *)
Definition forward_process : PyProcess :=
  {| set_iter := fun xs => nodup string_dec xs |}.

Definition backward_process : PyProcess :=
  {| set_iter := fun xs => rev (nodup string_dec xs) |}.


(* ================================================================= *)
(** ** Vocabulary of the properties *)

(** A solid-colour image: every pixel of the grid is [c], and so is every
    pixel of a resized copy. *)
Definition solid (img : Image) (c : pixel) : Prop :=
  (forall x y, 0 <= x < width img -> 0 <= y < height img ->
               getpixel img (x, y) = Ok c) /\
  (forall w h, 0 <= w -> 0 <= h ->
               resize_getdata img (w, h) = Ok (repeat c (Z.to_nat (w * h)))).

(** What an attempt leaves in the result: its value, or nothing. *)
Definition kept {A : Type} (r : result A) : list A :=
  match r with
  | Ok a => [a]
  | Raise _ => []
  end.

(** Run a raising function over a list, stopping at the first exception. *)
Fixpoint mapM {A B : Type} (f : A -> result B) (l : list A) : result (list B) :=
  match l with
  | [] => Ok []
  | a :: l' => b <- f a ;; bs <- mapM f l' ;; Ok (b :: bs)
  end.

(** The colour record of an RGB triple. *)
Definition color_of_rgb (r g b : Z) : color := {|
  rgb := (PInt r, PInt g, PInt b);
  hex := String "#" (format_02x r ++ format_02x g ++ format_02x b);
  godot := {| godot_r := py_round (PrimFloat.div (float_of_Z r) 255%float) 3;
              godot_g := py_round (PrimFloat.div (float_of_Z g) 255%float) 3;
              godot_b := py_round (PrimFloat.div (float_of_Z b) 255%float) 3 |}
|}.

(** Pixels that carry at least three channels, and the luma they add. *)
Definition has_rgb (p : pixel) : bool :=
  match p with
  | PTuple (_ :: _ :: _ :: _) => true
  | _ => false
  end.

Definition is_tuple (p : pixel) : bool :=
  match p with
  | PTuple _ => true
  | PInt _ => false
  end.

Definition pixel_luma (p : pixel) : float :=
  match p with
  | PTuple (r :: g :: b :: _) => luma r g b
  | _ => 0%float
  end.

Definition luma_sum (ps : list pixel) : float :=
  fold_left (fun t p => PrimFloat.add t (pixel_luma p)) ps 0%float.

(** The order of the report: orientation first, as strings; then the hour. *)
Definition key_le (a b : analysis) : Prop :=
  String.ltb (orientation a) (orientation b) = true \/
  (orientation a = orientation b /\ hour a <= hour b).

(** Sample inputs. *)
Definition black : pixel := PTuple [0; 0; 0].
Definition white : pixel := PTuple [255; 255; 255].
Definition amber : pixel := PTuple [200; 100; 50].

(** A file name whose stem ends with a line feed: ["E12\n.png"]. *)
Definition newline_name : string :=
  String "E" (String "1" (String "2" (String newline ".png"))).

(** Names outside ASCII, as UTF-8 bytes: a long s for the letter, and
    Arabic-Indic digits for the hour. *)
Definition long_s_name : string :=
  String "197" (String "191" "12.png").

Definition arabic_digits_name : string :=
  String "E" (String "217" (String "161" (String "217" (String "162" ".png")))).

(** A small file system: two unreadable files, every other path opens as an
    amber 64 x 32 picture. *)
Definition sample_open (path : string) : result Image :=
  if String.eqb path "broken.png" || String.eqb path "X99.png"
  then Raise OSError
  else Ok (solid_image 64 32 amber).

(** The batch of the report examples, in the order the files were given. *)
Definition unsorted_batch : list analysis :=
  fst (analyze_all sample_open ["N06.png"; "E12.png"; "E01.png"]%string [] []).

Definition two_orientations : list analysis :=
  fst (analyze_all sample_open ["E12.png"; "N06.png"]%string [] []).

(** What each turn of the two sampling loops leaves in the result. *)
Definition gradient_kept (img : Image) (x num_samples : Z) (iy : Z * Z)
  : list gradient_sample :=
  kept (gradient_try img x (snd iy) (fst iy) num_samples).

Definition zone_kept (img : Image) (x : Z) (ny : string * Z)
  : dict color :=
  map (pair (fst ny)) (kept (zone_try img x (snd ny))).

(** A 64 x 32 amber picture whose row 16 cannot be read. *)
Definition flaky_image : Image := {|
  size := (64, 32);
  getpixel := fun xy =>
    if snd xy =? 16 then Raise OSError
    else pil_getpixel 64 32 (fun _ _ => amber) xy;
  resize_getdata := fun sz => Ok (repeat amber (Z.to_nat (fst sz * snd sz)))
|}.

(** The same picture with a single band: reads give a bare int. *)
Definition flaky_gray : Image := {|
  size := (64, 32);
  getpixel := fun xy =>
    if snd xy =? 16 then Raise OSError
    else pil_getpixel 64 32 (fun _ _ => PInt 128) xy;
  resize_getdata := fun sz =>
    Ok (repeat (PInt 128) (Z.to_nat (fst sz * snd sz)))
|}.

(** A picture whose resized copy is white in its upper half and has
    two-channel pixels of full value in its lower half. *)
Definition half_white : Image := {|
  size := (100, 100);
  getpixel := pil_getpixel 100 100
                (fun _ y => if y <? 50 then white else PTuple [255; 255]);
  resize_getdata := fun _ =>
    Ok (repeat white (Z.to_nat 5000)
        ++ repeat (PTuple [255; 255]) (Z.to_nat 5000))
|}.

(** A picture whose resized copy is white in its upper half and black in its
    lower half. *)
Definition half_dark : Image := {|
  size := (100, 100);
  getpixel := pil_getpixel 100 100
                (fun _ y => if y <? 50 then white else black);
  resize_getdata := fun _ =>
    Ok (repeat white (Z.to_nat 5000) ++ repeat black (Z.to_nat 5000))
|}.

(** A picture whose resized copy has 4 pixels of grey 84 and 9996 of grey
    85. *)
Definition near_threshold : Image := {|
  size := (100, 100);
  getpixel := pil_getpixel 100 100
                (fun x y => if (y =? 0) && (x <? 4) then PTuple [84; 84; 84]
                            else PTuple [85; 85; 85]);
  resize_getdata := fun _ =>
    Ok (repeat (PTuple [84; 84; 84]) 4
        ++ repeat (PTuple [85; 85; 85]) (Z.to_nat 9996))
|}.

(** The mean of the luma over the pixels, in the specification's words:
    the lumas [0.299 R + 0.587 G + 0.114 B] of the pixels are added up in
    order, in float arithmetic, and the sum is divided by the number of
    pixels. *)
Definition spec_luma_step (total : float) (p : pixel) : float :=
  match p with
  | PTuple (r :: g :: b :: _) =>
      (total + (0.299 * float_of_Z r + 0.587 * float_of_Z g
                + 0.114 * float_of_Z b))%float
  | _ => total
  end.

Definition spec_mean_luma (pixels : list pixel) : float :=
  PrimFloat.div (fold_left spec_luma_step pixels 0%float)
                (float_of_Z (Z.of_nat (List.length pixels))).

(** What the rounding of the float operations returns for a mantissa [m2] and
    an exponent [e2]. *)
Definition rounded (s : bool) (m2 e2 : Z) : spec_float :=
  match m2 with
  | 0 => S754_zero s
  | Z.pos p => if e2 <=? emax - prec then S754_finite s p e2 else S754_infinity s
  | Z.neg _ => S754_nan
  end.

(** A float that is zero or positive, below [2^B]. *)
Definition nonneg_below (B : Z) (f : spec_float) : Prop :=
  f = S754_zero false \/
  exists p e, f = S754_finite false p e /\ Zdigits2 (Z.pos p) + e <= B.

(** A row inside a picture of height [h]. *)
Definition row_in (h y : Z) : Prop := 0 < h -> 0 <= y < h.

(** The first characters of the names the parser accepts, each with the
    orientation it stands for: the five letters in either case, and the long
    s (U+017F), whose upper case is S. *)
Definition orientation_letter (c : Z) : option string :=
  if (c =? 87) || (c =? 119) then Some "W"%string
  else if (c =? 69) || (c =? 101) then Some "E"%string
  else if (c =? 78) || (c =? 110) then Some "N"%string
  else if (c =? 83) || (c =? 115) || (c =? 383) then Some "S"%string
  else if (c =? 85) || (c =? 117) then Some "U"%string
  else None.

(** What the parser needs of an entry of the upper-case table: no digit and
    no line feed changes or appears, a single letter of the pattern comes
    from one of the characters above, and a longer form has no digit in
    second place. *)
Definition upper_entry_ok (e : Z * list Z) : bool :=
  let (c, u) := e in
  negb (is_digit c) && negb (c =? 10) &&
  match u with
  | [] => false
  | [x] =>
      negb (is_digit x) && negb (x =? 10) &&
      (negb (is_orientation_char x) ||
       match orientation_letter c with
       | Some o => String.eqb o (str_of_code x)
       | None => false
       end)
  | x :: y :: _ => negb (is_digit x) && negb (x =? 10) && negb (is_digit y)
  end.

(** The module's constant [ORIENTATIONS]. *)
Definition ORIENTATIONS : list string := ["W"; "E"; "N"; "S"; "U"]%string.

(** What every analysis kept by the main loop satisfies. *)
Definition well_formed (a : analysis) : Prop :=
  In (orientation a) ORIENTATIONS /\ 0 <= hour a <= 23 /\
  time a = time_of_hour (hour a) /\
  parse_orientation_hour_from_filename (filename a)
  = Some (orientation a, hour a) /\
  (List.length (vertical_gradient a) <= 10)%nat /\
  (List.length (sky_zones a) <= 6)%nat.

(** Kinds of console lines. *)
Definition is_skipping (m : message) : bool :=
  match m with Skipping _ => true | _ => false end.

Definition is_error (m : message) : bool :=
  match m with ErrorAnalyzing _ _ => true | _ => false end.

Definition is_analyzing (m : message) : bool :=
  match m with Analyzing _ _ _ => true | _ => false end.

(** The order of the export: orientation, then hour. *)
Definition entry_key_le (a b : godot_entry) : Prop :=
  String.ltb (entry_orientation a) (entry_orientation b) = true \/
  (entry_orientation a = entry_orientation b /\ entry_hour a <= entry_hour b).

(** The value of an attempt, if it has one. *)
Definition attempt_value {A : Type} (r : result A) : option A :=
  match r with
  | Ok a => Some a
  | Raise _ => None
  end.

(** The export colour of the zone sampled at the share [y_percent] of the
    height: the normalized colour its attempt gives, or nothing. *)
Definition zone_attempt (img : Image) (y_percent : float)
  : option godot_color :=
  match zone_y (height img) y_percent with
  | Ok y => option_map godot (attempt_value (zone_try img (width img / 2) y))
  | Raise _ => None
  end.

(** A file system where every path opens as a single-band 64 x 32 picture. *)
Definition gray_open (path : string) : result Image :=
  Ok (solid_image 64 32 (PInt 128)).

(** Reading a colour back from its hex string and from its normalized
    value. *)
Definition hex_digit_value (c : ascii) : Z :=
  let n := ascii_code c in if n <? 58 then n - 48 else n - 87.

Definition int_of_hex (s : string) : Z :=
  fold_left (fun acc c => 16 * acc + hex_digit_value c)
            (list_ascii_of_string s) 0.

Definition channels_of_hex (s : string) : option (Z * Z * Z) :=
  match s with
  | String "#" (String a (String b (String c (String d (String e
      (String f EmptyString)))))) =>
      Some (int_of_hex (String a (String b EmptyString)),
            int_of_hex (String c (String d EmptyString)),
            int_of_hex (String e (String f EmptyString)))
  | _ => None
  end.

Definition channel_of_godot (g : float) : result Z :=
  py_int (PrimFloat.add (PrimFloat.mul g 255) 0.5).

(** Checks run over the 256 channel values and the 24 hours. *)
Definition hex_byte_ok (n : Z) : bool :=
  match format_02x n with
  | String a (String b EmptyString) =>
      int_of_hex (String a (String b EmptyString)) =? n
  | _ => false
  end.

Definition godot_byte_ok (n : Z) : bool :=
  match godot_of_channel (PInt n) with
  | Ok g =>
      PrimFloat.leb 0 g && PrimFloat.leb g 1 &&
      match channel_of_godot g with Ok m => m =? n | Raise _ => false end
  | Raise _ => false
  end.

Definition name_round_trip_ok (o : string) (h : Z) : bool :=
  match parse_orientation_hour_from_filename
          (o ++ String.substring 0 2 (time_of_hour h) ++ ".png")%string with
  | Some (o', h') => String.eqb o' o && (h' =? h)
  | None => false
  end && (String.length (time_of_hour h) =? 5)%nat.

(** An analysis as the main loop keeps them. *)
Definition sample_analysis : analysis := {|
  filename := "E07.png";
  orientation := "E";
  hour := 7;
  time := "07:00";
  dimensions := (64, 32);
  vertical_gradient := [];
  sky_zones := [];
  brightness := brightness_of_avg 0
|}.

(** A 64 x 32 picture with an alpha channel and a colour that changes with
    the row. *)
Definition striped_image : Image := {|
  size := (64, 32);
  getpixel := pil_getpixel 64 32 (fun _ y => PTuple [y; 2 * y; 3 * y; 255]);
  resize_getdata := fun sz => Ok (repeat amber (Z.to_nat (fst sz * snd sz)))
|}.

(** The check of the brightness of a grey picture of level [v]. *)
Definition grey (v : Z) : pixel := PTuple [v; v; v].

Definition grey_brightness_ok (v : Z) : bool :=
  match analyze_brightness (solid_image 1 1 (grey v)) with
  | Ok b =>
      PrimFloat.Leibniz.eqb (average b) (float_of_Z v) &&
      PrimFloat.Leibniz.eqb (normalized b)
        (py_round (PrimFloat.div (float_of_Z v) 255) 3) &&
      Bool.eqb (is_dark b) (v <? 85) && Bool.eqb (is_bright b) (170 <? v)
  | Raise _ => false
  end.

(* ================================================================= *)
(** * Properties *)

(* ----------------------------------------------------------------- *)
(** ** Filename parser *)

Lemma re_match_shape (name : list Z) (o : Z) (hs : list Z) :
  re_match_orient_hour name = Some (o, hs) ->
  exists d1 d2 rest,
    name = o :: d1 :: d2 :: rest /\ hs = [d1; d2] /\
    is_orientation_char o = true /\ is_digit d1 = true /\ is_digit d2 = true /\
    (rest = [] \/ rest = [10]).
Proof.
  unfold re_match_orient_hour.
  destruct name as [|c [|d1 [|d2 rest]]]; try discriminate.
  destruct (is_orientation_char c) eqn:Ho; try discriminate.
  destruct (is_digit d1) eqn:H1; try discriminate.
  destruct (is_digit d2) eqn:H2; try discriminate.
  destruct (at_dollar rest) eqn:Hd; try discriminate.
  cbn [andb]. intros H. injection H as <- <-.
  exists d1, d2, rest. repeat split; auto.
  destruct rest as [|n [|? ?]]; cbn [at_dollar] in Hd; try discriminate; auto.
  right. apply Z.eqb_eq in Hd. now subst n.
Qed.

Lemma int_of_two_digits (d1 d2 : Z) :
  int_of_digits [d1; d2] = 10 * digit_value d1 + digit_value d2.
Proof. unfold int_of_digits. cbn [fold_left]. lia. Qed.

(** A decimal digit has a value from 0 to 9. *)
Lemma decimal_lookup_range (zs : list Z) (c v : Z) :
  decimal_lookup zs c = Some v -> 0 <= v <= 9.
Proof.
  induction zs as [|z zs IH]; [discriminate|]. cbn [decimal_lookup].
  destruct ((z <=? c) && (c <? z + 10)) eqn:E; [|exact IH].
  apply andb_true_iff in E. destruct E as [E1 E2].
  apply Z.leb_le in E1. apply Z.ltb_lt in E2.
  intros H. injection H as <-. lia.
Qed.

Lemma digit_value_range (c : Z) : 0 <= digit_value c <= 9.
Proof.
  unfold digit_value. destruct (decimal_value c) as [v|] eqn:E; [|lia].
  now apply (decimal_lookup_range decimal_zeros c).
Qed.

(** Every stem that upper-cases to letter, digit, digit with an hour up to 23
    is parsed to that pair. *)
Lemma parse_accepts_pattern (file : string) (c d1 d2 : Z) :
  str_upper (fsdecode (path_stem file)) = [c; d1; d2] ->
  is_orientation_char c = true -> is_digit d1 = true -> is_digit d2 = true ->
  10 * digit_value d1 + digit_value d2 <= 23 ->
  parse_orientation_hour_from_filename file
  = Some (str_of_code c, 10 * digit_value d1 + digit_value d2).
Proof.
  intros Hs Hc H1 H2 Hh.
  unfold parse_orientation_hour_from_filename. rewrite Hs.
  unfold re_match_orient_hour. rewrite Hc, H1, H2. cbn [andb at_dollar].
  rewrite int_of_two_digits.
  pose proof (digit_value_range d1). pose proof (digit_value_range d2).
  replace (0 <=? _) with true by (symmetry; apply Z.leb_le; lia).
  replace (_ <=? 23) with true by (symmetry; apply Z.leb_le; lia).
  reflexivity.
Qed.

(** What a successful parse tells about the upper-cased stem: the pattern,
    possibly followed by one line feed. *)
Lemma parse_some_shape (file o : string) (h : Z) :
  parse_orientation_hour_from_filename file = Some (o, h) ->
  exists c d1 d2 rest,
    str_upper (fsdecode (path_stem file)) = c :: d1 :: d2 :: rest /\
    (rest = [] \/ rest = [10]) /\
    o = str_of_code c /\ is_orientation_char c = true /\
    is_digit d1 = true /\ is_digit d2 = true /\
    h = 10 * digit_value d1 + digit_value d2 /\ 0 <= h <= 23.
Proof.
  unfold parse_orientation_hour_from_filename.
  destruct (re_match_orient_hour _) as [[o' hs]|] eqn:Hm; try discriminate.
  apply re_match_shape in Hm.
  destruct Hm as (d1 & d2 & rest & Hn & -> & Hc & H1 & H2 & Hr).
  rewrite int_of_two_digits.
  destruct ((0 <=? _) && (_ <=? 23)) eqn:Hb; try discriminate.
  intros H. injection H as <- <-.
  apply andb_true_iff in Hb. rewrite !Z.leb_le in Hb.
  exists o', d1, d2, rest. repeat split; auto; apply Hb.
Qed.

(** Hours 24 to 99 are refused. *)
Lemma parse_rejects_late_hours (file : string) (c d1 d2 : Z) (rest : list Z) :
  str_upper (fsdecode (path_stem file)) = c :: d1 :: d2 :: rest ->
  23 < 10 * digit_value d1 + digit_value d2 ->
  parse_orientation_hour_from_filename file = None.
Proof.
  intros Hs Hh.
  destruct (parse_orientation_hour_from_filename file) as [[o h]|] eqn:Hp; auto.
  apply parse_some_shape in Hp.
  destruct Hp as (c' & e1 & e2 & rest' & Hn & _ & _ & _ & _ & _ & -> & Hr).
  rewrite Hs in Hn. injection Hn as _ <- <- _. lia.
Qed.

Example parse_examples :
  map parse_orientation_hour_from_filename
      ["E12.png"; "u06.jpg"; "X99.png"; "EE12.png"; "N1.png"; "E24.png";
       "W123.png"; "shots/s23.PNG"]%string
  = [Some ("E", 12); Some ("U", 6); None; None; None; None; None;
     Some ("S", 23)]%string.
Proof. reflexivity. Qed.

(** The upper case of the stem and the digits are Unicode's. *)
Example parse_beyond_ascii :
  fsdecode (path_stem long_s_name) = [383; 49; 50] /\
  parse_orientation_hour_from_filename long_s_name = Some ("S"%string, 12) /\
  fsdecode (path_stem arabic_digits_name) = [69; 1633; 1634] /\
  parse_orientation_hour_from_filename arabic_digits_name
  = Some ("E"%string, 12).
Proof. vm_compute. repeat split. Qed.

(** C2 (evaluation at the failing input): the stem of ["E12\n.png"] has four
    characters, a line feed after the two digits, and is still parsed to
    [("E", 12)], because [$] also matches before a final line feed. *)
Theorem parse_accepts_trailing_newline :
  path_stem newline_name
  = String "E" (String "1" (String "2" (String newline EmptyString))) /\
  String.length (path_stem newline_name) = 4%nat /\
  parse_orientation_hour_from_filename newline_name = Some ("E"%string, 12).
Proof. repeat split. Qed.


(* ----------------------------------------------------------------- *)
(** ** Samplers: what one attempt does *)

Lemma solid_image_solid (w h : Z) (c : pixel) : solid (solid_image w h c) c.
Proof.
  split.
  - unfold width, height. simpl. intros x y Hx Hy. unfold pil_getpixel.
    destruct (x <? 0) eqn:Ex; [apply Z.ltb_lt in Ex; lia|].
    destruct (y <? 0) eqn:Ey; [apply Z.ltb_lt in Ey; lia|].
    replace (0 <=? x) with true by (symmetry; apply Z.leb_le; lia).
    replace (x <? w) with true by (symmetry; apply Z.ltb_lt; lia).
    replace (0 <=? y) with true by (symmetry; apply Z.leb_le; lia).
    replace (y <? h) with true by (symmetry; apply Z.ltb_lt; lia).
    reflexivity.
  - intros w' h' _ _. reflexivity.
Qed.

(** A read that raises ends the attempt with that exception. *)
Lemma gradient_try_read_fails (img : Image) (x y i n : Z) (e : exn) :
  getpixel img (x, y) = Raise e -> gradient_try img x y i n = Raise e.
Proof. intros H. unfold gradient_try. now rewrite H. Qed.

Lemma zone_try_read_fails (img : Image) (x y : Z) (e : exn) :
  getpixel img (x, y) = Raise e -> zone_try img x y = Raise e.
Proof. intros H. unfold zone_try. now rewrite H. Qed.

(** A read of three channels or more gives the colour of the first three. *)
Lemma zone_try_rgb (img : Image) (x y r g b : Z) (rest : list Z) :
  getpixel img (x, y) = Ok (PTuple (r :: g :: b :: rest)) ->
  zone_try img x y = Ok (color_of_rgb r g b).
Proof.
  intros H. unfold zone_try. rewrite H. unfold rgb_of_pixel, py_len. simpl bind.
  replace (3 <=? _) with true; [reflexivity|].
  symmetry. apply Z.leb_le. simpl List.length. lia.
Qed.

(** Operands that convert exactly are divided as floats. *)
Lemma py_truediv_int_small (a b : Z) :
  b <> 0 -> Z.abs a < 2 ^ 53 -> Z.abs b < 2 ^ 53 ->
  py_truediv_int a b = Ok (PrimFloat.div (float_of_Z a) (float_of_Z b)).
Proof.
  intros Hb Ha Hb'. unfold py_truediv_int, int_is_small.
  replace (b =? 0) with false by (symmetry; apply Z.eqb_neq; exact Hb).
  replace (Z.abs a <? 2 ^ 53) with true
    by (symmetry; apply Z.ltb_lt; exact Ha).
  replace (Z.abs b <? 2 ^ 53) with true
    by (symmetry; apply Z.ltb_lt; exact Hb').
  reflexivity.
Qed.

Lemma gradient_try_rgb (img : Image) (x y i n r g b : Z) (rest : list Z) :
  getpixel img (x, y) = Ok (PTuple (r :: g :: b :: rest)) ->
  n <> 1 -> Z.abs i < 2 ^ 53 -> Z.abs (n - 1) < 2 ^ 53 ->
  gradient_try img x y i n
  = Ok {| position :=
            py_round (PrimFloat.div (float_of_Z i) (float_of_Z (n - 1))) 2;
          sample_color := color_of_rgb r g b |}.
Proof.
  intros H Hn Hi Hn'. unfold gradient_try. rewrite H.
  unfold rgb_of_pixel, py_len. simpl bind.
  replace (3 <=? _) with true by
    (symmetry; apply Z.leb_le; simpl List.length; lia).
  rewrite py_truediv_int_small by (try assumption; lia).
  reflexivity.
Qed.

(** A bare [int] has no [len]: the attempt raises [TypeError]. *)
Lemma gradient_try_int_pixel (img : Image) (x y i n v : Z) :
  getpixel img (x, y) = Ok (PInt v) ->
  gradient_try img x y i n = Raise TypeError.
Proof. intros H. unfold gradient_try. now rewrite H. Qed.

Lemma zone_try_int_pixel (img : Image) (x y v : Z) :
  getpixel img (x, y) = Ok (PInt v) -> zone_try img x y = Raise TypeError.
Proof. intros H. unfold zone_try. now rewrite H. Qed.

(** A tuple of fewer than three channels is replicated as a tuple, which the
    hex format refuses. *)
Lemma zone_try_short_tuple (img : Image) (x y : Z) (cs : list Z) :
  getpixel img (x, y) = Ok (PTuple cs) -> (List.length cs < 3)%nat ->
  zone_try img x y = Raise TypeError.
Proof.
  intros H Hl. unfold zone_try. rewrite H. unfold rgb_of_pixel, py_len.
  simpl bind.
  replace (3 <=? _) with false by (symmetry; apply Z.leb_gt; lia).
  reflexivity.
Qed.

Lemma gradient_try_short_tuple (img : Image) (x y i n : Z) (cs : list Z) :
  getpixel img (x, y) = Ok (PTuple cs) -> (List.length cs < 3)%nat ->
  is_ok (gradient_try img x y i n) = false.
Proof.
  intros H Hl. unfold gradient_try. rewrite H. unfold rgb_of_pixel, py_len.
  simpl bind.
  replace (3 <=? _) with false by (symmetry; apply Z.leb_gt; lia).
  simpl bind. destruct (py_truediv_int i (n - 1)); reflexivity.
Qed.

(** With one sample the position is [0 / 0]: no attempt succeeds. *)
Lemma gradient_try_single (img : Image) (x y : Z) :
  is_ok (gradient_try img x y 0 1) = false.
Proof.
  unfold gradient_try.
  destruct (getpixel img (x, y)) as [px|]; [|reflexivity]. simpl bind.
  destruct (rgb_of_pixel px) as [[[r g] b]|]; reflexivity.
Qed.

Lemma gradient_single_empty (img : Image) :
  analyze_vertical_gradient img 1 = Ok [].
Proof.
  unfold analyze_vertical_gradient. destruct (size img) as [w h].
  change (py_range 1) with [0]. cbn [gradient_loop].
  change (gradient_y h 1 0) with (Ok (Z.min (h / 2) (h - 1))). cbn [bind].
  pose proof (gradient_try_single img (w / 2) (Z.min (h / 2) (h - 1))) as Ht.
  destruct (gradient_try _ _ _ _ _); [discriminate|]. reflexivity.
Qed.

(** C3 (evaluation at the failing input): on a grayscale picture, whose
    pixels are bare ints, every read succeeds and both samplers return
    nothing; the same happens with two-channel pixels. *)
Theorem grayscale_samples_are_dropped :
  getpixel (solid_image 64 32 (PInt 128)) (32, 16) = Ok (PInt 128) /\
  analyze_vertical_gradient (solid_image 64 32 (PInt 128)) 10 = Ok [] /\
  analyze_sky_zones (solid_image 64 32 (PInt 128)) = Ok [] /\
  analyze_vertical_gradient (solid_image 64 32 (PTuple [128; 255])) 10 = Ok [] /\
  analyze_sky_zones (solid_image 64 32 (PTuple [128; 255])) = Ok [].
Proof. vm_compute. repeat split. Qed.

(** On a solid RGB picture the default gradient has its ten samples and the
    zones are six, all of the picture's colour. *)
Example solid_default_sampling :
  (vg <- analyze_vertical_gradient (solid_image 64 32 amber) 10 ;;
   Ok (map sample_color vg))
  = Ok (repeat (color_of_rgb 200 100 50) 10) /\
  analyze_sky_zones (solid_image 64 32 amber)
  = Ok (map (fun z => (fst z, color_of_rgb 200 100 50)) zones).
Proof. vm_compute. split; reflexivity. Qed.

(** C4 (evaluation at the failing input): a solid amber picture sampled with
    one sample returns no sample at all, although its six zones are found. *)
Theorem solid_single_sample_missing :
  solid (solid_image 64 32 amber) amber /\
  analyze_vertical_gradient (solid_image 64 32 amber) 1 = Ok [] /\
  (sz <- analyze_sky_zones (solid_image 64 32 amber) ;;
   Ok (List.length sz)) = Ok 6%nat.
Proof.
  split; [apply solid_image_solid|].
  split; [apply gradient_single_empty|].
  vm_compute. reflexivity.
Qed.

(** The rows and positions of the default gradient on a picture 1080 high. *)
Example gradient_rows_1080 :
  mapM (gradient_y 1080 10) (py_range 10)
  = Ok [0; 120; 240; 360; 480; 600; 720; 840; 960; 1079] /\
  mapM (fun i => q <- py_truediv_int i 9 ;; Ok (py_round q 2)) (py_range 10)
  = Ok [0; 0.11; 0.22; 0.33; 0.44; 0.56; 0.67; 0.78; 0.89; 1]%float.
Proof. vm_compute. split; reflexivity. Qed.

(** A row whose product [height * i] does not convert exactly: the quotient
    is rounded once, from the exact integers. *)
Example gradient_row_large :
  gradient_y 1889570097 6509656 5063065 = Ok 1469665631 /\
  1889570097 * 5063065 = 1469665631 * (6509656 - 1) /\
  int_is_small (1889570097 * 5063065) = false.
Proof. vm_compute. repeat split. Qed.

(** C5 (evaluation at the failing input): with [num_samples = 1] the row is
    the vertical midpoint, the attempt on an RGB pixel raises
    [ZeroDivisionError] when the position is computed, and the result is
    empty. *)
Theorem single_sample_midpoint_not_recorded (img : Image) :
  gradient_y (height img) 1 0 = Ok (Z.min (height img / 2) (height img - 1)) /\
  (forall x y r g b rest,
      getpixel img (x, y) = Ok (PTuple (r :: g :: b :: rest)) ->
      gradient_try img x y 0 1 = Raise ZeroDivisionError) /\
  analyze_vertical_gradient img 1 = Ok [].
Proof.
  split; [reflexivity|]. split; [|apply gradient_single_empty].
  intros x y r g b rest H. unfold gradient_try. rewrite H.
  unfold rgb_of_pixel, py_len. simpl bind.
  replace (3 <=? _) with true by
    (symmetry; apply Z.leb_le; simpl List.length; lia).
  reflexivity.
Qed.

(* ----------------------------------------------------------------- *)
(** ** Per-image analysis and the main loop *)

(** [None] is returned only after the file was opened. *)
Lemma skip_needs_open (image_open : string -> result Image) (path : string)
  (printed : list message) :
  analyze_image image_open path = (printed, Ok None) ->
  exists img, image_open path = Ok img /\
              parse_orientation_hour_from_filename (basename path) = None /\
              printed = [Skipping (basename path)].
Proof.
  unfold analyze_image.
  destruct (image_open path) as [img|e]; [|discriminate].
  destruct (parse_orientation_hour_from_filename _) as [[o h]|].
  - intros H. exfalso. injection H as _ H.
    destruct (analyze_vertical_gradient img 10); [|discriminate].
    destruct (analyze_sky_zones img); [|discriminate].
    destruct (analyze_brightness img); discriminate.
  - intros H. injection H as <-. exists img. auto.
Qed.

(** C10: for a path whose name does not parse, [analyze_image] returns the
    skip signal with its message exactly when the file opens; when the open
    raises, [analyze_image] raises the same exception without printing and the
    main loop prints the error line for the path and moves on. *)
Theorem malformed_name_skips_only_after_open
  (image_open : string -> result Image) (path : string)
  (Hname : parse_orientation_hour_from_filename (basename path) = None) :
  (forall img, image_open path = Ok img ->
     analyze_image image_open path = ([Skipping (basename path)], Ok None)) /\
  (forall e, image_open path = Raise e ->
     analyze_image image_open path = ([], Raise e)) /\
  (forall printed, analyze_image image_open path = (printed, Ok None) ->
     exists img, image_open path = Ok img) /\
  (forall img rest acc out, image_open path = Ok img ->
     analyze_all image_open (path :: rest) acc out
     = analyze_all image_open rest acc (out ++ [Skipping (basename path)])) /\
  (forall e rest acc out, image_open path = Raise e ->
     analyze_all image_open (path :: rest) acc out
     = analyze_all image_open rest acc (out ++ [ErrorAnalyzing path e])).
Proof.
  assert (Hok : forall img, image_open path = Ok img ->
     analyze_image image_open path = ([Skipping (basename path)], Ok None)).
  { intros img H. unfold analyze_image. now rewrite H, Hname. }
  assert (Hraise : forall e, image_open path = Raise e ->
     analyze_image image_open path = ([], Raise e)).
  { intros e H. unfold analyze_image. now rewrite H. }
  repeat split; auto.
  - intros printed H. apply skip_needs_open in H.
    destruct H as (img & H & _). now exists img.
  - intros img rest acc out H. cbn [analyze_all]. now rewrite (Hok img H).
  - intros e rest acc out H. cbn [analyze_all]. now rewrite (Hraise e H).
Qed.

Lemma malformed_name_skips_only_after_open_witness :
  parse_orientation_hour_from_filename (basename "shots/X99.png") = None /\
  analyze_all sample_open ["X99.png"; "notes.png"]%string [] []
  = ([], [ErrorAnalyzing "X99.png" OSError; Skipping "notes.png"]).
Proof.
  split; [reflexivity|].
  destruct (malformed_name_skips_only_after_open sample_open "X99.png"%string
              eq_refl) as (_ & _ & _ & _ & Herr).
  rewrite (Herr OSError ["notes.png"%string] [] [] eq_refl).
  destruct (malformed_name_skips_only_after_open sample_open "notes.png"%string
              eq_refl) as (_ & _ & _ & Hskip & _).
  rewrite (Hskip (solid_image 64 32 amber) [] [] _ eq_refl).
  reflexivity.
Defined.


(* ----------------------------------------------------------------- *)
(** ** The sort of the report *)

Lemma string_ltb_lt (a b : string) :
  String.ltb a b = true <-> String.compare a b = Lt.
Proof.
  unfold String.ltb. destruct (String.compare a b); split; congruence.
Qed.

Lemma string_compare_refl (a : string) : String.compare a a = Eq.
Proof. now apply String_as_OT.cmp_eq. Qed.

Lemma string_compare_trans (a b c : string) :
  String.compare a b = Lt -> String.compare b c = Lt -> String.compare a c = Lt.
Proof.
  intros H1 H2. apply String_as_OT.cmp_lt.
  apply String_as_OT.cmp_lt in H1, H2.
  eapply String_as_OT.lt_trans; eauto.
Qed.

Lemma key_leb_le (a b : analysis) : key_leb a b = true <-> key_le a b.
Proof.
  unfold key_leb, key_le. rewrite string_ltb_lt.
  destruct (String.compare (orientation a) (orientation b)) eqn:E.
  - apply String.compare_eq_iff in E. rewrite Z.leb_le. split.
    + intros H. right. auto.
    + intros [H|[_ H]]; [discriminate|exact H].
  - split; auto.
  - split; [discriminate|].
    intros [H|[H _]]; [discriminate|].
    rewrite H, string_compare_refl in E. discriminate.
Qed.

Lemma key_le_total (a b : analysis) : key_le a b \/ key_le b a.
Proof.
  rewrite <- !key_leb_le. unfold key_leb.
  rewrite (String.compare_antisym (orientation a) (orientation b)).
  destruct (String.compare (orientation b) (orientation a));
    cbn [CompOpp]; auto.
  destruct (Z.le_ge_cases (hour a) (hour b)); [left|right];
    apply Z.leb_le; lia.
Qed.

Lemma key_le_trans (a b c : analysis) : key_le a b -> key_le b c -> key_le a c.
Proof.
  unfold key_le. rewrite !string_ltb_lt.
  intros [H1|[E1 H1]] [H2|[E2 H2]].
  - left. eapply string_compare_trans; eauto.
  - left. now rewrite <- E2.
  - left. now rewrite E1.
  - right. split; [congruence|lia].
Qed.

Lemma insert_by_key_perm (a : analysis) (l : list analysis) :
  Permutation (a :: l) (insert_by_key a l).
Proof.
  induction l as [|b l IH]; simpl; [reflexivity|].
  destruct (key_leb a b); [reflexivity|].
  rewrite perm_swap. now apply perm_skip.
Qed.

Lemma sorted_by_key_perm (l : list analysis) : Permutation l (sorted_by_key l).
Proof.
  induction l as [|a l IH]; simpl; [constructor|].
  rewrite <- insert_by_key_perm. now apply perm_skip.
Qed.

Lemma insert_by_key_sorted (a : analysis) (l : list analysis) :
  Sorted key_le l -> Sorted key_le (insert_by_key a l).
Proof.
  induction 1 as [|b l Hs IH Hd]; simpl.
  - repeat constructor.
  - destruct (key_leb a b) eqn:E.
    + apply key_leb_le in E. constructor; [constructor; auto|].
      constructor. exact E.
    + assert (Hba : key_le b a).
      { destruct (key_le_total a b) as [H|H]; auto.
        apply key_leb_le in H. congruence. }
      constructor; auto.
      destruct Hd as [|c l Hbc]; simpl.
      * constructor. exact Hba.
      * destruct (key_leb a c); constructor; auto.
Qed.

Lemma sorted_by_key_sorted (l : list analysis) :
  StronglySorted key_le (sorted_by_key l).
Proof.
  apply Sorted_StronglySorted; [exact key_le_trans|].
  induction l as [|a l IH]; simpl; [constructor|].
  now apply insert_by_key_sorted.
Qed.

(** The sort is stable: it never moves an analysis in front of an earlier one
    with the same key. *)
Lemma insert_by_key_first (a : analysis) (l : list analysis) :
  Forall (fun b => key_le a b) l -> insert_by_key a l = a :: l.
Proof.
  destruct 1 as [|b l Hb _]; simpl; [reflexivity|].
  apply key_leb_le in Hb. now rewrite Hb.
Qed.

(** C6: whatever the order of the analyses given, the [analyses] of the
    report hold the same analyses sorted by orientation (as strings) and then
    by hour (as numbers), and the batch N06, E12, E01 comes out as E01, E12,
    N06. *)
Theorem report_analyses_sorted (p : PyProcess) (all_analyses : list analysis)
  (output_dir : string) :
  StronglySorted key_le
    (analyses (json_report (generate_report p all_analyses output_dir))) /\
  Permutation all_analyses
    (analyses (json_report (generate_report p all_analyses output_dir))) /\
  map filename unsorted_batch = ["N06.png"; "E12.png"; "E01.png"]%string /\
  map filename
    (analyses (json_report (generate_report p unsorted_batch output_dir)))
  = ["E01.png"; "E12.png"; "N06.png"]%string.
Proof.
  split; [apply sorted_by_key_sorted|].
  split; [apply sorted_by_key_perm|].
  split; vm_compute; reflexivity.
Qed.

(* ----------------------------------------------------------------- *)
(** ** Determinism of the report *)

Lemma forward_process_semantics : set_semantics forward_process.
Proof. intros xs. reflexivity. Qed.

Lemma backward_process_semantics : set_semantics backward_process.
Proof. intros xs. simpl. symmetry. apply Permutation_rev. Qed.

(** C1 (counterexample): two processes that both honour the semantics of
    sets write different reports for the same two analyses, because the
    summary lists the orientations in the order the set is enumerated. *)
Lemma report_depends_on_set_order :
  set_semantics forward_process /\ set_semantics backward_process /\
  orientations (report_summary (json_report
    (generate_report forward_process two_orientations "out")))
  = ["E"; "N"]%string /\
  orientations (report_summary (json_report
    (generate_report backward_process two_orientations "out")))
  = ["N"; "E"]%string /\
  generate_report forward_process two_orientations "out"
  <> generate_report backward_process two_orientations "out".
Proof.
  split; [apply forward_process_semantics|].
  split; [apply backward_process_semantics|].
  split; [vm_compute; reflexivity|].
  split; [vm_compute; reflexivity|].
  intros H.
  apply (f_equal (fun w => orientations (report_summary (json_report w)))) in H.
  vm_compute in H. discriminate.
Qed.

(** C1 (amended): over any two processes that honour the semantics of sets,
    the same analyses give the same file paths, the same sorted analyses, the
    same image count and label, and the same engine-ready export; the
    orientations of the summary are the distinct orientations of the
    analyses, each once, in both runs, so the two lists are permutations of
    one another. *)
Theorem report_deterministic_up_to_set_order (p1 p2 : PyProcess)
  (all_analyses : list analysis) (output_dir : string)
  (H1 : set_semantics p1) (H2 : set_semantics p2) :
  let w1 := generate_report p1 all_analyses output_dir in
  let w2 := generate_report p2 all_analyses output_dir in
  json_path w1 = json_path w2 /\ godot_path w1 = godot_path w2 /\
  analyses (json_report w1) = analyses (json_report w2) /\
  total_images (report_summary (json_report w1))
  = total_images (report_summary (json_report w2)) /\
  purpose (report_summary (json_report w1))
  = purpose (report_summary (json_report w2)) /\
  godot_data w1 = godot_data w2 /\
  Permutation (orientations (report_summary (json_report w1)))
              (orientations (report_summary (json_report w2))) /\
  NoDup (orientations (report_summary (json_report w1))) /\
  (forall o, In o (orientations (report_summary (json_report w1)))
             <-> In o (map orientation all_analyses)).
Proof.
  simpl. repeat split; try reflexivity.
  - rewrite (H1 _), (H2 _). reflexivity.
  - eapply Permutation_NoDup; [symmetry; apply H1|]. apply NoDup_nodup.
  - intros Hin. eapply nodup_In. eapply Permutation_in; [apply H1|exact Hin].
  - intros Hin. eapply Permutation_in; [symmetry; apply H1|].
    now apply nodup_In.
Qed.

Lemma report_deterministic_up_to_set_order_witness :
  godot_data (generate_report forward_process two_orientations "out")
  = godot_data (generate_report backward_process two_orientations "out") /\
  Permutation
    (orientations (report_summary (json_report
       (generate_report forward_process two_orientations "out"))))
    (orientations (report_summary (json_report
       (generate_report backward_process two_orientations "out")))).
Proof.
  destruct (report_deterministic_up_to_set_order
              forward_process backward_process two_orientations "out"
              forward_process_semantics backward_process_semantics)
    as (_ & _ & _ & _ & _ & Hg & Hp & _).
  split; [exact Hg|exact Hp].
Defined.


(* ----------------------------------------------------------------- *)
(** ** Brightness *)

(** On tuple pixels the loop adds the luma of the pixels with three channels
    or more and passes over the others. *)
Lemma brightness_total_tuples (pixels : list pixel) :
  forallb is_tuple pixels = true ->
  forall total,
    brightness_total pixels total
    = Ok (fold_left (fun t p => PrimFloat.add t (pixel_luma p))
                    (filter has_rgb pixels) total).
Proof.
  induction pixels as [|p pixels IH]; intros Ht total; [reflexivity|].
  simpl in Ht. apply andb_true_iff in Ht. destruct Ht as [Hp Ht].
  destruct p as [v|cs]; [discriminate|].
  cbn [brightness_total]. unfold brightness_step, py_len. cbn [bind].
  destruct cs as [|r [|g [|b rest]]]; try (cbn; apply IH; assumption).
  replace (3 <=? _) with true by
    (symmetry; apply Z.leb_le; simpl List.length; lia).
  cbn [bind filter has_rgb fold_left pixel_luma]. apply IH. assumption.
Qed.

Lemma analyze_brightness_tuples (img : Image) (pixels : list pixel) :
  resize_getdata img (100, 100) = Ok pixels ->
  Z.of_nat (List.length pixels) = 100 * 100 ->
  forallb is_tuple pixels = true ->
  analyze_brightness img
  = Ok (brightness_of_avg
          (PrimFloat.div (luma_sum (filter has_rgb pixels)) 10000%float)).
Proof.
  intros Hdata Hlen Ht. unfold analyze_brightness. rewrite Hdata. cbn [bind].
  rewrite (brightness_total_tuples pixels Ht). cbn [bind]. rewrite Hlen.
  reflexivity.
Qed.

(** A bare [int] among the pixels makes the whole brightness analysis raise. *)
Lemma brightness_total_int_pixel (pixels : list pixel) (total : float) :
  forallb is_tuple pixels = false ->
  brightness_total pixels total = Raise TypeError.
Proof.
  revert total. induction pixels as [|p pixels IH]; intros total Ht;
    [discriminate|].
  cbn [brightness_total]. destruct p as [v|cs]; [reflexivity|].
  simpl in Ht. unfold brightness_step, py_len. cbn [bind].
  destruct cs as [|r [|g [|b rest]]]; try (cbn; apply IH; assumption).
  replace (3 <=? _) with true by
    (symmetry; apply Z.leb_le; simpl List.length; lia).
  cbn [bind]. apply IH. assumption.
Qed.

(** C9: when the resized copy has its 100 x 100 tuple pixels, the brightness
    analysis returns (no division by zero), and its average is the luma of
    the pixels with three channels or more divided by the count of all
    pixels, 10000: the other pixels add nothing and still count. *)
Theorem brightness_divides_by_all_pixels (img : Image) (pixels : list pixel)
  (Hdata : resize_getdata img (100, 100) = Ok pixels)
  (Hlen : Z.of_nat (List.length pixels) = 100 * 100)
  (Htuples : forallb is_tuple pixels = true) :
  analyze_brightness img
  = Ok (brightness_of_avg
          (PrimFloat.div (luma_sum (filter has_rgb pixels)) 10000%float)) /\
  (forall total,
      brightness_total pixels total
      = brightness_total (filter has_rgb pixels) total) /\
  float_is_zero (float_of_Z (Z.of_nat (List.length pixels))) = false.
Proof.
  split; [now apply analyze_brightness_tuples|]. split.
  - intros total. rewrite (brightness_total_tuples pixels Htuples).
    rewrite brightness_total_tuples.
    + f_equal. f_equal. clear. induction pixels as [|p ps IH]; simpl; auto.
      destruct (has_rgb p) eqn:E; simpl; rewrite ?E; congruence.
    + clear. induction pixels as [|p ps IH]; simpl; auto.
      destruct p as [v|[|r [|g [|b rest]]]]; simpl; auto.
  - rewrite Hlen. reflexivity.
Qed.

Lemma brightness_divides_by_all_pixels_witness :
  analyze_brightness half_white
  = Ok {| average := 127.5; normalized := 0.5;
          is_dark := false; is_bright := false |}.
Proof.
  destruct (brightness_divides_by_all_pixels half_white
              (repeat white (Z.to_nat 5000)
               ++ repeat (PTuple [255; 255]) (Z.to_nat 5000))
              eq_refl eq_refl eq_refl) as (H & _ & _).
  rewrite H. vm_compute. reflexivity.
Defined.

Lemma has_rgb_is_tuple (pixels : list pixel) :
  forallb has_rgb pixels = true -> forallb is_tuple pixels = true.
Proof.
  induction pixels as [|p pixels IH]; [reflexivity|]. simpl.
  intros H. apply andb_true_iff in H. destruct H as [Hp H].
  rewrite (IH H). destruct p; [discriminate|reflexivity].
Qed.

Lemma filter_has_rgb_all (pixels : list pixel) :
  forallb has_rgb pixels = true -> filter has_rgb pixels = pixels.
Proof.
  induction pixels as [|p pixels IH]; [reflexivity|]. simpl.
  intros H. apply andb_true_iff in H. destruct H as [Hp H].
  now rewrite Hp, (IH H).
Qed.

(** On RGB pixels the loop computes the sum the specification describes. *)
Lemma luma_sum_spec (pixels : list pixel) :
  forallb has_rgb pixels = true ->
  forall total,
    fold_left (fun t p => PrimFloat.add t (pixel_luma p)) pixels total
    = fold_left spec_luma_step pixels total.
Proof.
  induction pixels as [|p pixels IH]; [reflexivity|]. simpl.
  intros H total. apply andb_true_iff in H. destruct H as [Hp H].
  rewrite (IH H). destruct p as [v|[|r [|g [|b rest]]]]; try discriminate.
  reflexivity.
Qed.

(** C7 (counterexample): a picture whose resized copy has 4 pixels of grey 84
    and 9996 pixels of grey 85 is returned with average 85.0, which is not
    below 85, and with [is_dark] true: the flag was computed from the mean
    before it was rounded. *)
Lemma brightness_flags_ignore_rounding :
  analyze_brightness near_threshold
  = Ok {| average := 85; normalized := 0.333;
          is_dark := true; is_bright := false |} /\
  PrimFloat.ltb 85 85 = false /\
  ~ (forall b, analyze_brightness near_threshold = Ok b ->
               (is_dark b = true <-> PrimFloat.ltb (average b) 85 = true)).
Proof.
  assert (H : analyze_brightness near_threshold
              = Ok {| average := 85; normalized := 0.333;
                      is_dark := true; is_bright := false |})
    by (vm_compute; reflexivity).
  split; [exact H|]. split; [reflexivity|].
  intros Hall. destruct (Hall _ H) as [Hd _].
  specialize (Hd eq_refl). vm_compute in Hd. discriminate.
Qed.

(** C7 (amended): a fully black picture has average 0.0, is dark and not
    bright; a fully white one has average 255.0, is bright and not dark.  For
    every picture whose resized copy has its 100 x 100 pixels of three
    channels or more, the average returned is the mean of the luma
    0.299 R + 0.587 G + 0.114 B over these pixels rounded to two decimals,
    and the flags compare the mean before it is rounded with 85 and 170. *)
Theorem brightness_of_black_and_white (dark light img : Image)
  (pixels : list pixel)
  (Hdark : solid dark black) (Hlight : solid light white)
  (Hdata : resize_getdata img (100, 100) = Ok pixels)
  (Hlen : Z.of_nat (List.length pixels) = 100 * 100)
  (Hrgb : forallb has_rgb pixels = true) :
  analyze_brightness dark
  = Ok {| average := 0; normalized := 0;
          is_dark := true; is_bright := false |} /\
  analyze_brightness light
  = Ok {| average := 255; normalized := 1;
          is_dark := false; is_bright := true |} /\
  analyze_brightness img
  = Ok {| average := py_round (spec_mean_luma pixels) 2;
          normalized := py_round (PrimFloat.div (spec_mean_luma pixels) 255) 3;
          is_dark := PrimFloat.ltb (spec_mean_luma pixels) 85;
          is_bright := PrimFloat.ltb 170 (spec_mean_luma pixels) |}.
Proof.
  destruct Hdark as [_ Hd]. destruct Hlight as [_ Hl].
  split; [|split].
  - unfold analyze_brightness. rewrite (Hd 100 100) by lia.
    vm_compute. reflexivity.
  - unfold analyze_brightness. rewrite (Hl 100 100) by lia.
    vm_compute. reflexivity.
  - rewrite (analyze_brightness_tuples img pixels Hdata Hlen
               (has_rgb_is_tuple pixels Hrgb)).
    rewrite (filter_has_rgb_all pixels Hrgb).
    unfold luma_sum. rewrite (luma_sum_spec pixels Hrgb).
    unfold spec_mean_luma. rewrite Hlen. reflexivity.
Qed.

Lemma brightness_of_black_and_white_witness :
  analyze_brightness (solid_image 1920 1080 black)
  = Ok {| average := 0; normalized := 0;
          is_dark := true; is_bright := false |} /\
  analyze_brightness (solid_image 7 3 white)
  = Ok {| average := 255; normalized := 1;
          is_dark := false; is_bright := true |} /\
  analyze_brightness half_dark
  = Ok {| average := 127.5; normalized := 0.5;
          is_dark := false; is_bright := false |}.
Proof.
  destruct (brightness_of_black_and_white
              (solid_image 1920 1080 black) (solid_image 7 3 white)
              half_dark
              (repeat white (Z.to_nat 5000) ++ repeat black (Z.to_nat 5000))
              (solid_image_solid 1920 1080 black)
              (solid_image_solid 7 3 white) eq_refl eq_refl eq_refl)
    as (Hb & Hw & Hm).
  split; [exact Hb|]. split; [exact Hw|].
  rewrite Hm. vm_compute. reflexivity.
Defined.


(* ----------------------------------------------------------------- *)
(** ** The sample rows are always computed

    The rows are computed with float arithmetic before the [try].  For sizes
    and sample counts below 2^31 the product and the quotient are finite and
    not negative, so [int] returns and the row lies inside the picture. *)

(** The number of binary digits of a positive integer. *)
Lemma Zdigits2_log2 (m : Z) : 0 < m -> Zdigits2 m = Z.log2 m + 1.
Proof.
  destruct m as [|p|p]; try lia. intros _. simpl.
  induction p as [p IH|p IH|]; simpl; try reflexivity.
  - rewrite Pos2Z.inj_succ, IH. destruct p; simpl; lia.
  - rewrite Pos2Z.inj_succ, IH. destruct p; simpl; lia.
Qed.

(** One rounding shift halves the mantissa. *)
Lemma shr_1_m (r : shr_record) : 0 <= shr_m r -> shr_m (shr_1 r) = shr_m r / 2.
Proof.
  destruct r as [m rb sb]. simpl. intros Hm.
  destruct m as [|[p|p|]|p]; simpl; try lia; try reflexivity.
  - apply Z.div_unique with 1; lia.
  - apply Z.div_unique with 0; lia.
Qed.

(** [p] rounding shifts divide the mantissa by [2^p]. *)
Lemma iter_shr_m (p : positive) :
  forall r, 0 <= shr_m r ->
            shr_m (iter_pos shr_1 p r) = shr_m r / 2 ^ Z.pos p.
Proof.
  assert (Hnn : forall r, 0 <= shr_m r -> 0 <= shr_m (shr_1 r)).
  { intros r H. rewrite shr_1_m by exact H. apply Z.div_pos; lia. }
  assert (Hpow : forall q, 0 < 2 ^ Z.pos q) by (intros; apply Z.pow_pos_nonneg; lia).
  induction p as [p IH|p IH|]; intros r Hr; simpl iter_pos.
  - rewrite IH, IH, shr_1_m; auto.
    + rewrite !Z.div_div by (try apply Hpow; lia). f_equal.
      replace (Z.pos p~1) with (1 + Z.pos p + Z.pos p) by lia.
      rewrite !Z.pow_add_r by lia. ring.
    + rewrite IH by auto. apply Z.div_pos; auto.
  - rewrite IH, IH; auto.
    + rewrite !Z.div_div by (try apply Hpow; lia). f_equal.
      replace (Z.pos p~0) with (Z.pos p + Z.pos p) by lia.
      rewrite !Z.pow_add_r by lia. ring.
    + rewrite IH by auto. apply Z.div_pos; auto.
  - rewrite shr_1_m by auto. reflexivity.
Qed.

(** The shift that brings a mantissa to the format's precision. *)
Lemma shr_fexp_m (m e : Z) (l : location) :
  0 <= m ->
  let k := Z.max 0 (fexp prec emax (Zdigits2 m + e) - e) in
  shr_m (fst (shr_fexp prec emax m e l)) = m / 2 ^ k /\
  snd (shr_fexp prec emax m e l) = e + k.
Proof.
  intros Hm k. subst k. unfold shr_fexp, shr.
  assert (Hrec : shr_m (shr_record_of_loc m l) = m) by (destruct l as [|[]]; reflexivity).
  destruct (fexp prec emax (Zdigits2 m + e) - e) as [|p|p] eqn:E; cbn [fst snd].
  - rewrite Hrec. simpl. rewrite Z.div_1_r. split; lia.
  - rewrite iter_shr_m by (rewrite Hrec; exact Hm). rewrite Hrec.
    rewrite Z.max_r by lia. split; reflexivity.
  - rewrite Hrec. rewrite Z.max_l by lia. simpl. rewrite Z.div_1_r. split; lia.
Qed.

Lemma round_nearest_even_bounds (m : Z) (l : location) :
  m <= round_nearest_even m l <= m + 1.
Proof.
  unfold round_nearest_even. destruct l as [|[]]; try lia.
  destruct (Z.even m); lia.
Qed.

Lemma Zdigits2_nonneg (m : Z) : 0 <= Zdigits2 m.
Proof. destruct m; simpl; lia. Qed.

Lemma Zdigits2_mono (a b : Z) : 0 <= a <= b -> Zdigits2 a <= Zdigits2 b.
Proof.
  intros [Ha Hab]. destruct (Z.eq_dec a 0) as [->|Hne].
  - apply Zdigits2_nonneg.
  - rewrite !Zdigits2_log2 by lia. pose proof (Z.log2_le_mono a b Hab). lia.
Qed.

Lemma Zdigits2_succ (a : Z) : 0 <= a -> Zdigits2 (a + 1) <= Zdigits2 a + 1.
Proof.
  intros Ha. destruct (Z.eq_dec a 0) as [->|Hne]; [simpl; lia|].
  rewrite !Zdigits2_log2 by lia. pose proof (Z.log2_succ_le a).
  unfold Z.succ in *. lia.
Qed.

Lemma Zdigits2_shift (m k : Z) :
  0 <= m -> 0 <= k -> Zdigits2 (m / 2 ^ k) = Z.max 0 (Zdigits2 m - k).
Proof.
  intros Hm Hk. destruct (Z.eq_dec m 0) as [->|Hne].
  - rewrite Z.div_0_l by (apply Z.pow_nonzero; lia). simpl. lia.
  - rewrite <- Z.shiftr_div_pow2 by lia.
    destruct (Z.eq_dec (Z.shiftr m k) 0) as [E|E].
    + rewrite E. simpl. apply Z.shiftr_eq_0_iff in E.
      destruct E as [E|[_ E]]; [lia|]. rewrite Zdigits2_log2 by lia. lia.
    + assert (0 <= Z.shiftr m k) by (apply Z.shiftr_nonneg; lia).
      rewrite !Zdigits2_log2 by lia. rewrite Z.log2_shiftr by lia.
      assert (~ Z.log2 m < k).
      { intros Hlt. apply E. apply Z.shiftr_eq_0; lia. }
      lia.
Qed.

Lemma div_pow2_pos (m k : Z) : 0 < m -> 0 <= k -> k <= Zdigits2 m - 1 -> 0 < m / 2 ^ k.
Proof.
  intros Hm Hk Hd. rewrite Zdigits2_log2 in Hd by lia.
  apply Z.div_str_pos. split; [apply Z.pow_pos_nonneg; lia|].
  apply Z.log2_le_pow2; lia.
Qed.

(** Rounding to binary64: the exponent never decreases, grows by at most one
    over the format's exponent, the magnitude grows by at most one bit, and a
    positive value above the subnormal range is not rounded to zero.  When the
    mantissa carries the format's precision or more, the result is
    canonical. *)
Lemma binary_round_aux_shape (s : bool) (m e : Z) (l : location) :
  0 <= m ->
  exists m2 e2,
    binary_round_aux prec emax s m e l = rounded s m2 e2 /\
    0 <= m2 /\ e <= e2 /\
    e2 <= Z.max e (fexp prec emax (Zdigits2 m + e)) + 1 /\
    Zdigits2 m2 + e2
    <= Z.max (Zdigits2 m + e) (Z.max e (fexp prec emax (Zdigits2 m + e))) + 1 /\
    (0 < m -> -1073 <= Zdigits2 m + e -> 0 < m2) /\
    (e <= fexp prec emax (Zdigits2 m + e) -> 0 < m2 ->
     fexp prec emax (Zdigits2 m2 + e2) = e2).
Proof.
  intros Hm. unfold binary_round_aux.
  destruct (shr_fexp_m m e l Hm) as [H1m H1e].
  destruct (shr_fexp prec emax m e l) as [mrs1 e1]. cbn [fst snd] in *.
  remember (Z.max 0 (fexp prec emax (Zdigits2 m + e) - e)) as k1 eqn:Ek1.
  assert (Hk1 : 0 <= k1) by lia.
  assert (Hm' : 0 <= shr_m mrs1).
  { rewrite H1m. apply Z.div_pos; [lia|apply Z.pow_pos_nonneg; lia]. }
  pose proof (round_nearest_even_bounds (shr_m mrs1) (loc_of_shr_record mrs1)) as Hr.
  remember (round_nearest_even (shr_m mrs1) (loc_of_shr_record mrs1)) as m1 eqn:Em1.
  clear Em1.
  assert (Hm1 : 0 <= m1) by lia.
  destruct (shr_fexp_m m1 e1 loc_Exact Hm1) as [H2m H2e].
  destruct (shr_fexp prec emax m1 e1 loc_Exact) as [mrs2 e2]. cbn [fst snd] in *.
  remember (Z.max 0 (fexp prec emax (Zdigits2 m1 + e1) - e1)) as k2 eqn:Ek2.
  assert (Hk2 : 0 <= k2) by lia.
  exists (shr_m mrs2), e2.
  pose proof (Zdigits2_shift m k1 Hm Hk1) as Hd'. rewrite <- H1m in Hd'.
  pose proof (Zdigits2_shift m1 k2 Hm1 Hk2) as Hd2. rewrite <- H2m in Hd2.
  assert (Hd1 : Zdigits2 m1 <= Zdigits2 (shr_m mrs1) + 1).
  { etransitivity; [apply Zdigits2_mono with (b := shr_m mrs1 + 1); lia|].
    apply Zdigits2_succ; lia. }
  assert (Hd0 : Zdigits2 (shr_m mrs1) <= Zdigits2 m1)
    by (apply Zdigits2_mono; lia).
  assert (Hd3 : 0 < shr_m mrs2 -> 1 <= Zdigits2 (shr_m mrs2)).
  { intros Hp. rewrite Zdigits2_log2 by exact Hp.
    pose proof (Z.log2_nonneg (shr_m mrs2)). lia. }
  pose proof (Zdigits2_nonneg m) as Hdm.
  pose proof (Zdigits2_nonneg m1) as Hdm1.
  assert (Hpos : 0 < m -> -1073 <= Zdigits2 m + e -> 0 < shr_m mrs2).
  { intros Hpos Hmag.
    assert (Hp1 : 0 < shr_m mrs1).
    { rewrite H1m. apply div_pow2_pos; try lia.
      rewrite Zdigits2_log2 in * by lia. pose proof (Z.log2_nonneg m).
      unfold fexp, emin, prec, emax in *. lia. }
    assert (Hp2 : 0 < m1) by lia.
    rewrite H2m. apply div_pow2_pos; try lia.
    rewrite (Zdigits2_log2 m1) in * by lia. pose proof (Z.log2_nonneg m1).
    unfold fexp, emin, prec, emax in *. lia. }
  split; [reflexivity|].
  split; [rewrite H2m; apply Z.div_pos; [lia|apply Z.pow_pos_nonneg; lia]|].
  unfold fexp, emin, prec, emax in *. change IntDef.Z.max with Z.max in *.
  repeat split; lia.
Qed.


Lemma rounded_nonneg_below (m2 e2 B : Z) :
  0 <= m2 -> e2 <= 971 -> Zdigits2 m2 + e2 <= B ->
  nonneg_below B (rounded false m2 e2).
Proof.
  intros Hm He Hd. unfold rounded. destruct m2 as [|p|p]; [now left| |lia].
  unfold emax, prec. replace (e2 <=? 1024 - 53) with true
    by (symmetry; apply Z.leb_le; lia).
  right. exists p, e2. auto.
Qed.

Lemma shl_align_shape (p : positive) (e e' : Z) :
  let mz := fst (shl_align p e e') in
  let ez := snd (shl_align p e e') in
  ez = Z.min e e' /\ Zdigits2 (Z.pos mz) + ez = Zdigits2 (Z.pos p) + e.
Proof.
  unfold shl_align. destruct (e' - e) as [|d|d] eqn:E; cbn [fst snd].
  - split; lia.
  - split; lia.
  - split; [lia|].
    assert (Hz : Z.pos (Pos.iter xO p d) = Z.shiftl (Z.pos p) (Z.pos d)).
    { simpl. apply (Pos.iter_swap_gen _ _ Z.pos xO (Z.mul 2)). reflexivity. }
    rewrite Hz, !Zdigits2_log2; try lia.
    rewrite Z.log2_shiftl by lia. lia.
Qed.

(** The float of an unsigned 63-bit integer: zero for zero, otherwise a
    positive float below [2^64] whose exponent is at least -52. *)
Lemma of_uint63_shape (n : int) :
  (to_Z n = 0 /\ Prim2SF (of_uint63 n) = S754_zero false) \/
  (0 < to_Z n /\
   exists p e, Prim2SF (of_uint63 n) = S754_finite false p e /\
               -52 <= e /\ Zdigits2 (Z.pos p) + e <= 64).
Proof.
  rewrite FloatAxioms.of_uint63_spec. unfold binary_normalize.
  pose proof (Uint63.to_Z_bounded n) as Hb.
  destruct (to_Z n) as [|p|p] eqn:En; [left; auto| |lia].
  right. split; [lia|]. unfold binary_round.
  pose proof (shl_align_shape p 0 (fexp prec emax (Z.pos (digits2_pos p) + 0)))
    as [Hez Hdz].
  destruct (shl_align p 0 _) as [mz ez]. cbn [fst snd] in *.
  assert (Hdp : 1 <= Zdigits2 (Z.pos p) <= 63).
  { rewrite Zdigits2_log2 by lia. pose proof (Z.log2_nonneg (Z.pos p)).
    split; [lia|]. assert (Z.log2 (Z.pos p) < 63); [|lia].
    apply Z.log2_lt_pow2; [lia|]. change (2 ^ 63) with wB. lia. }
  change (Z.pos (digits2_pos p)) with (Zdigits2 (Z.pos p)) in *.
  destruct (binary_round_aux_shape false (Z.pos mz) ez loc_Exact)
    as (m2 & e2 & Hr & Hm2 & Hlo & Hhi & Hmag & Hpos & _); [lia|].
  rewrite Hr. unfold fexp, emin, prec, emax in *.
  change IntDef.Z.max with Z.max in *.
  assert (0 < m2) by (apply Hpos; lia).
  unfold rounded. destruct m2 as [|p2|p2]; try lia.
  unfold emax, prec. replace (e2 <=? 1024 - 53) with true
    by (symmetry; apply Z.leb_le; lia).
  exists p2, e2. split; [reflexivity|]. lia.
Qed.

Lemma Zdigits2_mul (a b : Z) :
  0 < a -> 0 < b -> Zdigits2 (a * b) <= Zdigits2 a + Zdigits2 b.
Proof.
  intros Ha Hb. rewrite !Zdigits2_log2 by nia.
  pose proof (Z.log2_mul_above a b). lia.
Qed.

(** The product of two floats that are zero or positive is zero or positive,
    and finite as long as the magnitudes stay in range. *)
Lemma mul_nonneg_below (x y : float) (Bx By : Z) :
  nonneg_below Bx (Prim2SF x) -> nonneg_below By (Prim2SF y) ->
  -1000 <= Bx + By <= 972 ->
  nonneg_below (Bx + By + 1) (Prim2SF (x * y)).
Proof.
  intros Hx Hy HB. rewrite FloatAxioms.mul_spec. unfold SF64mul, SFmul.
  destruct Hx as [->|(px & ex & -> & Hx)], Hy as [->|(py & ey & -> & Hy)];
    try (now left).
  cbn [xorb].
  destruct (binary_round_aux_shape false (Z.pos (px * py)) (ex + ey) loc_Exact)
    as (m2 & e2 & Hr & Hm2 & Hlo & Hhi & Hmag & _); [lia|].
  rewrite Hr.
  pose proof (Zdigits2_mul (Z.pos px) (Z.pos py)) as Hd.
  rewrite <- Pos2Z.inj_mul in Hd.
  assert (1 <= Zdigits2 (Z.pos px)) by (simpl; lia).
  assert (1 <= Zdigits2 (Z.pos py)) by (simpl; lia).
  pose proof (Zdigits2_nonneg m2).
  unfold fexp, emin, prec, emax in *. change IntDef.Z.max with Z.max in *.
  apply rounded_nonneg_below; lia.
Qed.

Lemma shiftl_positive (a n : Z) : 0 < a -> 0 <= n -> 0 < Z.shiftl a n.
Proof.
  intros Ha Hn. rewrite Z.shiftl_mul_pow2 by lia.
  apply Z.mul_pos_pos; [lia|apply Z.pow_pos_nonneg; lia].
Qed.

(** So is the quotient by a positive float. *)
Lemma div_nonneg_below (x y : float) (Bx : Z) (py : positive) (ey : Z) :
  nonneg_below Bx (Prim2SF x) -> Prim2SF y = S754_finite false py ey ->
  -52 <= ey -> -1000 <= Bx <= 900 ->
  nonneg_below (Bx + 54) (Prim2SF (x / y)).
Proof.
  intros Hx Hy Hey HB. rewrite FloatAxioms.div_spec, Hy. unfold SF64div, SFdiv.
  destruct Hx as [->|(px & ex & -> & Hx)]; [now left|].
  cbn [xorb]. unfold SFdiv_core_binary.
  set (e' := Z.min _ _).
  set (sh := ex - ey - e').
  assert (Hsh : 0 <= sh) by (subst sh e'; lia).
  set (m' := match sh with Z.pos _ => Z.shiftl (Z.pos px) sh | 0 => Z.pos px | Z.neg _ => 0 end).
  assert (Hm' : 0 < m' /\ Zdigits2 m' = Zdigits2 (Z.pos px) + sh).
  { subst m'. destruct sh as [|q|q] eqn:Es; [split; lia| |lia].
    split; [apply shiftl_positive; lia|].
    rewrite !Zdigits2_log2; try lia; [|apply shiftl_positive; lia].
    rewrite Z.log2_shiftl by lia. lia. }
  destruct Hm' as [Hm'pos Hm'd].
  destruct (Z.div_eucl m' (Z.pos py)) as [q r] eqn:Ediv.
  assert (Hq : q = m' / Z.pos py) by (unfold Z.div; now rewrite Ediv).
  assert (Hq0 : 0 <= q <= m').
  { rewrite Hq. split; [apply Z.div_pos; lia|].
    apply Z.div_le_upper_bound; nia. }
  destruct (binary_round_aux_shape false q e' (new_location (Z.pos py) r))
    as (m2 & e2 & Hr & Hm2 & Hlo & Hhi & Hmag & _); [lia|].
  rewrite Hr.
  pose proof (Zdigits2_mono q m' Hq0) as Hdq.
  pose proof (Zdigits2_nonneg q). pose proof (Zdigits2_nonneg m2).
  assert (1 <= Zdigits2 (Z.pos px)) by (simpl; lia).
  assert (He' : e' <= ex - ey) by (subst e'; lia).
  unfold fexp, emin, prec, emax in *. change IntDef.Z.max with Z.max in *.
  apply rounded_nonneg_below; lia.
Qed.

Lemma Zdigits2_bounds (m : Z) :
  0 < m -> 2 ^ (Zdigits2 m - 1) <= m < 2 ^ Zdigits2 m /\ 1 <= Zdigits2 m.
Proof.
  intros Hm. rewrite Zdigits2_log2 by exact Hm.
  pose proof (Z.log2_spec m Hm) as Hs. pose proof (Z.log2_nonneg m).
  replace (Z.log2 m + 1 - 1) with (Z.log2 m) by lia.
  unfold Z.succ in Hs. split; [exact Hs|lia].
Qed.

(** The rounded quotient of two positive integers below 2^63, taken as
    mantissas of exponent 0, is a positive, finite and canonical float. *)
Lemma int_quotient_shape (ma mb : positive) :
  Z.pos ma < 2 ^ 63 -> Z.pos mb < 2 ^ 63 ->
  exists p e,
    SFdiv prec emax (S754_finite false ma 0) (S754_finite false mb 0)
    = S754_finite false p e /\
    valid_binary (S754_finite false p e) = true /\
    Zdigits2 (Z.pos p) + e <= 65.
Proof.
  intros Ha Hb. unfold SFdiv. cbn [xorb]. unfold SFdiv_core_binary.
  destruct (Zdigits2_bounds (Z.pos ma)) as [Hba Hda]; [lia|].
  destruct (Zdigits2_bounds (Z.pos mb)) as [Hbb Hdb]; [lia|].
  assert (Hda' : Zdigits2 (Z.pos ma) <= 63).
  { assert (~ 63 < Zdigits2 (Z.pos ma)); [|lia]. intros Hlt.
    assert (2 ^ 63 <= 2 ^ (Zdigits2 (Z.pos ma) - 1))
      by (apply Z.pow_le_mono_r; lia). lia. }
  assert (Hdb' : Zdigits2 (Z.pos mb) <= 63).
  { assert (~ 63 < Zdigits2 (Z.pos mb)); [|lia]. intros Hlt.
    assert (2 ^ 63 <= 2 ^ (Zdigits2 (Z.pos mb) - 1))
      by (apply Z.pow_le_mono_r; lia). lia. }
  remember (Zdigits2 (Z.pos ma)) as d1 eqn:Ed1.
  remember (Zdigits2 (Z.pos mb)) as d2 eqn:Ed2.
  remember (Z.min (fexp prec emax (d1 + 0 - (d2 + 0))) (0 - 0)) as e' eqn:Ee'.
  remember (0 - 0 - e') as sh eqn:Esh.
  assert (He' : e' = Z.min (d1 - d2 - 53) 0).
  { subst e'. unfold fexp, emin, prec, emax.
    change IntDef.Z.max with Z.max. lia. }
  assert (Hsh : 0 <= sh) by lia.
  remember (match sh with
            | 0 => Z.pos ma
            | Z.pos _ => Z.shiftl (Z.pos ma) sh
            | Z.neg _ => 0
            end) as m' eqn:Em'.
  assert (Hm' : 0 < m' /\ Zdigits2 m' = d1 + sh).
  { subst m'. destruct sh as [|q|q] eqn:Es; [split; lia| |lia].
    split; [apply shiftl_positive; lia|].
    rewrite Ed1, !Zdigits2_log2; try lia; [|apply shiftl_positive; lia].
    rewrite Z.log2_shiftl by lia. lia. }
  destruct Hm' as [Hm'pos Hm'd].
  destruct (Zdigits2_bounds m' Hm'pos) as [Hbm _].
  destruct (Z.div_eucl m' (Z.pos mb)) as [q r] eqn:Ediv.
  assert (Hq : q = m' / Z.pos mb) by (unfold Z.div; now rewrite Ediv).
  assert (Hpow : 0 < 2 ^ d2) by (apply Z.pow_pos_nonneg; lia).
  assert (Hlow : m' / 2 ^ d2 <= q).
  { rewrite Hq. apply Z.div_le_compat_l; lia. }
  assert (Hdlow : d1 + sh - d2 <= Zdigits2 q).
  { pose proof (Zdigits2_shift m' d2) as Hs. rewrite Hm'd in Hs.
    assert (0 <= m' / 2 ^ d2) by (apply Z.div_pos; lia).
    pose proof (Zdigits2_mono (m' / 2 ^ d2) q). lia. }
  assert (Hq0 : 0 < q <= m').
  { split.
    - assert (0 <= q) by (rewrite Hq; apply Z.div_pos; lia).
      destruct (Z.eq_dec q 0) as [E0|]; [|lia].
      rewrite E0 in Hdlow. simpl in Hdlow. lia.
    - rewrite Hq. apply Z.div_le_upper_bound; nia. }
  pose proof (Zdigits2_mono q m') as Hdq.
  destruct (binary_round_aux_shape false q e' (new_location (Z.pos mb) r))
    as (m2 & e2 & Hr & Hm2 & Hlo & Hhi & Hmag & Hpos & Hcan); [lia|].
  rewrite Hr.
  unfold fexp, emin, prec, emax in *. change IntDef.Z.max with Z.max in *.
  assert (Hp2 : 0 < m2) by (apply Hpos; lia).
  unfold rounded. destruct m2 as [|p2|p2]; try lia.
  unfold emax, prec. replace (e2 <=? 1024 - 53) with true
    by (symmetry; apply Z.leb_le; lia).
  exists p2, e2. split; [reflexivity|]. split; [|lia].
  unfold valid_binary, bounded, canonical_mantissa, fexp, emin, prec, emax.
  change (Z.pos (digits2_pos p2)) with (Zdigits2 (Z.pos p2)).
  apply andb_true_iff. split; [apply Z.eqb_eq|apply Z.leb_le]; lia.
Qed.

Lemma py_int_nonneg (f : float) (B : Z) :
  nonneg_below B (Prim2SF f) -> exists v, py_int f = Ok v /\ 0 <= v.
Proof.
  unfold py_int. intros [->|(p & e & -> & _)]; [exists 0; split; [auto|lia]|].
  eexists. split; [reflexivity|].
  destruct (0 <=? e); [apply Z.shiftl_nonneg|apply Z.shiftr_nonneg]; lia.
Qed.

Lemma float_of_Z_shape (z : Z) :
  0 <= z < 2 ^ 63 ->
  (z = 0 /\ Prim2SF (float_of_Z z) = S754_zero false) \/
  (0 < z /\
   exists p e, Prim2SF (float_of_Z z) = S754_finite false p e /\
               -52 <= e /\ Zdigits2 (Z.pos p) + e <= 64).
Proof.
  intros Hz. unfold float_of_Z.
  replace (z <? 0) with false by (symmetry; apply Z.ltb_ge; lia).
  assert (Hto : to_Z (Uint63.of_Z z) = z).
  { rewrite Uint63.of_Z_spec. apply Z.mod_small. exact Hz. }
  destruct (of_uint63_shape (Uint63.of_Z z)) as [[H0 H]|[H0 H]];
    rewrite Hto in H0; [left|right]; auto.
Qed.

Lemma float_of_Z_below (z : Z) :
  0 <= z < 2 ^ 63 -> nonneg_below 64 (Prim2SF (float_of_Z z)).
Proof.
  intros Hz.
  destruct (float_of_Z_shape z Hz) as [[_ H]|[_ (p & e & H & _ & Hd)]].
  - now left.
  - right. exists p, e. auto.
Qed.

Lemma zone_percent_below (name : string) (y_percent : float) :
  In (name, y_percent) zones -> nonneg_below 0 (Prim2SF y_percent).
Proof.
  unfold zones. simpl.
  intros [H|[H|[H|[H|[H|[H|[]]]]]]]; injection H as _ <-;
    right; eexists; eexists; (split; [vm_compute; reflexivity|simpl; lia]).
Qed.

(** [int(height * y_percent)] returns, and clamping gives a row of the
    picture. *)
Lemma zone_y_total (h : Z) (name : string) (y_percent : float) :
  0 <= h < 2 ^ 63 -> In (name, y_percent) zones ->
  exists y, zone_y h y_percent = Ok y /\ row_in h y.
Proof.
  intros Hh Hin. unfold zone_y.
  destruct (py_int_nonneg (float_of_Z h * y_percent) 65) as (v & Hv & Hv0).
  { apply (mul_nonneg_below _ _ 64 0);
      [now apply float_of_Z_below|now apply (zone_percent_below name)|lia]. }
  rewrite Hv. cbn [bind]. eexists. split; [reflexivity|].
  unfold row_in. lia.
Qed.

(** The quotient of a dividend that is not negative by a positive divisor is a
    float that is zero or positive, whichever way it is computed. *)
Lemma py_truediv_int_nonneg (a b : Z) :
  0 <= a < 2 ^ 63 -> 0 < b < 2 ^ 63 ->
  exists q, py_truediv_int a b = Ok q /\ nonneg_below 118 (Prim2SF q).
Proof.
  intros Ha Hb. unfold py_truediv_int.
  replace (b =? 0) with false by (symmetry; apply Z.eqb_neq; lia).
  destruct (int_is_small a && int_is_small b).
  - eexists. split; [reflexivity|].
    destruct (float_of_Z_shape b) as [[H0 _]|[_ (p & e & Hy & He & _)]];
      [lia|lia|].
    apply (div_nonneg_below _ _ 64 p e); auto; [|lia].
    now apply float_of_Z_below.
  - destruct a as [|ma|ma]; destruct b as [|mb|mb]; try lia.
    + eexists. split; [reflexivity|]. now left.
    + cbn [Z.abs]. change (Z.pos ma <? 0) with false.
      change (Z.pos mb <? 0) with false.
      destruct (int_quotient_shape ma mb) as (p & e & Hq & Hv & Hd); [lia|lia|].
      rewrite Hq. eexists. split; [reflexivity|].
      rewrite FloatAxioms.Prim2SF_SF2Prim by exact Hv.
      right. exists p, e. split; [reflexivity|lia].
Qed.

(** [int((height * i) / (num_samples - 1))], or [height // 2], returns, and
    clamping gives a row of the picture. *)
Lemma gradient_y_total (h n i : Z) :
  0 <= h -> 0 <= h * i < 2 ^ 63 -> n - 1 < 2 ^ 63 ->
  exists y, gradient_y h n i = Ok y /\ row_in h y.
Proof.
  intros Hh Hi Hn. unfold gradient_y, row_in.
  destruct (1 <? n) eqn:E.
  - apply Z.ltb_lt in E.
    destruct (py_truediv_int_nonneg (h * i) (n - 1)) as (q & Hq & Hq0);
      [lia|lia|].
    rewrite Hq. cbn [bind].
    destruct (py_int_nonneg q 118 Hq0) as (v & Hv & Hv0).
    rewrite Hv. cbn [bind]. eexists. split; [reflexivity|]. lia.
  - cbn [bind]. eexists. split; [reflexivity|].
    intros Hpos. pose proof (Z.div_pos h 2). 
    assert (h / 2 < h) by (apply Z.div_lt; lia). lia.
Qed.

Lemma mapM_total {A B : Type} (f : A -> result B) (P : B -> Prop)
  (l : list A) :
  (forall a, In a l -> exists b, f a = Ok b /\ P b) ->
  exists bs, mapM f l = Ok bs /\ List.length bs = List.length l /\ Forall P bs.
Proof.
  induction l as [|a l IH]; intros H.
  - exists []. repeat split. constructor.
  - destruct (H a (or_introl eq_refl)) as (b & Hb & HP).
    destruct IH as (bs & Hbs & Hlen & HF).
    { intros a' Ha'. apply H. now right. }
    exists (b :: bs). cbn [mapM]. rewrite Hb, Hbs. cbn [bind].
    repeat split; [simpl; congruence|]. now constructor.
Qed.

Lemma py_range_bounds (n i : Z) : In i (py_range n) -> 0 <= i < n.
Proof.
  unfold py_range. rewrite in_map_iff. intros (k & <- & Hk).
  apply in_seq in Hk. lia.
Qed.

Lemma py_range_length (n : Z) : List.length (py_range n) = Z.to_nat n.
Proof. unfold py_range. now rewrite length_map, length_seq. Qed.

Lemma gradient_rows_total (h n : Z) :
  0 <= h < 2 ^ 31 -> n < 2 ^ 31 ->
  exists rows,
    mapM (gradient_y h n) (py_range n) = Ok rows /\
    List.length rows = List.length (py_range n) /\ Forall (row_in h) rows.
Proof.
  intros Hh Hn. apply mapM_total. intros i Hi.
  apply py_range_bounds in Hi. apply gradient_y_total; try lia.
  assert (2 ^ 31 * 2 ^ 31 < 2 ^ 63) by reflexivity. nia.
Qed.

Lemma zone_rows_total (h : Z) :
  0 <= h < 2 ^ 63 ->
  exists rows,
    mapM (zone_y h) (map snd zones) = Ok rows /\
    List.length rows = List.length zones /\ Forall (row_in h) rows.
Proof.
  intros Hh.
  destruct (mapM_total (zone_y h) (row_in h) (map snd zones))
    as (rows & H & Hlen & HF).
  - intros p Hp. apply in_map_iff in Hp. destruct Hp as ([name p'] & <- & Hin).
    now apply (zone_y_total h name).
  - exists rows. rewrite length_map in Hlen. auto.
Qed.

(* ----------------------------------------------------------------- *)
(** ** Failed samples *)

(** The gradient loop: once the rows are computed, the result is what each
    attempt leaves, in order. *)
Lemma gradient_loop_rows (img : Image) (x h n : Z) (idx : list Z) :
  forall colors rows,
    mapM (gradient_y h n) idx = Ok rows ->
    gradient_loop img x h n idx colors
    = Ok (colors ++ flat_map (gradient_kept img x n) (combine idx rows)).
Proof.
  induction idx as [|i idx IH]; intros colors rows Hrows.
  - simpl. now rewrite app_nil_r.
  - cbn [mapM] in Hrows. cbn [gradient_loop].
    destruct (gradient_y h n i) as [y|]; [|discriminate]. cbn [bind] in *.
    destruct (mapM (gradient_y h n) idx) as [ys|]; [|discriminate].
    cbn [bind] in Hrows. injection Hrows as <-.
    cbn [combine flat_map]. unfold gradient_kept at 1. cbn [fst snd].
    destruct (gradient_try img x y i n) as [c|e]; cbn [kept].
    + rewrite (IH _ ys eq_refl). now rewrite <- app_assoc.
    + now rewrite (IH _ ys eq_refl).
Qed.

(** The only exception the gradient can raise comes from the row arithmetic,
    which does not look at the pixels. *)
Lemma gradient_loop_raises (img : Image) (x h n : Z) (idx : list Z) (e : exn) :
  forall colors,
    mapM (gradient_y h n) idx = Raise e ->
    gradient_loop img x h n idx colors = Raise e.
Proof.
  induction idx as [|i idx IH]; intros colors Hrows; [discriminate|].
  cbn [mapM] in Hrows. cbn [gradient_loop].
  destruct (gradient_y h n i) as [y|]; cbn [bind] in *; [|congruence].
  destruct (mapM (gradient_y h n) idx) as [ys|e'] eqn:E; [discriminate|].
  cbn [bind] in Hrows. injection Hrows as ->.
  destruct (gradient_try img x y i n); now apply IH.
Qed.

Lemma dict_set_fresh {V : Type} (d : dict V) (k : string) (v : V) :
  ~ In k (map fst d) -> dict_set d k v = d ++ [(k, v)].
Proof.
  induction d as [|[k' v'] d IH]; intros Hk; [reflexivity|].
  simpl in *. destruct (String.eqb_spec k k') as [->|Hne].
  - exfalso. auto.
  - f_equal. apply IH. auto.
Qed.

Lemma zone_loop_rows (img : Image) (x h : Z) (zs : dict float) :
  forall acc rows,
    NoDup (map fst acc ++ map fst zs) ->
    mapM (zone_y h) (map snd zs) = Ok rows ->
    zone_loop img x h zs acc
    = Ok (acc ++ flat_map (zone_kept img x) (combine (map fst zs) rows)).
Proof.
  induction zs as [|[name pc] zs IH]; intros acc rows Hnd Hrows.
  - simpl. now rewrite app_nil_r.
  - cbn [map snd fst mapM] in *. cbn [zone_loop].
    destruct (zone_y h pc) as [y|]; [|discriminate]. cbn [bind] in *.
    destruct (mapM (zone_y h) (map snd zs)) as [ys|]; [|discriminate].
    cbn [bind] in Hrows. injection Hrows as <-.
    cbn [combine flat_map]. unfold zone_kept at 1. cbn [fst snd].
    destruct (zone_try img x y) as [c|e]; cbn [kept map].
    + rewrite dict_set_fresh.
      * rewrite (IH _ ys); [now rewrite <- app_assoc| |reflexivity].
        rewrite map_app, <- app_assoc. exact Hnd.
      * apply NoDup_remove_2 in Hnd. intros Hin. apply Hnd.
        apply in_or_app. now left.
    + rewrite (IH _ ys); [reflexivity| |reflexivity].
      apply NoDup_remove_1 in Hnd. exact Hnd.
Qed.

Lemma zone_names_distinct : NoDup (map fst zones).
Proof.
  repeat (constructor; [simpl; intuition discriminate|]). constructor.
Qed.

(** Whether a sampler returns depends on the size of the picture only. *)
Lemma gradient_outcome_ignores_pixels (img1 img2 : Image) (n : Z) :
  size img1 = size img2 ->
  is_ok (analyze_vertical_gradient img1 n)
  = is_ok (analyze_vertical_gradient img2 n).
Proof.
  intros Hs. unfold analyze_vertical_gradient. rewrite Hs.
  destruct (size img2) as [w h].
  destruct (mapM (gradient_y h n) (py_range n)) as [rows|e] eqn:E.
  - now rewrite !(gradient_loop_rows _ _ _ _ _ _ rows E).
  - now rewrite !(gradient_loop_raises _ _ _ _ _ e _ E).
Qed.

Lemma kept_not_ok {A : Type} (r : result A) : is_ok r = false -> kept r = [].
Proof. destruct r; [discriminate|reflexivity]. Qed.

(** A read that gives fewer than three channels leaves nothing. *)
Lemma tries_drop_short_reads (img : Image) (x y i n : Z) (px : pixel) :
  getpixel img (x, y) = Ok px -> has_rgb px = false ->
  kept (gradient_try img x y i n) = [] /\ kept (zone_try img x y) = [].
Proof.
  intros H Hpx. destruct px as [v|cs].
  - now rewrite (gradient_try_int_pixel _ _ _ _ _ _ H),
                (zone_try_int_pixel _ _ _ _ H).
  - assert (Hl : (List.length cs < 3)%nat).
    { destruct cs as [|r [|g [|b rest]]]; simpl; try lia. discriminate. }
    rewrite (zone_try_short_tuple _ _ _ _ H Hl).
    split; [|reflexivity]. apply kept_not_ok.
    now apply (gradient_try_short_tuple _ _ _ _ _ cs).
Qed.

(** X19: for every picture (height and sample count below 2^31) both samplers
    return, whatever the reads do.  Their result holds, in order, exactly
    what each attempt leaves at the row the code computes for it: nothing
    when the read raises or gives fewer than three channels, and the colour
    of the first three channels otherwise (for the gradient, when more than
    one sample is asked for). *)
Theorem samplers_keep_each_attempt (img : Image) (num_samples : Z)
  (Hsize : 0 <= height img < 2 ^ 31) (Hcount : num_samples < 2 ^ 31) :
  let x := width img / 2 in
  exists rows zone_rows,
    mapM (gradient_y (height img) num_samples) (py_range num_samples)
    = Ok rows /\
    mapM (zone_y (height img)) (map snd zones) = Ok zone_rows /\
    Forall (row_in (height img)) rows /\
    Forall (row_in (height img)) zone_rows /\
    analyze_vertical_gradient img num_samples
    = Ok (flat_map (gradient_kept img x num_samples)
                   (combine (py_range num_samples) rows)) /\
    analyze_sky_zones img
    = Ok (flat_map (zone_kept img x) (combine (map fst zones) zone_rows)) /\
    (forall i name y e,
        getpixel img (x, y) = Raise e ->
        gradient_kept img x num_samples (i, y) = [] /\
        zone_kept img x (name, y) = []) /\
    (forall i name y px,
        getpixel img (x, y) = Ok px -> has_rgb px = false ->
        gradient_kept img x num_samples (i, y) = [] /\
        zone_kept img x (name, y) = []) /\
    (forall i name y r g b rest,
        0 <= i < num_samples ->
        getpixel img (x, y) = Ok (PTuple (r :: g :: b :: rest)) ->
        (num_samples <> 1 ->
         gradient_kept img x num_samples (i, y)
         = [ {| position :=
                  py_round (PrimFloat.div (float_of_Z i)
                                          (float_of_Z (num_samples - 1))) 2;
                sample_color := color_of_rgb r g b |} ]) /\
        zone_kept img x (name, y) = [(name, color_of_rgb r g b)]).
Proof.
  unfold width, height in *. cbv zeta.
  destruct (gradient_rows_total (snd (size img)) num_samples Hsize Hcount)
    as (rows & Hrows & Hlen & Hin).
  destruct (zone_rows_total (snd (size img))) as (zrows & Hzones & Hzlen & Hzin);
    [lia|].
  exists rows, zrows.
  split; [exact Hrows|]. split; [exact Hzones|].
  split; [exact Hin|]. split; [exact Hzin|].
  split; [|split; [|split; [|split]]].
  - unfold analyze_vertical_gradient. destruct (size img) as [w h].
    cbn [fst snd] in *. now rewrite (gradient_loop_rows _ _ _ _ _ [] rows Hrows).
  - unfold analyze_sky_zones. destruct (size img) as [w h].
    cbn [fst snd] in *.
    now rewrite (zone_loop_rows _ _ _ _ [] zrows zone_names_distinct Hzones).
  - intros i name y e H. unfold gradient_kept, zone_kept. cbn [fst snd].
    now rewrite (gradient_try_read_fails _ _ _ _ _ _ H),
                (zone_try_read_fails _ _ _ _ H).
  - intros i name y px H Hpx. unfold gradient_kept, zone_kept. cbn [fst snd].
    destruct (tries_drop_short_reads img _ y i num_samples px H Hpx)
      as [Hg Hz].
    now rewrite Hg, Hz.
  - intros i name y r g b rest Hi H. unfold gradient_kept, zone_kept.
    cbn [fst snd]. split.
    + intros Hn.
      rewrite (gradient_try_rgb _ _ _ _ _ _ _ _ _ H Hn); [reflexivity| |];
        assert (2 ^ 31 < 2 ^ 53) by reflexivity; lia.
    + now rewrite (zone_try_rgb _ _ _ _ _ _ _ H).
Qed.

Lemma samplers_keep_each_attempt_witness :
  (exists rows zone_rows,
      mapM (gradient_y 32 3) (py_range 3) = Ok rows /\
      mapM (zone_y 32) (map snd zones) = Ok zone_rows /\
      analyze_vertical_gradient flaky_image 3
      = Ok (flat_map (gradient_kept flaky_image 32 3)
                     (combine (py_range 3) rows)) /\
      analyze_sky_zones flaky_image
      = Ok (flat_map (zone_kept flaky_image 32)
                     (combine (map fst zones) zone_rows))) /\
  getpixel flaky_image (32, 16) = Raise OSError /\
  (vg <- analyze_vertical_gradient flaky_image 3 ;;
   Ok (map position vg, map sample_color vg))
  = Ok ([0; 1]%float, [color_of_rgb 200 100 50; color_of_rgb 200 100 50]) /\
  (sz <- analyze_sky_zones flaky_image ;; Ok (map fst sz))
  = Ok ["zenith"; "upper_sky"; "lower_sky"; "horizon"; "water_line"]%string.
Proof.
  split.
  - assert (Hsize : 0 <= height flaky_image < 2 ^ 31)
      by (unfold height; cbn [snd size flaky_image]; lia).
    assert (Hcount : 3 < 2 ^ 31) by reflexivity.
    destruct (samplers_keep_each_attempt flaky_image 3 Hsize Hcount)
      as (rows & zrows & Hr & Hzr & _ & _ & Hg & Hz & _).
    exists rows, zrows. repeat split; assumption.
  - split; [reflexivity|]. vm_compute. split; reflexivity.
Defined.

(** C8 (evaluation at the failing input): a single-band 64 x 32 picture whose
    row 16 cannot be read.  With three samples the gradient reads rows 0, 16
    and 31: the reads of rows 0 and 31 succeed and still no sample is
    produced.  The zones read rows 1, 8, 16, 24, 28 and 30: five reads
    succeed and no zone is produced.  On the same picture in RGB the two good
    samples and the five good zones are there. *)
Theorem good_reads_lost_beside_failed_read :
  mapM (gradient_y 32 3) (py_range 3) = Ok [0; 16; 31] /\
  map (fun y => getpixel flaky_gray (32, y)) [0; 16; 31]
  = [Ok (PInt 128); Raise OSError; Ok (PInt 128)] /\
  analyze_vertical_gradient flaky_gray 3 = Ok [] /\
  mapM (zone_y 32) (map snd zones) = Ok [1; 8; 16; 24; 28; 30] /\
  map (fun y => is_ok (getpixel flaky_gray (32, y))) [1; 8; 16; 24; 28; 30]
  = [true; true; false; true; true; true] /\
  analyze_sky_zones flaky_gray = Ok [] /\
  (vg <- analyze_vertical_gradient flaky_image 3 ;; Ok (map position vg))
  = Ok [0; 1]%float /\
  (sz <- analyze_sky_zones flaky_image ;; Ok (map fst sz))
  = Ok ["zenith"; "upper_sky"; "lower_sky"; "horizon"; "water_line"]%string.
Proof. vm_compute. repeat split. Qed.

(* ----------------------------------------------------------------- *)
(** ** Solid pictures *)

Lemma gradient_kept_solid (img : Image) (r g b n : Z) (idx rows : list Z) :
  solid img (PTuple [r; g; b]) -> 0 < width img -> 0 < height img -> n <> 1 ->
  Z.abs (n - 1) < 2 ^ 53 -> Forall (fun i => Z.abs i < 2 ^ 53) idx ->
  List.length rows = List.length idx -> Forall (row_in (height img)) rows ->
  flat_map (gradient_kept img (width img / 2) n) (combine idx rows)
  = map (fun i =>
           {| position :=
                py_round (PrimFloat.div (float_of_Z i) (float_of_Z (n - 1))) 2;
              sample_color := color_of_rgb r g b |}) idx.
Proof.
  intros [Hs _] Hw Hh Hn Hn' Hidx. revert rows.
  induction idx as [|i idx IH]; intros [|y rows] Hlen HF;
    try discriminate; [reflexivity|].
  inversion HF as [|? ? Hy HF']; subst.
  inversion Hidx as [|? ? Hi Hidx']; subst. cbn [combine flat_map map].
  rewrite (IH Hidx' rows) by (simpl in Hlen; auto; congruence).
  unfold gradient_kept at 1. cbn [fst snd].
  rewrite (gradient_try_rgb img _ y i n r g b []);
    [reflexivity| |exact Hn|exact Hi|exact Hn'].
  apply Hs; [|apply Hy; exact Hh].
  split; [apply Z.div_pos; lia|apply Z.div_lt; lia].
Qed.

Lemma py_range_small (n : Z) :
  n < 2 ^ 53 -> Forall (fun i => Z.abs i < 2 ^ 53) (py_range n).
Proof.
  intros Hn. apply Forall_forall. intros i Hi.
  apply py_range_bounds in Hi. lia.
Qed.

Lemma zone_kept_solid (img : Image) (r g b : Z) (names : list string)
  (rows : list Z) :
  solid img (PTuple [r; g; b]) -> 0 < width img -> 0 < height img ->
  List.length rows = List.length names -> Forall (row_in (height img)) rows ->
  flat_map (zone_kept img (width img / 2)) (combine names rows)
  = map (fun name => (name, color_of_rgb r g b)) names.
Proof.
  intros [Hs _] Hw Hh. revert rows.
  induction names as [|name names IH]; intros [|y rows] Hlen HF;
    try discriminate; [reflexivity|].
  inversion HF as [|? ? Hy HF']; subst. cbn [combine flat_map map].
  rewrite (IH rows) by (simpl in Hlen; auto; congruence).
  unfold zone_kept at 1. cbn [fst snd].
  rewrite (zone_try_rgb img _ y r g b []); [reflexivity|].
  apply Hs; [|apply Hy; exact Hh].
  split; [apply Z.div_pos; lia|apply Z.div_lt; lia].
Qed.

(** Solid pictures are sampled completely: the form used by later proofs. *)
Lemma solid_picture_sampling_aux (img : Image) (r g b n : Z) :
  solid img (PTuple [r; g; b]) ->
  0 < width img -> 0 < height img < 2 ^ 31 -> 2 <= n < 2 ^ 31 ->
  analyze_vertical_gradient img n
  = Ok (map (fun i =>
               {| position :=
                    py_round (PrimFloat.div (float_of_Z i)
                                            (float_of_Z (n - 1))) 2;
                  sample_color := color_of_rgb r g b |}) (py_range n)) /\
  analyze_sky_zones img
  = Ok (map (fun name => (name, color_of_rgb r g b)) (map fst zones)).
Proof.
  intros Hs Hw Hh Hn.
  assert (Hsize : 0 <= height img < 2 ^ 31) by lia.
  assert (Hcount : n < 2 ^ 31) by lia.
  destruct (gradient_rows_total (height img) n Hsize Hcount)
    as (rows & Hrows & Hlen & Hin).
  destruct (zone_rows_total (height img)) as (zrows & Hzones & Hzlen & Hzin);
    [lia|].
  assert (H53 : 2 ^ 31 < 2 ^ 53) by reflexivity.
  split.
  - rewrite <- (gradient_kept_solid img r g b n (py_range n) rows);
      auto; try lia; [|apply py_range_small; lia].
    unfold analyze_vertical_gradient, width, height in *.
    destruct (size img) as [w h]. cbn [fst snd] in *.
    now rewrite (gradient_loop_rows _ _ _ _ _ [] rows Hrows).
  - rewrite <- (zone_kept_solid img r g b (map fst zones) zrows);
      auto; try lia; try (now rewrite length_map).
    unfold analyze_sky_zones, width, height in *.
    destruct (size img) as [w h]. cbn [fst snd] in *.
    now rewrite (zone_loop_rows _ _ _ _ [] zrows zone_names_distinct Hzones).
Qed.

(** X14: on a solid RGB picture of any size, sampled with two samples or
    more, the gradient has all its samples, at positions
    [round(i / (n - 1), 2)], and the six zones are found; every sample has
    exactly the picture's colour. *)
Lemma solid_picture_sampling (img : Image) (r g b n : Z) :
  solid img (PTuple [r; g; b]) ->
  0 < width img -> 0 < height img < 2 ^ 31 -> 2 <= n < 2 ^ 31 ->
  analyze_vertical_gradient img n
  = Ok (map (fun i =>
               {| position :=
                    py_round (PrimFloat.div (float_of_Z i)
                                            (float_of_Z (n - 1))) 2;
                  sample_color := color_of_rgb r g b |}) (py_range n)) /\
  analyze_sky_zones img
  = Ok (map (fun name => (name, color_of_rgb r g b)) (map fst zones)).
Proof. apply solid_picture_sampling_aux. Qed.

Lemma solid_picture_sampling_full_hd :
  (vg <- analyze_vertical_gradient (solid_image 1920 1080 amber) 10 ;;
   Ok (List.length vg, map sample_color vg))
  = Ok (10%nat, repeat (color_of_rgb 200 100 50) 10).
Proof.
  destruct (solid_picture_sampling (solid_image 1920 1080 amber)
              200 100 50 10 (solid_image_solid _ _ _)) as [Hg _];
    try (unfold width, height; cbn [fst snd size solid_image]; lia).
  rewrite Hg. reflexivity.
Defined.

(* ================================================================= *)
(** * Further properties *)

(* ----------------------------------------------------------------- *)
(** ** The parser, completely *)

Lemma upper_table_checked : forallb upper_entry_ok upper_table = true.
Proof. vm_compute. reflexivity. Qed.

(** A code point is left alone or has its entry in the table. *)
Lemma upper_lookup_cases (t : list (Z * list Z)) (c : Z) :
  upper_lookup t c = [c] \/ exists u, In (c, u) t /\ upper_lookup t c = u.
Proof.
  induction t as [|[k u] t IH]; [now left|]. cbn [upper_lookup].
  destruct (Z.eqb_spec c k) as [->|Hne].
  - right. exists u. split; [now left|reflexivity].
  - destruct IH as [IH|(u' & Hin & IH)]; [now left|].
    right. exists u'. split; [now right|exact IH].
Qed.

Lemma to_upper_cases (c : Z) :
  to_upper c = [c] \/
  exists u, to_upper c = u /\ upper_entry_ok (c, u) = true.
Proof.
  unfold to_upper.
  destruct (upper_lookup_cases upper_table c) as [H|(u & Hin & H)];
    [now left|].
  right. exists u. split; [exact H|].
  pose proof upper_table_checked as Hall. rewrite forallb_forall in Hall.
  exact (Hall _ Hin).
Qed.

Lemma orientation_char_letter (c : Z) :
  is_orientation_char c = true -> orientation_letter c = Some (str_of_code c).
Proof.
  unfold is_orientation_char. cbn [existsb].
  rewrite !orb_true_iff, !Z.eqb_eq.
  intros [->|[->|[->|[->|[->|H]]]]]; try reflexivity. discriminate.
Qed.

(** Upper-casing leaves digits and line feeds alone, and produces them from
    nothing else; a letter of the pattern comes alone only from the
    characters of [orientation_letter]. *)
Lemma to_upper_plain (c : Z) :
  is_digit c = true \/ c = 10 -> to_upper c = [c].
Proof.
  intros Hc. destruct (to_upper_cases c) as [H|(u & _ & Hok)]; [exact H|].
  exfalso. unfold upper_entry_ok in Hok.
  apply andb_true_iff in Hok. destruct Hok as [Hok _].
  apply andb_true_iff in Hok. destruct Hok as [Hd Hn].
  destruct Hc as [Hc| ->]; [now rewrite Hc in Hd|discriminate].
Qed.

Lemma to_upper_head (c x : Z) (tl : list Z) :
  to_upper c = x :: tl ->
  (is_digit x = true \/ x = 10 -> c = x /\ tl = []) /\
  (is_orientation_char x = true ->
   (tl = [] /\ orientation_letter c = Some (str_of_code x)) \/
   (exists y tl', tl = y :: tl' /\ is_digit y = false)).
Proof.
  intros Hu. destruct (to_upper_cases c) as [H|(u & H & Hok)].
  - rewrite H in Hu. injection Hu as <- <-. split; [auto|].
    intros Hx. left. split; [reflexivity|].
    now apply orientation_char_letter.
  - rewrite H in Hu. subst u. unfold upper_entry_ok in Hok.
    apply andb_true_iff in Hok. destruct Hok as [_ Hok].
    destruct tl as [|y tl'].
    + apply andb_true_iff in Hok. destruct Hok as [Hok Ho].
      apply andb_true_iff in Hok. destruct Hok as [Hd Hn].
      apply negb_true_iff in Hd. apply negb_true_iff, Z.eqb_neq in Hn.
      split; [intros [Hx|Hx]; [congruence|contradiction]|].
      intros Hx. left. split; [reflexivity|].
      rewrite Hx in Ho. cbn [negb orb] in Ho.
      destruct (orientation_letter c) as [o|]; [|discriminate].
      apply String.eqb_eq in Ho. now subst o.
    + apply andb_true_iff in Hok. destruct Hok as [Hok Hy].
      apply andb_true_iff in Hok. destruct Hok as [Hd Hn].
      apply negb_true_iff in Hd, Hy. apply negb_true_iff, Z.eqb_neq in Hn.
      split; [intros [Hx|Hx]; [congruence|contradiction]|].
      intros _. right. exists y, tl'. auto.
Qed.

Lemma to_upper_not_empty (c : Z) : to_upper c <> [].
Proof.
  destruct (to_upper_cases c) as [H|(u & H & Hok)]; rewrite H;
    [discriminate|].
  intros ->. unfold upper_entry_ok in Hok.
  apply andb_true_iff in Hok. destruct Hok as [_ Hok]. discriminate.
Qed.

Lemma str_upper_empty (s : list Z) : str_upper s = [] -> s = [].
Proof.
  destruct s as [|c s]; [reflexivity|]. unfold str_upper. cbn [flat_map].
  intros H. apply app_eq_nil in H. destruct H as [H _].
  now apply to_upper_not_empty in H.
Qed.

(** A digit or a line feed at the head of an upper-cased string was there
    before. *)
Lemma str_upper_plain_head (s : list Z) (x : Z) (r : list Z) :
  str_upper s = x :: r -> is_digit x = true \/ x = 10 ->
  exists s', s = x :: s' /\ str_upper s' = r.
Proof.
  intros H Hx. destruct s as [|c s]; [discriminate|].
  unfold str_upper in H. cbn [flat_map] in H.
  destruct (to_upper c) as [|x' tl] eqn:Hu;
    [now apply to_upper_not_empty in Hu|].
  cbn [app] in H. injection H as -> H.
  destruct (to_upper_head c x tl Hu) as [Hp _].
  destruct (Hp Hx) as [-> ->]. exists s. split; [reflexivity|exact H].
Qed.

Lemma str_upper_tail (s rest : list Z) :
  str_upper s = rest -> rest = [] \/ rest = [10] -> s = rest.
Proof.
  intros H [->| ->]; [now apply str_upper_empty|].
  destruct (str_upper_plain_head s 10 [] H) as (s' & -> & Hs'); [now right|].
  apply str_upper_empty in Hs'. now subst s'.
Qed.

(** The names the pattern accepts, read on the stem before it is
    upper-cased. *)
Lemma str_upper_pattern (s : list Z) (c d1 d2 : Z) (rest : list Z) :
  is_orientation_char c = true -> is_digit d1 = true -> is_digit d2 = true ->
  rest = [] \/ rest = [10] ->
  str_upper s = c :: d1 :: d2 :: rest ->
  exists c0, s = c0 :: d1 :: d2 :: rest /\
             orientation_letter c0 = Some (str_of_code c).
Proof.
  intros Hc H1 H2 Hr H. destruct s as [|c0 s]; [discriminate|].
  unfold str_upper in H. cbn [flat_map] in H.
  destruct (to_upper c0) as [|x tl] eqn:Hu;
    [now apply to_upper_not_empty in Hu|].
  cbn [app] in H. injection H as -> H.
  destruct (to_upper_head c0 c tl Hu) as [_ Ho].
  destruct (Ho Hc) as [[-> Hl]|(y & tl' & -> & Hy)].
  - cbn [app] in H.
    destruct (str_upper_plain_head s d1 _ H) as (s1 & -> & Hs1); [now left|].
    destruct (str_upper_plain_head s1 d2 _ Hs1) as (s2 & -> & Hs2);
      [now left|].
    apply str_upper_tail in Hs2; [|exact Hr]. subst s2.
    exists c0. split; [reflexivity|exact Hl].
  - cbn [app] in H. injection H as -> _. congruence.
Qed.

(** One of the characters of [orientation_letter], found by the test [E]:
    its upper case is computed. *)
Ltac upper_of_letter E Hc c :=
  repeat (apply orb_true_iff in E; destruct E as [E|E]);
  apply Z.eqb_eq in E; subst c; injection Hc as <-;
  match goal with
  | |- exists c', to_upper ?k = _ /\ _ =>
      let u := eval vm_compute in (to_upper k) in
      match u with
      | [?x] => exists x
      end
  end;
  (split; [vm_compute; reflexivity|split; reflexivity]).

Lemma str_upper_accepted (c d1 d2 : Z) (rest : list Z) (o : string) :
  orientation_letter c = Some o ->
  is_digit d1 = true -> is_digit d2 = true -> rest = [] \/ rest = [10] ->
  exists c', str_upper (c :: d1 :: d2 :: rest) = c' :: d1 :: d2 :: rest /\
             is_orientation_char c' = true /\ o = str_of_code c'.
Proof.
  intros Hc H1 H2 Hr.
  assert (Hrest : str_upper (d1 :: d2 :: rest) = d1 :: d2 :: rest).
  { unfold str_upper. cbn [flat_map].
    rewrite (to_upper_plain d1), (to_upper_plain d2) by (now left).
    destruct Hr as [->| ->]; [reflexivity|].
    cbn [flat_map]. rewrite (to_upper_plain 10) by (now right). reflexivity. }
  assert (Hhead : exists c', to_upper c = [c'] /\
                             is_orientation_char c' = true /\
                             o = str_of_code c').
  { unfold orientation_letter in Hc.
    destruct ((c =? 87) || (c =? 119)) eqn:E;
      [now upper_of_letter E Hc c|clear E].
    destruct ((c =? 69) || (c =? 101)) eqn:E;
      [now upper_of_letter E Hc c|clear E].
    destruct ((c =? 78) || (c =? 110)) eqn:E;
      [now upper_of_letter E Hc c|clear E].
    destruct ((c =? 83) || (c =? 115) || (c =? 383)) eqn:E;
      [now upper_of_letter E Hc c|clear E].
    destruct ((c =? 85) || (c =? 117)) eqn:E;
      [now upper_of_letter E Hc c|clear E].
    discriminate. }
  destruct Hhead as (c' & Hu & Ho & ->). exists c'.
  split; [|split; [exact Ho|reflexivity]].
  change (str_upper (c :: d1 :: d2 :: rest))
    with (to_upper c ++ str_upper (d1 :: d2 :: rest)).
  now rewrite Hu, Hrest.
Qed.

(** X1: the parser returns [(o, h)] exactly when the stem of the file name,
    decoded, is one of the letters W, E, N, S, U in either case or the long s
    (which upper-cases to S), then two decimal digits of any script,
    possibly followed by one line feed; [o] is the letter in upper case and
    [h] the value of the two digits, at most 23. *)
Theorem parse_characterised (file o : string) (h : Z) :
  parse_orientation_hour_from_filename file = Some (o, h) <->
  exists c d1 d2 v1 v2 rest,
    fsdecode (path_stem file) = c :: d1 :: d2 :: rest /\
    (rest = [] \/ rest = [10]) /\
    orientation_letter c = Some o /\
    decimal_value d1 = Some v1 /\ decimal_value d2 = Some v2 /\
    h = 10 * v1 + v2 /\ h <= 23.
Proof.
  split.
  - intros H. apply parse_some_shape in H.
    destruct H as (c & d1 & d2 & rest & Hs & Hr & -> & Hc & H1 & H2 & Hh & Hb).
    destruct (str_upper_pattern _ c d1 d2 rest Hc H1 H2 Hr Hs)
      as (c0 & Hs0 & Hl).
    unfold is_digit in H1, H2. unfold digit_value in Hh.
    destruct (decimal_value d1) as [v1|] eqn:E1; [|discriminate].
    destruct (decimal_value d2) as [v2|] eqn:E2; [|discriminate].
    exists c0, d1, d2, v1, v2, rest. repeat split; auto; lia.
  - intros (c & d1 & d2 & v1 & v2 & rest & Hs & Hr & Hc & E1 & E2 & -> & Hb).
    assert (H1 : is_digit d1 = true) by (unfold is_digit; now rewrite E1).
    assert (H2 : is_digit d2 = true) by (unfold is_digit; now rewrite E2).
    destruct (str_upper_accepted c d1 d2 rest o Hc H1 H2 Hr)
      as (c' & Hu & Ho & ->).
    unfold parse_orientation_hour_from_filename. rewrite Hs, Hu.
    unfold re_match_orient_hour. rewrite Ho, H1, H2.
    replace (at_dollar rest) with true by (destruct Hr; subst; reflexivity).
    cbn [andb]. rewrite int_of_two_digits. unfold digit_value.
    rewrite E1, E2.
    pose proof (decimal_lookup_range _ _ _ E1).
    pose proof (decimal_lookup_range _ _ _ E2).
    replace (0 <=? _) with true by (symmetry; apply Z.leb_le; lia).
    replace (_ <=? 23) with true by (symmetry; apply Z.leb_le; lia).
    reflexivity.
Qed.

Lemma orientation_char_listed (c : Z) :
  is_orientation_char c = true -> In (str_of_code c) ORIENTATIONS.
Proof.
  unfold is_orientation_char, ORIENTATIONS. cbn [existsb].
  rewrite !orb_true_iff, !Z.eqb_eq.
  intros [->|[->|[->|[->|[->|H]]]]]; simpl; auto 6. discriminate.
Qed.

Lemma parse_result_valid (file o : string) (h : Z) :
  parse_orientation_hour_from_filename file = Some (o, h) ->
  In o ORIENTATIONS /\ 0 <= h <= 23.
Proof.
  intros H. apply parse_some_shape in H.
  destruct H as (c & d1 & d2 & rest & _ & _ & -> & Hc & _ & _ & _ & Hb).
  split; [now apply orientation_char_listed|exact Hb].
Qed.

(* ----------------------------------------------------------------- *)
(** ** What the main loop keeps *)

Lemma gradient_loop_length (img : Image) (x h n : Z) (idx : list Z) :
  forall colors l,
    gradient_loop img x h n idx colors = Ok l ->
    (List.length l <= List.length colors + List.length idx)%nat.
Proof.
  induction idx as [|i idx IH]; intros colors l H; cbn [gradient_loop] in H.
  - injection H as <-. simpl. lia.
  - destruct (gradient_y h n i) as [y|]; [|discriminate]. cbn [bind] in H.
    destruct (gradient_try img x y i n).
    + apply IH in H. rewrite length_app in H. simpl in *. lia.
    + apply IH in H. simpl. lia.
Qed.

Lemma dict_set_length {V : Type} (d : dict V) (k : string) (v : V) :
  (List.length (dict_set d k v) <= S (List.length d))%nat.
Proof.
  induction d as [|[k' v'] d IH]; simpl; [lia|].
  destruct (String.eqb k k'); simpl; lia.
Qed.

Lemma zone_loop_length (img : Image) (x h : Z) (zs : dict float) :
  forall acc l,
    zone_loop img x h zs acc = Ok l ->
    (List.length l <= List.length acc + List.length zs)%nat.
Proof.
  induction zs as [|[name pc] zs IH]; intros acc l H; cbn [zone_loop] in H.
  - injection H as <-. simpl. lia.
  - destruct (zone_y h pc) as [y|]; [|discriminate]. cbn [bind] in H.
    destruct (zone_try img x y).
    + apply IH in H. pose proof (dict_set_length acc name a). simpl. lia.
    + apply IH in H. simpl. lia.
Qed.

(** The three outcomes of [analyze_image]. *)
Lemma analyze_image_cases (image_open : string -> result Image)
  (path : string) :
  (exists e, image_open path = Raise e /\
             analyze_image image_open path = ([], Raise e)) \/
  (exists img, image_open path = Ok img /\
     parse_orientation_hour_from_filename (basename path) = None /\
     analyze_image image_open path = ([Skipping (basename path)], Ok None)) \/
  (exists img o h, image_open path = Ok img /\
     parse_orientation_hour_from_filename (basename path) = Some (o, h) /\
     ((exists e, analyze_image image_open path
                 = ([Analyzing (basename path) o h], Raise e)) \/
      (exists a, analyze_image image_open path
                 = ([Analyzing (basename path) o h], Ok (Some a)) /\
                 well_formed a /\ filename a = basename path /\
                 dimensions a = size img))).
Proof.
  unfold analyze_image.
  destruct (image_open path) as [img|e]; [|left; eauto].
  destruct (parse_orientation_hour_from_filename (basename path))
    as [[o h]|] eqn:Hp; [|right; left; eauto].
  right; right. exists img, o, h. repeat split.
  destruct (analyze_vertical_gradient img 10) as [vg|e] eqn:Hg;
    [|left; exists e; reflexivity].
  destruct (analyze_sky_zones img) as [sz|e] eqn:Hz;
    [|left; exists e; reflexivity].
  destruct (analyze_brightness img) as [br|e];
    [|left; exists e; reflexivity].
  right. eexists. split; [reflexivity|].
  destruct (parse_result_valid _ _ _ Hp) as [Ho Hh].
  unfold well_formed.
  cbn [filename orientation hour time dimensions vertical_gradient sky_zones].
  assert (Hlg : (List.length vg <= 10)%nat).
  { unfold analyze_vertical_gradient in Hg. destruct (size img) as [w hh].
    apply gradient_loop_length in Hg. rewrite py_range_length in Hg.
    change (Z.to_nat 10) with 10%nat in Hg. cbn [List.length] in Hg. lia. }
  assert (Hlz : (List.length sz <= 6)%nat).
  { unfold analyze_sky_zones in Hz. destruct (size img) as [w hh].
    apply zone_loop_length in Hz. simpl in Hz. lia. }
  repeat split; auto; try lia.
  unfold width, height. now destruct (size img).
Qed.

Lemma analyze_all_invariant (image_open : string -> result Image)
  (P : analysis -> Prop) (files : list string) :
  (forall f a printed, In f files ->
      analyze_image image_open f = (printed, Ok (Some a)) -> P a) ->
  forall acc out, Forall P acc ->
                  Forall P (fst (analyze_all image_open files acc out)).
Proof.
  induction files as [|f files IH]; intros HP acc out Hacc; [exact Hacc|].
  cbn [analyze_all].
  destruct (analyze_image image_open f) as [printed [[a|]|e]] eqn:E;
    apply IH; auto; try (intros; eapply HP; eauto; now right).
  apply Forall_app. split; [exact Hacc|]. constructor; [|constructor].
  eapply HP; [now left|exact E].
Qed.

(** X2: every analysis the main loop keeps, whatever the files and however
    they open, has an orientation of [ORIENTATIONS], an hour from 0 to 23, the
    time string of that hour, the name of one of the files given, a name that
    parses to its orientation and hour, at most ten gradient samples and at
    most six zones. *)
Theorem kept_analyses_well_formed (image_open : string -> result Image)
  (image_files : list string) :
  Forall (fun a => well_formed a /\
                   exists f, In f image_files /\ filename a = basename f)
         (fst (analyze_all image_open image_files [] [])).
Proof.
  apply analyze_all_invariant; [|constructor].
  intros f a printed Hin H.
  destruct (analyze_image_cases image_open f)
    as [(e & _ & E)|[(img & _ & _ & E)|(img & o & h & _ & _ & [(e & E)|(a' & E & Hwf & Hname & _)])]];
    rewrite E in H; try discriminate.
  injection H as _ <-. split; [exact Hwf|]. exists f. auto.
Qed.

(** The count of analyses, skip lines and error lines grows by one a file. *)
Lemma analyze_all_count (image_open : string -> result Image)
  (files : list string) :
  forall acc out,
    let r := analyze_all image_open files acc out in
    (List.length (fst r) + List.length (filter is_skipping (snd r))
     + List.length (filter is_error (snd r))
     = List.length acc + List.length (filter is_skipping out)
       + List.length (filter is_error out) + List.length files)%nat.
Proof.
  induction files as [|f files IH]; intros acc out; cbn zeta;
    [cbn; lia|].
  cbn [analyze_all].
  destruct (analyze_image_cases image_open f)
    as [(e & _ & E)|[(img & _ & _ & E)|(img & o & h & _ & _ & [(e & E)|(a' & E & _)])]];
    rewrite E; cbn zeta in IH; rewrite IH;
    rewrite ?filter_app, ?length_app; cbn; lia.
Qed.

(** X3: the main loop accounts for every file exactly once: the number of
    analyses kept, of skip lines and of error lines printed add up to the
    number of files. *)
Theorem every_file_accounted_for (image_open : string -> result Image)
  (image_files : list string) :
  (List.length (fst (analyze_all image_open image_files [] []))
   + List.length (filter is_skipping
                    (snd (analyze_all image_open image_files [] [])))
   + List.length (filter is_error
                    (snd (analyze_all image_open image_files [] [])))
   = List.length image_files)%nat.
Proof.
  pose proof (analyze_all_count image_open image_files [] []) as H.
  cbn zeta in H. rewrite H. cbn. lia.
Qed.

Lemma analyze_all_no_parse (image_open : string -> result Image)
  (files : list string) :
  Forall (fun f => parse_orientation_hour_from_filename (basename f) = None)
         files ->
  forall acc out,
    fst (analyze_all image_open files acc out) = acc /\
    filter is_analyzing (snd (analyze_all image_open files acc out))
    = filter is_analyzing out.
Proof.
  induction 1 as [|f files Hf _ IH]; intros acc out; [split; reflexivity|].
  cbn [analyze_all].
  destruct (analyze_image_cases image_open f)
    as [(e & _ & E)|[(img & _ & _ & E)|(img & o & h & _ & Hp & _)]].
  - rewrite E.
    destruct (IH acc (out ++ [] ++ [ErrorAnalyzing f e])) as [IH1 IH2].
    rewrite IH1, IH2, !filter_app. cbn. rewrite app_nil_r. split; reflexivity.
  - rewrite E.
    destruct (IH acc (out ++ [Skipping (basename f)])) as [IH1 IH2].
    rewrite IH1, IH2, filter_app. cbn. rewrite app_nil_r. split; reflexivity.
  - congruence.
Qed.

(** The analyses kept do not depend on what was printed before the loop. *)
Lemma analyze_all_log (image_open : string -> result Image)
  (files : list string) :
  forall acc out,
    fst (analyze_all image_open files acc out)
    = fst (analyze_all image_open files acc []).
Proof.
  induction files as [|f files IH]; intros acc out; [reflexivity|].
  cbn [analyze_all].
  destruct (analyze_image image_open f) as [printed [[a|]|e]];
    rewrite IH; symmetry; rewrite IH; reflexivity.
Qed.

(** X4: when no file name parses, the run writes nothing, however the files
    open: the process exits without a report and no analysis is announced.
    The last line printed is the failure message of the loop, or the one of
    the empty file list when no file was given at all. *)
Theorem no_parsable_name_no_report (p : PyProcess)
  (image_open : string -> result Image) (image_files : list string)
  (output_dir : string)
  (Hnames : Forall (fun f => parse_orientation_hour_from_filename (basename f)
                             = None) image_files) :
  snd (main_batch p image_open image_files output_dir) = None /\
  last (fst (main_batch p image_open image_files output_dir)) Done
  = match image_files with
    | [] => NoImagesFound
    | _ :: _ => NoImagesAnalyzed
    end /\
  filter is_analyzing (fst (main_batch p image_open image_files output_dir))
  = [].
Proof.
  unfold main_batch.
  destruct image_files as [|f files]; [repeat split|].
  destruct (analyze_all_no_parse image_open (f :: files) Hnames []
              [Title; Rule; Found (Z.of_nat (List.length (f :: files)))])
    as [H1 H2].
  destruct (analyze_all image_open (f :: files) [] _) as [all out].
  cbn [fst snd] in *. subst all. cbn [fst snd].
  split; [reflexivity|]. split; [apply last_last|].
  rewrite filter_app, H2. reflexivity.
Qed.

Lemma no_parsable_name_no_report_witness :
  main_batch forward_process sample_open
    ["X99.png"; "notes.png"; "EE12.png"]%string "out"
  = ([Title; Rule; Found 3; ErrorAnalyzing "X99.png" OSError;
      Skipping "notes.png"; Skipping "EE12.png"; NoImagesAnalyzed], None).
Proof.
  pose proof (no_parsable_name_no_report forward_process sample_open
                ["X99.png"; "notes.png"; "EE12.png"]%string "out") as H.
  assert (Hn : Forall (fun f => parse_orientation_hour_from_filename
                                  (basename f) = None)
                      ["X99.png"; "notes.png"; "EE12.png"]%string)
    by (repeat constructor).
  destruct (H Hn) as (Hnone & _ & _).
  destruct (main_batch _ _ _ _) as [out w] eqn:E. cbn [snd] in Hnone.
  subst w. rewrite <- E. reflexivity.
Defined.

(* ----------------------------------------------------------------- *)
(** ** The report and the export *)

Lemma sorted_by_key_fixed (l : list analysis) :
  StronglySorted key_le l -> sorted_by_key l = l.
Proof.
  induction 1 as [|a l Hs IH Ha]; [reflexivity|].
  simpl. rewrite IH. now apply insert_by_key_first.
Qed.

Lemma StronglySorted_map {A B : Type} (R : A -> A -> Prop)
  (R' : B -> B -> Prop) (f : A -> B) (l : list A) :
  (forall a b, R a b -> R' (f a) (f b)) ->
  StronglySorted R l -> StronglySorted R' (map f l).
Proof.
  intros Hf. induction 1 as [|a l Hs IH Ha]; simpl; constructor; auto.
  apply Forall_map. eapply Forall_impl; [|exact Ha]. intros b. apply Hf.
Qed.

(** X5: analyses that are already in report order are written in the order
    given, so generating a report from the analyses of a report changes
    neither the analyses nor the export. *)
Theorem report_sort_idempotent (p p' : PyProcess)
  (all_analyses : list analysis) (output_dir output_dir' : string) :
  let w := generate_report p all_analyses output_dir in
  let w' := generate_report p' (analyses (json_report w)) output_dir' in
  analyses (json_report w') = analyses (json_report w) /\
  godot_data w' = godot_data w /\
  (StronglySorted key_le all_analyses ->
   analyses (json_report w) = all_analyses).
Proof.
  cbv zeta. unfold generate_report. cbn [analyses json_report godot_data].
  pose proof (sorted_by_key_sorted all_analyses) as Hs.
  rewrite (sorted_by_key_fixed _ Hs). repeat split.
  apply sorted_by_key_fixed.
Qed.

(** X6: the engine-ready export has one entry for each analysis of the
    report, in the same order, with the analysis' orientation, hour, time and
    normalized brightness; its length is the image count of the summary and
    it is sorted by orientation and hour. *)
Theorem export_follows_report (p : PyProcess) (all_analyses : list analysis)
  (output_dir : string) :
  let w := generate_report p all_analyses output_dir in
  List.length (godot_data w) = List.length all_analyses /\
  total_images (report_summary (json_report w))
  = Z.of_nat (List.length (godot_data w)) /\
  map (fun e => (entry_orientation e, entry_hour e, entry_time e,
                 entry_brightness e)) (godot_data w)
  = map (fun a => (orientation a, hour a, time a, normalized (brightness a)))
        (analyses (json_report w)) /\
  StronglySorted entry_key_le (godot_data w).
Proof.
  cbv zeta. unfold generate_report.
  cbn [analyses json_report godot_data total_images report_summary].
  rewrite length_map, map_map.
  assert (Hlen : List.length (sorted_by_key all_analyses)
                 = List.length all_analyses).
  { symmetry. apply Permutation_length, sorted_by_key_perm. }
  rewrite Hlen. repeat split.
  apply (StronglySorted_map key_le); [|apply sorted_by_key_sorted].
  intros a b H. exact H.
Qed.

(* ----------------------------------------------------------------- *)
(** ** Zones by name *)

Lemma dict_get_app {V : Type} (d1 d2 : dict V) (k : string) :
  dict_get (d1 ++ d2) k
  = match dict_get d1 k with Some v => Some v | None => dict_get d2 k end.
Proof.
  induction d1 as [|[k' v'] d1 IH]; simpl; [reflexivity|].
  destruct (String.eqb k k'); auto.
Qed.

Lemma dict_get_zone_kept (img : Image) (x y : Z) (n name : string) :
  dict_get (zone_kept img x (n, y)) name
  = if String.eqb name n then attempt_value (zone_try img x y) else None.
Proof.
  unfold zone_kept. cbn [fst snd].
  destruct (zone_try img x y); simpl; destruct (String.eqb name n); reflexivity.
Qed.

Lemma dict_get_absent (img : Image) (x : Z) (name : string)
  (names : list string) :
  forall rows, ~ In name names ->
    dict_get (flat_map (zone_kept img x) (combine names rows)) name = None.
Proof.
  induction names as [|n names IH]; intros [|y rows] Hn; try reflexivity.
  cbn [combine flat_map]. rewrite dict_get_app, dict_get_zone_kept.
  destruct (String.eqb_spec name n) as [->|Hne].
  - exfalso. apply Hn. now left.
  - apply IH. intros Hin. apply Hn. now right.
Qed.

Lemma dict_get_present (img : Image) (x y : Z) (name : string)
  (names : list string) :
  forall rows, NoDup names -> In (name, y) (combine names rows) ->
    dict_get (flat_map (zone_kept img x) (combine names rows)) name
    = attempt_value (zone_try img x y).
Proof.
  induction names as [|n names IH]; intros [|y0 rows] Hnd Hin;
    try contradiction.
  inversion Hnd as [|? ? Hn Hnd']; subst.
  cbn [combine flat_map] in *. rewrite dict_get_app, dict_get_zone_kept.
  destruct Hin as [E|Hin].
  - injection E as -> ->. rewrite String.eqb_refl.
    destruct (zone_try img x y); [reflexivity|]. cbn [attempt_value].
    now apply dict_get_absent.
  - destruct (String.eqb_spec name n) as [->|Hne].
    + exfalso. apply Hn. eapply in_combine_l. exact Hin.
    + now apply IH.
Qed.

Lemma mapM_combine {A B : Type} (f : A -> result B) (zs : list (string * A)) :
  forall rows name a,
    mapM f (map snd zs) = Ok rows -> In (name, a) zs ->
    exists b, f a = Ok b /\ In (name, b) (combine (map fst zs) rows).
Proof.
  induction zs as [|[n a0] zs IH]; intros rows name a H Hin; [contradiction|].
  cbn [map snd fst mapM] in H.
  destruct (f a0) as [b0|] eqn:E0; [|discriminate]. cbn [bind] in H.
  destruct (mapM f (map snd zs)) as [bs|] eqn:E; [|discriminate].
  cbn [bind] in H. injection H as <-. cbn [map fst combine].
  destruct Hin as [E1|Hin].
  - injection E1 as -> ->. exists b0. split; [exact E0|now left].
  - destruct (IH bs name a eq_refl Hin) as (b & Hb & Hin').
    exists b. split; [exact Hb|now right].
Qed.

(** X7: in the result of [analyze_sky_zones] every zone name is bound to the
    sample attempted at that zone's row of the middle column, the row lies
    inside the picture, and the name is absent exactly when that attempt
    raised.  In the export entry of an analysis with these zones, the colours
    zenith, upper, middle, lower, horizon and water are the normalized
    colours attempted at 5%, 25%, 50%, 75%, 90% and 95% of the height, each
    the empty record exactly when its attempt raised. *)
Theorem zone_bound_to_its_row (img : Image)
  (Hsize : 0 <= height img < 2 ^ 63) :
  exists sz,
    analyze_sky_zones img = Ok sz /\
    Forall (fun z =>
              exists y,
                zone_y (height img) (snd z) = Ok y /\ row_in (height img) y /\
                dict_get sz (fst z)
                = attempt_value (zone_try img (width img / 2) y))
           zones /\
    (forall a, sky_zones a = sz ->
       colors (build_godot_entry a)
       = {| zenith := zone_attempt img 0.05;
            upper := zone_attempt img 0.25;
            middle := zone_attempt img 0.50;
            lower := zone_attempt img 0.75;
            horizon := zone_attempt img 0.90;
            water := zone_attempt img 0.95 |}).
Proof.
  destruct (zone_rows_total (height img) Hsize) as (rows & Hrows & Hlen & Hin).
  exists (flat_map (zone_kept img (width img / 2))
                   (combine (map fst zones) rows)).
  assert (Hget : forall name pc,
             In (name, pc) zones ->
             exists y,
               zone_y (height img) pc = Ok y /\ row_in (height img) y /\
               dict_get (flat_map (zone_kept img (width img / 2))
                                  (combine (map fst zones) rows)) name
               = attempt_value (zone_try img (width img / 2) y)).
  { intros name pc Hz.
    destruct (mapM_combine _ _ _ _ _ Hrows Hz) as (y & Hy & Hc).
    exists y. split; [exact Hy|]. split.
    - rewrite Forall_forall in Hin. apply Hin. eapply in_combine_r. exact Hc.
    - apply dict_get_present; [apply zone_names_distinct|exact Hc]. }
  split; [|split].
  - unfold analyze_sky_zones, width, height in *.
    destruct (size img) as [w h]. cbn [fst snd] in *.
    now rewrite (zone_loop_rows _ _ _ _ [] rows zone_names_distinct Hrows).
  - apply Forall_forall. intros [name pc] Hz. cbn [fst snd].
    exact (Hget name pc Hz).
  - intros a Ha.
    assert (Hexp : forall name pc,
               In (name, pc) zones ->
               zone_godot (sky_zones a) name = zone_attempt img pc).
    { intros name pc Hz. destruct (Hget name pc Hz) as (y & Hy & _ & Hd).
      unfold zone_godot, zone_attempt. now rewrite Ha, Hy, Hd. }
    unfold build_godot_entry. cbn [colors].
    rewrite (Hexp "zenith"%string 0.05%float) by (simpl; tauto).
    rewrite (Hexp "upper_sky"%string 0.25%float) by (simpl; tauto).
    rewrite (Hexp "mid_sky"%string 0.50%float) by (simpl; tauto).
    rewrite (Hexp "lower_sky"%string 0.75%float) by (simpl; tauto).
    rewrite (Hexp "horizon"%string 0.90%float) by (simpl; tauto).
    rewrite (Hexp "water_line"%string 0.95%float) by (simpl; tauto).
    reflexivity.
Qed.

Lemma zone_bound_to_its_row_witness :
  exists sz,
    analyze_sky_zones flaky_image = Ok sz /\
    dict_get sz "horizon" = Some (color_of_rgb 200 100 50) /\
    dict_get sz "mid_sky" = None /\
    (forall a, sky_zones a = sz ->
       middle (colors (build_godot_entry a)) = None /\
       horizon (colors (build_godot_entry a))
       = Some (godot (color_of_rgb 200 100 50))).
Proof.
  assert (Hsize : 0 <= height flaky_image < 2 ^ 63)
    by (unfold height; cbn [snd size flaky_image]; lia).
  destruct (zone_bound_to_its_row flaky_image Hsize) as (sz & Hsz & _ & Hexp).
  exists sz. split; [exact Hsz|].
  assert (E : Ok sz = analyze_sky_zones flaky_image) by (symmetry; exact Hsz).
  split; [|split].
  - vm_compute in E. injection E as ->. vm_compute. reflexivity.
  - vm_compute in E. injection E as ->. vm_compute. reflexivity.
  - intros a Ha. rewrite (Hexp a Ha). cbn [middle horizon].
    split; vm_compute; reflexivity.
Defined.

(* ----------------------------------------------------------------- *)
(** ** Bounds of the samplers *)

Lemma samplers_return (img : Image) (n : Z) :
  0 <= height img < 2 ^ 31 -> n < 2 ^ 31 ->
  exists vg sz,
    analyze_vertical_gradient img n = Ok vg /\ analyze_sky_zones img = Ok sz.
Proof.
  intros Hsize Hn.
  destruct (gradient_rows_total (height img) n Hsize Hn) as (rows & Hrows & _).
  destruct (zone_rows_total (height img)) as (zrows & Hzones & _); [lia|].
  unfold analyze_vertical_gradient, analyze_sky_zones, height in *.
  destruct (size img) as [w h]. cbn [fst snd] in *.
  rewrite (gradient_loop_rows _ _ _ _ _ [] rows Hrows).
  rewrite (zone_loop_rows _ _ _ _ [] zrows zone_names_distinct Hzones).
  eauto.
Qed.

(** X8: the vertical gradient never holds more samples than were asked for,
    and it is empty when one sample or fewer is asked for. *)
Theorem gradient_within_request (img : Image) (num_samples : Z)
  (vg : list gradient_sample)
  (Hvg : analyze_vertical_gradient img num_samples = Ok vg) :
  (List.length vg <= Z.to_nat num_samples)%nat /\
  (num_samples <= 1 -> vg = []).
Proof.
  split.
  - unfold analyze_vertical_gradient in Hvg. destruct (size img) as [w h].
    apply gradient_loop_length in Hvg. rewrite py_range_length in Hvg.
    simpl in Hvg. exact Hvg.
  - intros Hn. destruct (Z.eq_dec num_samples 1) as [->|Hne].
    + rewrite gradient_single_empty in Hvg. now injection Hvg as <-.
    + unfold analyze_vertical_gradient in Hvg. destruct (size img) as [w h].
      unfold py_range in Hvg.
      replace (Z.to_nat num_samples) with 0%nat in Hvg by lia.
      simpl in Hvg. now injection Hvg as <-.
Qed.

Lemma gradient_within_request_witness :
  exists vg,
    analyze_vertical_gradient flaky_image 3 = Ok vg /\
    (List.length vg <= 3)%nat.
Proof.
  assert (H : analyze_vertical_gradient flaky_image 3
              = Ok (match analyze_vertical_gradient flaky_image 3 with
                    | Ok vg => vg
                    | Raise _ => []
                    end)) by (vm_compute; reflexivity).
  eexists. split; [exact H|].
  exact (proj1 (gradient_within_request flaky_image 3 _ H)).
Defined.

(* ----------------------------------------------------------------- *)
(** ** Single-band pictures *)

(** X9: a picture whose resized copy holds a bare int pixel (a single-band
    picture) and whose name parses is neither skipped nor analysed:
    [analyze_image] prints the analysing line and raises [TypeError] from the
    brightness analysis, and the main loop prints the error line and keeps
    nothing of the file. *)
Theorem single_band_picture_is_an_error
  (image_open : string -> result Image) (path o : string) (h : Z)
  (img : Image) (pixels : list pixel)
  (Hopen : image_open path = Ok img)
  (Hname : parse_orientation_hour_from_filename (basename path) = Some (o, h))
  (Hsize : 0 <= height img < 2 ^ 31)
  (Hdata : resize_getdata img (100, 100) = Ok pixels)
  (Hint : forallb is_tuple pixels = false) :
  analyze_image image_open path
  = ([Analyzing (basename path) o h], Raise TypeError) /\
  (forall rest acc out,
      analyze_all image_open (path :: rest) acc out
      = analyze_all image_open rest acc
          (out ++ [Analyzing (basename path) o h;
                   ErrorAnalyzing path TypeError])).
Proof.
  assert (H : analyze_image image_open path
              = ([Analyzing (basename path) o h], Raise TypeError)).
  { unfold analyze_image. rewrite Hopen, Hname.
    destruct (samplers_return img 10 Hsize) as (vg & sz & Hg & Hz);
      [reflexivity|].
    rewrite Hg, Hz. cbn [bind]. unfold analyze_brightness.
    rewrite Hdata. cbn [bind].
    now rewrite (brightness_total_int_pixel pixels _ Hint). }
  split; [exact H|].
  intros rest acc out. cbn [analyze_all]. rewrite H. reflexivity.
Qed.

Lemma single_band_picture_is_an_error_witness :
  analyze_all gray_open ["E12.png"; "N06.png"]%string [] []
  = ([], [Analyzing "E12.png" "E" 12; ErrorAnalyzing "E12.png" TypeError;
          Analyzing "N06.png" "N" 6; ErrorAnalyzing "N06.png" TypeError]).
Proof.
  assert (Hsize : 0 <= height (solid_image 64 32 (PInt 128)) < 2 ^ 31)
    by (unfold height; cbn [snd size solid_image]; lia).
  destruct (single_band_picture_is_an_error gray_open "E12.png" "E" 12
              (solid_image 64 32 (PInt 128))
              (repeat (PInt 128) (Z.to_nat (100 * 100)))
              eq_refl eq_refl Hsize eq_refl eq_refl) as [_ H1].
  destruct (single_band_picture_is_an_error gray_open "N06.png" "N" 6
              (solid_image 64 32 (PInt 128))
              (repeat (PInt 128) (Z.to_nat (100 * 100)))
              eq_refl eq_refl Hsize eq_refl eq_refl) as [_ H2].
  rewrite H1, H2. reflexivity.
Defined.

(* ----------------------------------------------------------------- *)
(** ** Brightness flags *)

Lemma not_below_85_and_above_170 (avg : float) :
  PrimFloat.ltb avg 85 && PrimFloat.ltb 170 avg = false.
Proof.
  rewrite !FloatAxioms.ltb_spec.
  change (Prim2SF 85) with (S754_finite false 5981343255101440 (-46)).
  change (Prim2SF 170) with (S754_finite false 5981343255101440 (-45)).
  unfold SFltb, SFcompare.
  destruct (Prim2SF avg) as [s|s| |s m e];
    try reflexivity; try (destruct s; reflexivity).
  destruct s; [reflexivity|].
  destruct (Z.compare_spec e (-46)) as [->|Hlt|Hgt].
  - cbn [Z.compare]. apply andb_false_r.
  - replace (-45 ?= e) with Gt by (symmetry; apply Z.compare_gt_iff; lia).
    apply andb_false_r.
  - reflexivity.
Qed.

(** X10: no brightness summary is both dark and bright. *)
Theorem never_dark_and_bright (img : Image) (b : brightness_summary)
  (Hb : analyze_brightness img = Ok b) :
  is_dark b && is_bright b = false.
Proof.
  unfold analyze_brightness in Hb.
  destruct (resize_getdata img (100, 100)) as [ps|]; [|discriminate].
  cbn [bind] in Hb. destruct (brightness_total ps 0) as [t|]; [|discriminate].
  cbn [bind] in Hb. destruct (py_truediv t _) as [avg|]; [|discriminate].
  cbn [bind] in Hb. injection Hb as <-.
  apply not_below_85_and_above_170.
Qed.

Lemma never_dark_and_bright_witness :
  exists b,
    analyze_brightness (solid_image 64 32 amber) = Ok b /\
    is_dark b && is_bright b = false.
Proof.
  assert (H : analyze_brightness (solid_image 64 32 amber)
              = Ok (brightness_of_avg 124.2))
    by (vm_compute; reflexivity).
  eexists. split; [exact H|].
  exact (never_dark_and_bright _ _ H).
Defined.

(* ----------------------------------------------------------------- *)
(** ** Colour conversions on 8-bit channels *)

Lemma py_range_in (n i : Z) : 0 <= i < n -> In i (py_range n).
Proof.
  intros Hi. unfold py_range. apply in_map_iff.
  exists (Z.to_nat i). split; [lia|]. apply in_seq. lia.
Qed.

Lemma forallb_py_range (f : Z -> bool) (n i : Z) :
  forallb f (py_range n) = true -> 0 <= i < n -> f i = true.
Proof.
  intros H Hi. rewrite forallb_forall in H. apply H. now apply py_range_in.
Qed.

Lemma hex_byte_checked : forallb hex_byte_ok (py_range 256) = true.
Proof. vm_compute. reflexivity. Qed.

Lemma format_02x_byte (n : Z) :
  0 <= n <= 255 ->
  exists a b, format_02x n = String a (String b EmptyString) /\
              int_of_hex (String a (String b EmptyString)) = n.
Proof.
  intros Hn.
  assert (H : hex_byte_ok n = true)
    by (apply (forallb_py_range _ 256); [apply hex_byte_checked|lia]).
  unfold hex_byte_ok in H.
  destruct (format_02x n) as [|a [|b [|? ?]]]; try discriminate.
  exists a, b. split; [reflexivity|]. now apply Z.eqb_eq.
Qed.

(** X11: for channels from 0 to 255, [rgb_to_hex] gives a string of seven
    characters, a [#] and two hex digits a channel, from which the three
    channels are read back; so different colours have different strings. *)
Theorem rgb_to_hex_round_trip (r g b : Z)
  (Hr : 0 <= r <= 255) (Hg : 0 <= g <= 255) (Hb : 0 <= b <= 255) :
  exists s,
    rgb_to_hex (PInt r) (PInt g) (PInt b) = Ok s /\
    String.length s = 7%nat /\ channels_of_hex s = Some (r, g, b).
Proof.
  destruct (format_02x_byte r Hr) as (r1 & r2 & Er & Dr).
  destruct (format_02x_byte g Hg) as (g1 & g2 & Eg & Dg).
  destruct (format_02x_byte b Hb) as (b1 & b2 & Eb & Db).
  eexists. split.
  - unfold rgb_to_hex, hex_of_channel. cbn [bind]. rewrite Er, Eg, Eb.
    reflexivity.
  - split; [reflexivity|]. cbn [append channels_of_hex].
    now rewrite Dr, Dg, Db.
Qed.

Lemma rgb_to_hex_round_trip_witness :
  exists s,
    rgb_to_hex (PInt 200) (PInt 100) (PInt 50) = Ok s /\
    String.length s = 7%nat /\ channels_of_hex s = Some (200, 100, 50).
Proof.
  apply rgb_to_hex_round_trip; lia.
Defined.

Lemma godot_byte_checked : forallb godot_byte_ok (py_range 256) = true.
Proof. vm_compute. reflexivity. Qed.

Lemma godot_of_channel_byte (n : Z) :
  0 <= n <= 255 ->
  exists g, godot_of_channel (PInt n) = Ok g /\
            PrimFloat.leb 0 g = true /\ PrimFloat.leb g 1 = true /\
            channel_of_godot g = Ok n.
Proof.
  intros Hn.
  assert (H : godot_byte_ok n = true)
    by (apply (forallb_py_range _ 256); [apply godot_byte_checked|lia]).
  unfold godot_byte_ok in H.
  destruct (godot_of_channel (PInt n)) as [g|]; [|discriminate].
  apply andb_true_iff in H. destruct H as [H Hc].
  apply andb_true_iff in H. destruct H as [H0 H1].
  destruct (channel_of_godot g) as [m|] eqn:Ec; [|discriminate].
  apply Z.eqb_eq in Hc. subst m. exists g. repeat split; assumption.
Qed.

(** X12: for channels from 0 to 255, every component of [rgb_to_godot] lies
    between 0.0 and 1.0, and multiplying it by 255 and rounding gives the
    channel back: the three decimals kept lose no 8-bit colour. *)
Theorem rgb_to_godot_round_trip (r g b : Z)
  (Hr : 0 <= r <= 255) (Hg : 0 <= g <= 255) (Hb : 0 <= b <= 255) :
  exists gd,
    rgb_to_godot (PInt r) (PInt g) (PInt b) = Ok gd /\
    PrimFloat.leb 0 (godot_r gd) = true /\ PrimFloat.leb (godot_r gd) 1 = true /\
    PrimFloat.leb 0 (godot_g gd) = true /\ PrimFloat.leb (godot_g gd) 1 = true /\
    PrimFloat.leb 0 (godot_b gd) = true /\ PrimFloat.leb (godot_b gd) 1 = true /\
    channel_of_godot (godot_r gd) = Ok r /\
    channel_of_godot (godot_g gd) = Ok g /\
    channel_of_godot (godot_b gd) = Ok b.
Proof.
  destruct (godot_of_channel_byte r Hr) as (xr & Er & Hr0 & Hr1 & Dr).
  destruct (godot_of_channel_byte g Hg) as (xg & Eg & Hg0 & Hg1 & Dg).
  destruct (godot_of_channel_byte b Hb) as (xb & Eb & Hb0 & Hb1 & Db).
  eexists. split.
  - unfold rgb_to_godot. rewrite Er, Eg, Eb. reflexivity.
  - cbn [godot_r godot_g godot_b]. repeat split; assumption.
Qed.

Lemma rgb_to_godot_round_trip_witness :
  rgb_to_godot (PInt 0) (PInt 128) (PInt 255)
  = Ok {| godot_r := 0; godot_g := 0.502; godot_b := 1 |} /\
  channel_of_godot 0.502 = Ok 128.
Proof.
  destruct (rgb_to_godot_round_trip 0 128 255) as (gd & E & _); try lia.
  split; vm_compute; reflexivity.
Defined.

(* ----------------------------------------------------------------- *)
(** ** Names and times *)

Lemma name_round_trip_checked :
  forallb (fun o => forallb (name_round_trip_ok o) (py_range 24))
          ORIENTATIONS = true.
Proof. vm_compute. reflexivity. Qed.

(** X13: the time string of a well-formed analysis has five characters, and
    a file named after its orientation and the two digits of its time parses
    back to its orientation and its hour. *)
Theorem name_from_analysis_parses_back (a : analysis) (Ha : well_formed a) :
  String.length (time a) = 5%nat /\
  parse_orientation_hour_from_filename
    (orientation a ++ String.substring 0 2 (time a) ++ ".png")%string
  = Some (orientation a, hour a).
Proof.
  destruct Ha as (Ho & Hh & Ht & _).
  pose proof name_round_trip_checked as H. rewrite forallb_forall in H.
  specialize (H _ Ho).
  assert (Hc : name_round_trip_ok (orientation a) (hour a) = true)
    by (apply (forallb_py_range _ 24); [exact H|lia]).
  unfold name_round_trip_ok in Hc. rewrite <- Ht in Hc.
  apply andb_true_iff in Hc. destruct Hc as [Hc Hl].
  split; [now apply Nat.eqb_eq|].
  destruct (parse_orientation_hour_from_filename _) as [[o' h']|];
    [|discriminate].
  apply andb_true_iff in Hc. destruct Hc as [E1 E2].
  apply String.eqb_eq in E1. apply Z.eqb_eq in E2. now subst.
Qed.

Lemma name_from_analysis_parses_back_witness :
  parse_orientation_hour_from_filename "E07.png" = Some ("E"%string, 7).
Proof.
  assert (Ha : well_formed sample_analysis).
  { unfold well_formed, sample_analysis. cbn.
    repeat split; auto; try lia; discriminate. }
  exact (proj2 (name_from_analysis_parses_back sample_analysis Ha)).
Defined.

(* ----------------------------------------------------------------- *)
(** ** Pictures with three channels or more *)

Lemma flat_map_singletons {A B : Type} (f : A -> list B) (P : B -> Prop)
  (l : list A) :
  (forall a, In a l -> exists b, f a = [b] /\ P b) ->
  List.length (flat_map f l) = List.length l /\ Forall P (flat_map f l).
Proof.
  induction l as [|a l IH]; intros H; [split; [reflexivity|constructor]|].
  destruct (H a (or_introl eq_refl)) as (b & Hb & HP).
  destruct IH as [IH1 IH2]; [intros a' Ha'; apply H; now right|].
  cbn [flat_map]. rewrite Hb. cbn. split; [now rewrite IH1|now constructor].
Qed.

Lemma zone_names_kept (img : Image) (x : Z) (names : list string) :
  forall rows,
    List.length rows = List.length names ->
    (forall y, In y rows -> exists c, zone_try img x y = Ok c) ->
    map fst (flat_map (zone_kept img x) (combine names rows)) = names.
Proof.
  induction names as [|n names IH]; intros [|y rows] Hlen H;
    try discriminate; [reflexivity|].
  cbn [combine flat_map]. rewrite map_app, IH;
    [|simpl in Hlen; congruence|intros y' Hy'; apply H; now right].
  destruct (H y (or_introl eq_refl)) as (c & Hc).
  unfold zone_kept. cbn [fst snd]. now rewrite Hc.
Qed.

(** X15: on a picture whose pixels all have three channels or more (RGB,
    RGBA), sampled with two samples or more, no sample is lost: the gradient
    has exactly the samples asked for and the zones are the six names in
    order.  Each gradient sample has the colour of the first three channels
    of a pixel of the middle column; further channels are ignored. *)
Theorem rgb_picture_complete (img : Image) (n : Z)
  (Hrgb : forall x y, 0 <= x < width img -> 0 <= y < height img ->
                      exists r g b rest,
                        getpixel img (x, y) = Ok (PTuple (r :: g :: b :: rest)))
  (Hw : 0 < width img) (Hh : 0 < height img < 2 ^ 31)
  (Hn : 2 <= n < 2 ^ 31) :
  exists vg sz,
    analyze_vertical_gradient img n = Ok vg /\
    List.length vg = Z.to_nat n /\
    Forall (fun s =>
              exists y r g b rest,
                0 <= y < height img /\
                getpixel img (width img / 2, y)
                = Ok (PTuple (r :: g :: b :: rest)) /\
                sample_color s = color_of_rgb r g b) vg /\
    analyze_sky_zones img = Ok sz /\ map fst sz = map fst zones.
Proof.
  assert (Hsize : 0 <= height img < 2 ^ 31) by lia.
  assert (Hcount : n < 2 ^ 31) by lia.
  assert (Hx : 0 <= width img / 2 < width img)
    by (split; [apply Z.div_pos; lia|apply Z.div_lt; lia]).
  destruct (gradient_rows_total (height img) n Hsize Hcount)
    as (rows & Hrows & Hlen & Hin).
  destruct (zone_rows_total (height img)) as (zrows & Hzones & Hzlen & Hzin);
    [lia|].
  rewrite Forall_forall in Hin, Hzin.
  exists (flat_map (gradient_kept img (width img / 2) n)
                   (combine (py_range n) rows)),
         (flat_map (zone_kept img (width img / 2))
                   (combine (map fst zones) zrows)).
  destruct (flat_map_singletons (gradient_kept img (width img / 2) n)
              (fun s => exists y r g b rest,
                   0 <= y < height img /\
                   getpixel img (width img / 2, y)
                   = Ok (PTuple (r :: g :: b :: rest)) /\
                   sample_color s = color_of_rgb r g b)
              (combine (py_range n) rows)) as [Hl HF].
  { intros [i y] Hiy.
    assert (Hi : 0 <= i < n)
      by (apply in_combine_l in Hiy; now apply py_range_bounds).
    apply in_combine_r in Hiy.
    assert (Hy : 0 <= y < height img) by (apply (Hin y Hiy); lia).
    destruct (Hrgb _ y Hx Hy) as (r & g & b & rest & Hpx).
    assert (H53 : 2 ^ 31 < 2 ^ 53) by reflexivity.
    eexists. split.
    - unfold gradient_kept. cbn [fst snd].
      rewrite (gradient_try_rgb _ _ _ _ _ _ _ _ _ Hpx); [reflexivity|lia..].
    - exists y, r, g, b, rest. auto. }
  split; [|split; [|split; [exact HF|split]]].
  - unfold analyze_vertical_gradient, width, height in *.
    destruct (size img) as [w h]. cbn [fst snd] in *.
    now rewrite (gradient_loop_rows _ _ _ _ _ [] rows Hrows).
  - rewrite Hl, length_combine, Hlen, Nat.min_id. apply py_range_length.
  - unfold analyze_sky_zones, width, height in *.
    destruct (size img) as [w h]. cbn [fst snd] in *.
    now rewrite (zone_loop_rows _ _ _ _ [] zrows zone_names_distinct Hzones).
  - apply zone_names_kept; [now rewrite length_map|].
    intros y Hy.
    assert (Hy' : 0 <= y < height img) by (apply (Hzin y Hy); lia).
    destruct (Hrgb _ y Hx Hy') as (r & g & b & rest & Hpx).
    eexists. apply (zone_try_rgb _ _ _ _ _ _ _ Hpx).
Qed.

Lemma rgb_picture_complete_witness :
  exists vg sz,
    analyze_vertical_gradient striped_image 4 = Ok vg /\
    List.length vg = 4%nat /\
    analyze_sky_zones striped_image = Ok sz /\ map fst sz = map fst zones.
Proof.
  destruct (rgb_picture_complete striped_image 4)
    as (vg & sz & Hg & Hl & _ & Hz & Hk).
  - unfold width, height. cbn [fst snd size striped_image getpixel].
    intros x y Hx Hy. exists y, (2 * y), (3 * y), [255].
    unfold pil_getpixel.
    replace (x <? 0) with false by (symmetry; apply Z.ltb_ge; lia).
    replace (y <? 0) with false by (symmetry; apply Z.ltb_ge; lia).
    replace (0 <=? x) with true by (symmetry; apply Z.leb_le; lia).
    replace (x <? 64) with true by (symmetry; apply Z.ltb_lt; lia).
    replace (0 <=? y) with true by (symmetry; apply Z.leb_le; lia).
    replace (y <? 32) with true by (symmetry; apply Z.ltb_lt; lia).
    reflexivity.
  - unfold width. cbn [fst size striped_image]. lia.
  - unfold height. cbn [snd size striped_image]. lia.
  - lia.
  - exists vg, sz. auto.
Defined.

(* ----------------------------------------------------------------- *)
(** ** The summary of a run *)

Lemma analyze_all_well_formed (image_open : string -> result Image)
  (files : list string) :
  Forall well_formed (fst (analyze_all image_open files [] [])).
Proof.
  apply analyze_all_invariant; [|constructor].
  intros f a printed _ H.
  destruct (analyze_image_cases image_open f)
    as [(e & _ & E)|[(img & _ & _ & E)|(img & o & h & _ & _ & [(e & E)|(a' & E & Hwf & _)])]];
    rewrite E in H; try discriminate.
  now injection H as _ <-.
Qed.

(** X16: whenever a run writes a report, with a process that honours the
    semantics of sets, the summary counts at least one image and at most as
    many as there were files, lists at most five orientations, all of
    [ORIENTATIONS] and each once, and every analysis of the report is
    well formed. *)
Theorem report_summary_bounded (p : PyProcess)
  (image_open : string -> result Image) (image_files : list string)
  (output_dir : string) (out : list message) (w : written)
  (Hp : set_semantics p)
  (Hrun : main_batch p image_open image_files output_dir = (out, Some w)) :
  1 <= total_images (report_summary (json_report w))
    <= Z.of_nat (List.length image_files) /\
  NoDup (orientations (report_summary (json_report w))) /\
  incl (orientations (report_summary (json_report w))) ORIENTATIONS /\
  (List.length (orientations (report_summary (json_report w))) <= 5)%nat /\
  Forall well_formed (analyses (json_report w)).
Proof.
  unfold main_batch in Hrun.
  pose proof (analyze_all_well_formed image_open image_files) as Hwf.
  pose proof (analyze_all_count image_open image_files [] []) as Hc.
  cbn zeta in Hc.
  destruct image_files as [|f files]; [discriminate|].
  rewrite <- (analyze_all_log image_open (f :: files) []
                [Title; Rule; Found (Z.of_nat (List.length (f :: files)))])
    in Hwf, Hc.
  destruct (analyze_all image_open (f :: files) [] [_; _; _]) as [all lines].
  cbn [fst] in Hwf, Hc.
  destruct all as [|a all]; [discriminate|].
  injection Hrun as _ <-. unfold generate_report.
  cbn [total_images report_summary json_report orientations analyses].
  assert (Hnd : NoDup (set_iter p (map orientation (a :: all)))).
  { eapply Permutation_NoDup; [symmetry; apply Hp|]. apply NoDup_nodup. }
  assert (Hincl : incl (set_iter p (map orientation (a :: all))) ORIENTATIONS).
  { intros o Ho. eapply Permutation_in in Ho; [|apply Hp].
    apply nodup_In, in_map_iff in Ho. destruct Ho as (a' & <- & Ha').
    rewrite Forall_forall in Hwf. apply (Hwf a' Ha'). }
  split; [|split; [exact Hnd|split; [exact Hincl|split]]].
  - cbn [List.length filter] in Hc. cbn [List.length]. lia.
  - apply (NoDup_incl_length Hnd Hincl).
  - eapply Permutation_Forall; [apply sorted_by_key_perm|exact Hwf].
Qed.

Lemma report_summary_bounded_witness :
  exists out w,
    main_batch forward_process sample_open
      ["N06.png"; "X99.png"; "E12.png"; "notes.png"]%string "out"
    = (out, Some w) /\
    1 <= total_images (report_summary (json_report w)) <= 4 /\
    (List.length (orientations (report_summary (json_report w))) <= 5)%nat.
Proof.
  destruct (main_batch forward_process sample_open
              ["N06.png"; "X99.png"; "E12.png"; "notes.png"]%string "out")
    as [out [w|]] eqn:E; [|vm_compute in E; discriminate].
  exists out, w. split; [reflexivity|].
  destruct (report_summary_bounded _ _ _ _ _ _ forward_process_semantics E)
    as (Ht & _ & _ & Hl & _).
  split; [exact Ht|exact Hl].
Defined.

(* ----------------------------------------------------------------- *)
(** ** Brightness of grey pictures *)

Lemma solid_brightness (img : Image) (c : pixel) :
  solid img c ->
  analyze_brightness img = analyze_brightness (solid_image 1 1 c).
Proof.
  intros [_ Hr]. unfold analyze_brightness.
  rewrite (Hr 100 100) by lia. reflexivity.
Qed.

Lemma grey_brightness_checked :
  forallb grey_brightness_ok (py_range 256) = true.
Proof. vm_compute. reflexivity. Qed.

(** X17: a solid grey picture of level [v], from 0 to 255, has average
    brightness exactly [v] and normalized brightness [round(v / 255, 3)]; it
    is dark exactly when [v < 85] and bright exactly when [v > 170]. *)
Theorem grey_picture_brightness (img : Image) (v : Z)
  (Hsolid : solid img (grey v)) (Hv : 0 <= v <= 255) :
  exists b,
    analyze_brightness img = Ok b /\
    average b = float_of_Z v /\
    normalized b = py_round (PrimFloat.div (float_of_Z v) 255) 3 /\
    is_dark b = (v <? 85) /\ is_bright b = (170 <? v).
Proof.
  rewrite (solid_brightness img _ Hsolid).
  assert (H : grey_brightness_ok v = true)
    by (apply (forallb_py_range _ 256); [apply grey_brightness_checked|lia]).
  unfold grey_brightness_ok in H.
  destruct (analyze_brightness (solid_image 1 1 (grey v))) as [b|];
    [|discriminate].
  repeat (apply andb_true_iff in H; destruct H as [H ?]).
  exists b. split; [reflexivity|].
  split; [now apply FloatAxioms.Leibniz.eqb_spec|].
  split; [now apply FloatAxioms.Leibniz.eqb_spec|].
  split; now apply Bool.eqb_prop.
Qed.

Lemma grey_picture_brightness_witness :
  exists b,
    analyze_brightness (solid_image 640 480 (grey 85)) = Ok b /\
    average b = 85%float /\ is_dark b = false /\ is_bright b = false.
Proof.
  destruct (grey_picture_brightness (solid_image 640 480 (grey 85)) 85
              (solid_image_solid _ _ _)) as (b & Hb & Ha & _ & Hd & Hl);
    [lia|].
  exists b. repeat split; assumption.
Defined.

(* ----------------------------------------------------------------- *)
(** ** A solid screenshot, from file to export *)

Lemma forallb_repeat {A : Type} (f : A -> bool) (a : A) (n : nat) :
  f a = true -> forallb f (repeat a n) = true.
Proof. intros H. induction n; simpl; [reflexivity|]. now rewrite H. Qed.

Lemma solid_rgb_brightness_returns (img : Image) (r g b : Z) :
  solid img (PTuple [r; g; b]) -> exists br, analyze_brightness img = Ok br.
Proof.
  intros [_ Hr]. eexists.
  apply (analyze_brightness_tuples img
           (repeat (PTuple [r; g; b]) (Z.to_nat (100 * 100)))).
  - apply Hr; lia.
  - rewrite repeat_length. reflexivity.
  - now apply forallb_repeat.
Qed.

(** X18: a solid RGB screenshot of positive size whose name parses is always
    analysed: [analyze_image] returns an analysis with the file's name,
    orientation, hour and size, ten gradient samples and six zones of the
    picture's colour, and its export entry has all six colours, each the
    normalized colour of the picture. *)
Theorem solid_screenshot_is_analysed
  (image_open : string -> result Image) (path o : string) (h r g b : Z)
  (img : Image)
  (Hopen : image_open path = Ok img)
  (Hname : parse_orientation_hour_from_filename (basename path) = Some (o, h))
  (Hsolid : solid img (PTuple [r; g; b]))
  (Hw : 0 < width img) (Hh : 0 < height img < 2 ^ 31) :
  exists a,
    analyze_image image_open path
    = ([Analyzing (basename path) o h], Ok (Some a)) /\
    filename a = basename path /\ orientation a = o /\ hour a = h /\
    dimensions a = size img /\
    map sample_color (vertical_gradient a) = repeat (color_of_rgb r g b) 10 /\
    sky_zones a = map (fun name => (name, color_of_rgb r g b)) (map fst zones) /\
    colors (build_godot_entry a)
    = {| zenith := Some (godot (color_of_rgb r g b));
         upper := Some (godot (color_of_rgb r g b));
         middle := Some (godot (color_of_rgb r g b));
         lower := Some (godot (color_of_rgb r g b));
         horizon := Some (godot (color_of_rgb r g b));
         water := Some (godot (color_of_rgb r g b)) |}.
Proof.
  destruct (solid_picture_sampling_aux img r g b 10 Hsolid Hw Hh) as [Hg Hz];
    [lia|].
  destruct (solid_rgb_brightness_returns img r g b Hsolid) as (br & Hbr).
  eexists. split.
  - unfold analyze_image. rewrite Hopen, Hname, Hg, Hz, Hbr. reflexivity.
  - cbn [filename orientation hour dimensions vertical_gradient sky_zones].
    repeat split; try reflexivity.
    unfold width, height. now destruct (size img).
Qed.

Lemma solid_screenshot_is_analysed_witness :
  exists a,
    analyze_image sample_open "shots/U23.png"
    = ([Analyzing "U23.png" "U" 23], Ok (Some a)) /\
    filename a = "U23.png"%string /\ time a = "23:00"%string.
Proof.
  assert (Hw : 0 < width (solid_image 64 32 amber))
    by (unfold width; cbn [fst size solid_image]; lia).
  assert (Hh : 0 < height (solid_image 64 32 amber) < 2 ^ 31)
    by (unfold height; cbn [snd size solid_image]; lia).
  destruct (solid_screenshot_is_analysed sample_open "shots/U23.png" "U" 23
              200 100 50 (solid_image 64 32 amber) eq_refl eq_refl
              (solid_image_solid _ _ _) Hw Hh) as (a & Ha & Hf & _).
  exists a. split; [exact Ha|]. split; [exact Hf|].
  assert (E : Ok (Some a) = snd (analyze_image sample_open "shots/U23.png"))
    by (now rewrite Ha).
  vm_compute in E. injection E as ->. reflexivity.
Defined.
